(** * AntiGravity Crypto Hunter: price retrieval, arbitrage detection and
      the paper-trading ledger

    A shallow embedding of [price_fetcher.py], [arbitrage_detector.py],
    [trade_simulator.py] and the part of [config.py] they read.

    Numbers.  A Python [float] is an IEEE 754 binary64 value; it is modelled
    by Rocq's primitive [float], whose [+ - * /] and comparisons are the same
    correctly rounded operations.  A decimal literal of the source ([0.8],
    [10.0], ...) is the same literal here and denotes the same binary64
    value.  Python integers that only count things ([attempt],
    [max_retries], [len(...)]) are [Z] or [nat].

    Exceptions.  A call that can raise returns a [result]; [Raise e]
    propagates through [bind] the way an uncaught exception does, and a
    [try ... except] is a [match] on the exception.

    The outside world.  The history file is an argument and a result of
    the simulator's methods.  The fetcher runs in a [world] that holds the
    clock, the outcome of every HTTP request to come, the values
    [random.random()] will return and the calls to [time.sleep] made so
    far.  Logging has no effect on any of this and is left out.

    The file has two parts: the embedding of the code with the vocabulary
    of the properties, then the proofs. *)

From Stdlib Require Import ZArith List String Bool Lia.
From Stdlib Require Import Sorted Permutation.
From Stdlib Require Uint63.
From Stdlib Require Import PrimFloat FloatOps SpecFloat FloatAxioms.
Import ListNotations.

Set Warnings "-inexact-float,-register-all".

Local Open Scope string_scope.
Local Open Scope float_scope.

(* ===================================================================== *)
(** * The fragment of the Python runtime the three modules rely on *)
(* ===================================================================== *)

Module Py.

(** The exceptions of [requests.exceptions]; every one of them derives
    from [RequestException].  [session.get] raises the failures of the
    transport, [raise_for_status] raises [HTTPError], and [response.json]
    raises the [JSONDecodeError] of [requests]. *)
Inductive transport_exn : Type :=
  | ConnectionError
  | Timeout
  | TooManyRedirects.

Inductive requests_exn : Type :=
  | HTTPError
  | Transport (e : transport_exn)
  | RequestsJSONDecodeError.

(** The exception classes that occur in the modelled code. *)
Inductive exn : Type :=
  | ZeroDivisionError
  | TypeError
  | KeyError
  | ValueError
  | FileNotFoundError
  | JSONDecodeError
  | RequestException (e : requests_exn).

Inductive result (A : Type) : Type :=
  | Ok (a : A)
  | Raise (e : exn).
Arguments Ok {A} a.
Arguments Raise {A} e.

Definition bind {A B} (c : result A) (k : A -> result B) : result B :=
  match c with
  | Ok a => k a
  | Raise e => Raise e
  end.

Notation "x <- c ;; k" := (bind c (fun x => k))
  (at level 61, c at next level, right associativity).

(** ** Floats *)

(** Truthiness of a float: [0.0] and [-0.0] are falsy, everything else
    (a NaN included) is truthy. *)
Definition truthy (x : float) : bool := negb (x =? 0).

(** [x / y] on floats: [ZeroDivisionError] when [y == 0]. *)
Definition truediv (x y : float) : result float :=
  if y =? 0 then Raise ZeroDivisionError else Ok (x / y).

(** The builtin two-argument [min(a, b)] and [max(a, b)]: the first
    argument is kept unless the second is strictly better. *)
Definition min2 (a b : float) : float := if b <? a then b else a.
Definition max2 (a b : float) : float := if a <? b then b else a.

(** [float(n)] for an integer below [2^63]; below [2^53] the conversion is
    exact. *)
Definition of_Z (z : Z) : float :=
  match z with
  | Z0 => 0
  | Zpos _ => of_uint63 (Uint63.of_Z z)
  | Zneg p => - of_uint63 (Uint63.of_Z (Zpos p))
  end.

(** The float nearest to the quotient of two positive integers, which is
    how a decimal string [k / 10^n] is read back. *)
Definition nearest_quotient (k d : positive) : float :=
  SF2Prim (SF64div (S754_finite false k 0) (S754_finite false d 0)).

(** [round(x, ndigits)] for [ndigits >= 0].  CPython prints the exact value
    of [x] with [ndigits] decimals, correctly rounded with ties to even, and
    reads the decimal string back as the nearest float.  The exact value of
    a finite float is [m * 2^e]; for [e >= 0] it is an integer and is
    returned as it is; zeros, infinities and NaN are returned unchanged. *)
Definition round_half_even (num den : Z) : Z :=
  let q := (num / den)%Z in
  let r := (num mod den)%Z in
  if (2 * r <? den)%Z then q
  else if (den <? 2 * r)%Z then (q + 1)%Z
  else if Z.even q then q else (q + 1)%Z.

Definition round (x : float) (ndigits : nat) : float :=
  match Prim2SF x with
  | S754_finite s m e =>
      if (0 <=? e)%Z then x
      else
        let p10 := Z.to_pos (10 ^ Z.of_nat ndigits) in
        let k := round_half_even (Zpos m * Zpos p10) (2 ^ (- e)) in
        let y := match k with
                 | Zpos kp => nearest_quotient kp p10
                 | _ => 0
                 end in
        if s then - y else y
  | _ => x
  end.

(** ** Dictionaries

    A [dict] keeps its keys in insertion order and iterates in that order,
    which decides ties in [min] and [max]; it is a list of entries whose
    keys are pairwise distinct. *)
Definition dict (V : Type) : Type := list (string * V).

Definition keys {V} (d : dict V) : list string := map fst d.
Definition values {V} (d : dict V) : list V := map snd d.

Fixpoint get {V} (d : dict V) (k : string) : option V :=
  match d with
  | [] => None
  | (k', v) :: d' => if String.eqb k k' then Some v else get d' k
  end.

(** [d.get(k, default)]. *)
Definition get_or {V} (d : dict V) (k : string) (default : V) : V :=
  match get d k with
  | Some v => v
  | None => default
  end.

(** [d[k]]: [KeyError] when the key is absent. *)
Definition getitem {V} (d : dict V) (k : string) : result V :=
  match get d k with
  | Some v => Ok v
  | None => Raise KeyError
  end.

(** [d[k] = v]: an existing key keeps its position, a new key goes last. *)
Fixpoint set {V} (d : dict V) (k : string) (v : V) : dict V :=
  match d with
  | [] => [(k, v)]
  | (k', v') :: d' =>
      if String.eqb k k' then (k', v) :: d' else (k', v') :: set d' k v
  end.

Definition mem {V} (d : dict V) (k : string) : bool :=
  match get d k with Some _ => true | None => false end.

(** [min(items, key=f)] and [max(items, key=f)]: one pass, the running best
    is replaced only by a strictly better item, so the first of several
    equally good items wins. *)
Fixpoint min_from {A} (key : A -> float) (best : A) (l : list A) : A :=
  match l with
  | [] => best
  | x :: l' => min_from key (if key x <? key best then x else best) l'
  end.

Fixpoint max_from {A} (key : A -> float) (best : A) (l : list A) : A :=
  match l with
  | [] => best
  | x :: l' => max_from key (if key best <? key x then x else best) l'
  end.

(** [min(d, key=d.get)] and [max(d, key=d.get)]: the iteration runs over
    the keys, and [d.get] of a key of [d] is the value of its entry.
    [ValueError] on an empty dictionary. *)
Definition min_key (d : dict float) : result string :=
  match d with
  | [] => Raise ValueError
  | e :: rest => Ok (fst (min_from snd e rest))
  end.

Definition max_key (d : dict float) : result string :=
  match d with
  | [] => Raise ValueError
  | e :: rest => Ok (fst (max_from snd e rest))
  end.

(** ** Values read from and written to JSON

    What [json.load] returns and [json.dump] accepts.  A JSON number is
    read as a float (the file is written from floats; an integer below
    [2^53] is the same number as a float). *)
Inductive value : Type :=
  | VNone
  | VBool (b : bool)
  | VNum (x : float)
  | VStr (s : string)
  | VList (l : list value)
  | VDict (m : list (string * value)).

(** The number a value stands for in arithmetic and comparisons ([True] is
    [1], [False] is [0]); [TypeError] for anything else. *)
Definition number_of (v : value) : result float :=
  match v with
  | VNum x => Ok x
  | VBool true => Ok 1
  | VBool false => Ok 0
  | _ => Raise TypeError
  end.

Definition is_number (v : value) : bool :=
  match v with
  | VNum _ | VBool _ => true
  | _ => false
  end.

(** [sum(v for ...)]: starts at [0], adds from left to right, and raises
    [TypeError] at the first item that is not a number.  (CPython 3.12 and
    later carry a correction term along while adding floats; on one item
    the result is the same float.) *)
Fixpoint sum_from (acc : float) (vs : list value) : result float :=
  match vs with
  | [] => Ok acc
  | v :: vs' => x <- number_of v ;; sum_from (acc + x) vs'
  end.

Definition sum_values (vs : list value) : result float := sum_from 0 vs.

(** [for t in v]: a list yields its items, a dictionary its keys, a string
    its characters; nothing else read from JSON is iterable. *)
Fixpoint chars (s : string) : list value :=
  match s with
  | EmptyString => []
  | String c s' => VStr (String c EmptyString) :: chars s'
  end.

Definition iterate (v : value) : result (list value) :=
  match v with
  | VList l => Ok l
  | VDict m => Ok (map (fun e => VStr (fst e)) m)
  | VStr s => Ok (chars s)
  | _ => Raise TypeError
  end.

(** [[f(x) for x in l]] where [f] may raise. *)
Fixpoint mapM {A B} (f : A -> result B) (l : list A) : result (list B) :=
  match l with
  | [] => Ok []
  | x :: l' => y <- f x ;; ys <- mapM f l' ;; Ok (y :: ys)
  end.

(** [[x for x in l if p(x)]] where [p] may raise. *)
Fixpoint filterM {A} (p : A -> result bool) (l : list A) : result (list A) :=
  match l with
  | [] => Ok []
  | x :: l' =>
      b <- p x ;; ys <- filterM p l' ;; Ok (if b then x :: ys else ys)
  end.

(** [max(l, key=f)] and [min(l, key=f)] over values: the keys are compared
    as numbers, and no comparison happens on a one-item list. *)
Fixpoint max_by_from {A} (key : A -> value) (best : A) (l : list A)
  : result A :=
  match l with
  | [] => Ok best
  | x :: l' =>
      kx <- number_of (key x) ;;
      kb <- number_of (key best) ;;
      max_by_from key (if kb <? kx then x else best) l'
  end.

Fixpoint min_by_from {A} (key : A -> value) (best : A) (l : list A)
  : result A :=
  match l with
  | [] => Ok best
  | x :: l' =>
      kx <- number_of (key x) ;;
      kb <- number_of (key best) ;;
      min_by_from key (if kx <? kb then x else best) l'
  end.

(** [x / n] for a float and an integer, and [a / b] for two integers. *)
Definition truediv_int (x : float) (n : Z) : result float :=
  if (n =? 0)%Z then Raise ZeroDivisionError else Ok (x / of_Z n).

Definition int_truediv (a b : Z) : result float :=
  if (b =? 0)%Z then Raise ZeroDivisionError else Ok (of_Z a / of_Z b).

(** [l.sort(key=f, reverse=True)].  The sort is stable and compares keys
    with [<] alone.  On keys that are totally ordered (no NaN among them)
    its result is the one of inserting every item, from the last to the
    first, in front of the first item whose key is not greater than its
    own: greatest key first, items of equal keys in their original order. *)
Fixpoint insert_desc {A} (key : A -> float) (x : A) (l : list A) : list A :=
  match l with
  | [] => [x]
  | y :: l' => if key x <? key y then y :: insert_desc key x l' else x :: l
  end.

Definition sort_desc {A} (key : A -> float) (l : list A) : list A :=
  fold_right (insert_desc key) [] l.

End Py.

Notation "x <- c ;; k" := (Py.bind c (fun x => k))
  (at level 61, c at next level, right associativity).

(* ===================================================================== *)
(** * config.py *)
(* ===================================================================== *)

Module Config.

Record TradingConfig : Type := {
  coins : list string;
  exchanges : list string;
  arbitrage_threshold_pct : float;
  sentiment_bullish_threshold : float;
  sentiment_bearish_threshold : float;
  sim_capital_usd : float;
  estimated_fee_pct : float;
  max_tweets : Z;
  loop_interval_seconds : Z;
  max_retries : Z
}.

(** [TRADING = TradingConfig()]: the defaults of the dataclass. *)
Definition TRADING : TradingConfig := {|
  coins := ["bitcoin"; "ethereum"; "solana"; "binancecoin"; "ripple"];
  exchanges := ["binance"; "coinbase"; "kraken"; "kucoin"; "bybit"];
  arbitrage_threshold_pct := 0.8;
  sentiment_bullish_threshold := 0.2;
  sentiment_bearish_threshold := -0.2;
  sim_capital_usd := 1000.0;
  estimated_fee_pct := 0.2;
  max_tweets := 50;
  loop_interval_seconds := 120;
  max_retries := 3
|}.

Definition COINGECKO_BASE_URL : string := "https://api.coingecko.com/api/v3".

(** [BotMode.CURRENT = BotMode.SIMULATION]. *)
Definition BotMode_CURRENT : string := "simulation".

End Config.

(* ===================================================================== *)
(** * arbitrage_detector.py *)
(* ===================================================================== *)

Module ArbitrageDetector.
Import Config.

Record ArbitrageOpportunity : Type := {
  coin : string;
  buy_exchange : string;
  sell_exchange : string;
  buy_price : float;
  sell_price : float;
  gross_spread_pct : float;
  net_spread_pct : float;
  estimated_profit_usd : float;
  is_viable : bool
}.

Definition find_opportunity (cfg : TradingConfig) (coin_id : string)
    (exchange_prices : Py.dict float)
  : Py.result (option ArbitrageOpportunity) :=
  if (List.length exchange_prices <? 2)%nat then Py.Ok None
  else
    buy_exchange <- Py.min_key exchange_prices ;;
    buy_price <- Py.getitem exchange_prices buy_exchange ;;
    sell_exchange <- Py.max_key exchange_prices ;;
    sell_price <- Py.getitem exchange_prices sell_exchange ;;
    if String.eqb buy_exchange sell_exchange then Py.Ok None
    else
      ratio <- Py.truediv (sell_price - buy_price) buy_price ;;
      let gross_spread_pct := ratio * 100 in
      let total_fee_pct := estimated_fee_pct cfg * 2 in
      let net_spread_pct := gross_spread_pct - total_fee_pct in
      let estimated_profit_usd := (net_spread_pct / 100) * sim_capital_usd cfg in
      let is_viable := arbitrage_threshold_pct cfg <=? net_spread_pct in
      Py.Ok (Some {|
        coin := coin_id;
        buy_exchange := buy_exchange;
        sell_exchange := sell_exchange;
        buy_price := buy_price;
        sell_price := sell_price;
        gross_spread_pct := Py.round gross_spread_pct 4;
        net_spread_pct := Py.round net_spread_pct 4;
        estimated_profit_usd := Py.round estimated_profit_usd 2;
        is_viable := is_viable
      |}).

(** The [for coin_id, exchange_prices in all_prices.items()] loop of
    [scan_all_coins]; an instance of the dataclass is truthy, so
    [opp and opp.is_viable] is [opp.is_viable] on an opportunity. *)
Fixpoint scan_each (cfg : TradingConfig)
    (items : list (string * Py.dict float))
    (opportunities : list ArbitrageOpportunity)
  : Py.result (list ArbitrageOpportunity) :=
  match items with
  | [] => Py.Ok opportunities
  | (coin_id, exchange_prices) :: rest =>
      opp <- find_opportunity cfg coin_id exchange_prices ;;
      scan_each cfg rest
        match opp with
        | Some o => if is_viable o then (opportunities ++ [o])%list
                    else opportunities
        | None => opportunities
        end
  end.

Definition scan_all_coins (cfg : TradingConfig)
    (all_prices : Py.dict (Py.dict float))
  : Py.result (list ArbitrageOpportunity) :=
  opportunities <- scan_each cfg all_prices [] ;;
  Py.Ok (Py.sort_desc net_spread_pct opportunities).

(** The dictionary [calculate_price_matrix] fills: its keys are pairs
    [(buy_ex, sell_ex)], equal when both components are. *)
Definition price_matrix : Type := list ((string * string) * float).

Definition pair_eqb (a b : string * string) : bool :=
  String.eqb (fst a) (fst b) && String.eqb (snd a) (snd b).

(** [matrix[k] = v]. *)
Fixpoint matrix_set (matrix : price_matrix) (k : string * string) (v : float)
  : price_matrix :=
  match matrix with
  | [] => [(k, v)]
  | (k', v') :: m' =>
      if pair_eqb k k' then (k', v) :: m' else (k', v') :: matrix_set m' k v
  end.

(** The inner loop [for sell_ex in exchanges[i+1:]]. *)
Fixpoint matrix_row (exchange_prices : Py.dict float) (buy_ex : string)
    (sells : list string) (matrix : price_matrix) : Py.result price_matrix :=
  match sells with
  | [] => Py.Ok matrix
  | sell_ex :: rest =>
      buy_p <- Py.getitem exchange_prices buy_ex ;;
      sell_p <- Py.getitem exchange_prices sell_ex ;;
      ratio <- Py.truediv (sell_p - buy_p) buy_p ;;
      let spread := ratio * 100 in
      matrix_row exchange_prices buy_ex rest
        (matrix_set matrix (buy_ex, sell_ex) (Py.round spread 4))
  end.

(** The outer loop [for i, buy_ex in enumerate(exchanges)]: [exchanges]
    is what is left of the keys from position [i] on. *)
Fixpoint matrix_rows (exchange_prices : Py.dict float)
    (exchanges : list string) (matrix : price_matrix)
  : Py.result price_matrix :=
  match exchanges with
  | [] => Py.Ok matrix
  | buy_ex :: later =>
      matrix <- matrix_row exchange_prices buy_ex later matrix ;;
      matrix_rows exchange_prices later matrix
  end.

Definition calculate_price_matrix (exchange_prices : Py.dict float)
  : Py.result price_matrix :=
  matrix_rows exchange_prices (Py.keys exchange_prices) [].

End ArbitrageDetector.

(* ===================================================================== *)
(** * trade_simulator.py *)
(* ===================================================================== *)

(** [sentiment_analyzer.SentimentResult], what the sentiment collaborator
    hands to the simulator. *)
Module SentimentAnalyzer.

Record SentimentResult : Type := {
  coin : string;
  score : float;
  subjectivity : float;
  tweet_count : Z;
  label : string;
  trending : bool
}.

(** [SentimentAnalyzer._score_to_label]. *)
Definition _score_to_label (cfg : Config.TradingConfig) (score : float)
  : string :=
  if Config.sentiment_bullish_threshold cfg <=? score then "BULLISH"
  else if score <=? Config.sentiment_bearish_threshold cfg then "BEARISH"
  else "NEUTRAL".

End SentimentAnalyzer.

Module TradeSimulator.
Import Config.

(** A dataclass does not check the annotations of its fields: a record
    rebuilt from the history file holds whatever JSON values the file gave,
    so every field is a [Py.value]. *)
Record SimulatedTrade : Type := {
  timestamp : Py.value;
  coin : Py.value;
  buy_exchange : Py.value;
  sell_exchange : Py.value;
  buy_price : Py.value;
  sell_price : Py.value;
  capital_used : Py.value;
  gross_profit_usd : Py.value;
  fees_paid_usd : Py.value;
  net_profit_usd : Py.value;
  net_profit_pct : Py.value;
  sentiment_score : Py.value;
  sentiment_label : Py.value;
  risk_multiplier : Py.value;
  mode : Py.value
}.

Definition field_names : list string :=
  ["timestamp"; "coin"; "buy_exchange"; "sell_exchange"; "buy_price";
   "sell_price"; "capital_used"; "gross_profit_usd"; "fees_paid_usd";
   "net_profit_usd"; "net_profit_pct"; "sentiment_score"; "sentiment_label";
   "risk_multiplier"; "mode"].

(** [trade.to_dict()], that is [asdict(trade)]. *)
Definition to_dict (t : SimulatedTrade) : Py.value :=
  Py.VDict [
    ("timestamp", timestamp t);
    ("coin", coin t);
    ("buy_exchange", buy_exchange t);
    ("sell_exchange", sell_exchange t);
    ("buy_price", buy_price t);
    ("sell_price", sell_price t);
    ("capital_used", capital_used t);
    ("gross_profit_usd", gross_profit_usd t);
    ("fees_paid_usd", fees_paid_usd t);
    ("net_profit_usd", net_profit_usd t);
    ("net_profit_pct", net_profit_pct t);
    ("sentiment_score", sentiment_score t);
    ("sentiment_label", sentiment_label t);
    ("risk_multiplier", risk_multiplier t);
    ("mode", mode t)
  ].

(** A required keyword argument: [TypeError] when it is missing. *)
Definition kwarg (m : Py.dict Py.value) (name : string) : Py.result Py.value :=
  match Py.get m name with
  | Some v => Py.Ok v
  | None => Py.Raise Py.TypeError
  end.

Definition known_field (name : string) : bool :=
  existsb (String.eqb name) field_names.

(** The constructor call that unpacks [t] into keyword arguments: [t] must
    be a mapping, every field must be given and no other keyword is
    accepted; each failure is a [TypeError]. *)
Definition SimulatedTrade_of (t : Py.value) : Py.result SimulatedTrade :=
  match t with
  | Py.VDict m =>
      if negb (forallb known_field (Py.keys m)) then Py.Raise Py.TypeError
      else
        f1 <- kwarg m "timestamp" ;;
        f2 <- kwarg m "coin" ;;
        f3 <- kwarg m "buy_exchange" ;;
        f4 <- kwarg m "sell_exchange" ;;
        f5 <- kwarg m "buy_price" ;;
        f6 <- kwarg m "sell_price" ;;
        f7 <- kwarg m "capital_used" ;;
        f8 <- kwarg m "gross_profit_usd" ;;
        f9 <- kwarg m "fees_paid_usd" ;;
        f10 <- kwarg m "net_profit_usd" ;;
        f11 <- kwarg m "net_profit_pct" ;;
        f12 <- kwarg m "sentiment_score" ;;
        f13 <- kwarg m "sentiment_label" ;;
        f14 <- kwarg m "risk_multiplier" ;;
        f15 <- kwarg m "mode" ;;
        Py.Ok {|
          timestamp := f1; coin := f2; buy_exchange := f3;
          sell_exchange := f4; buy_price := f5;
          sell_price := f6; capital_used := f7;
          gross_profit_usd := f8; fees_paid_usd := f9;
          net_profit_usd := f10; net_profit_pct := f11;
          sentiment_score := f12; sentiment_label := f13;
          risk_multiplier := f14; mode := f15
        |}
  | _ => Py.Raise Py.TypeError
  end.

(** The history file [LOG.TRADES_FILE] as [open] and [json.load] see it:
    absent, present but not JSON, or holding a JSON document. *)
Inductive trades_file : Type :=
  | Absent
  | NotJSON
  | Document (v : Py.value).

(** [with open(LOG.TRADES_FILE, "r") as f: json.load(f)]. *)
Definition load_json (file : trades_file) : Py.result Py.value :=
  match file with
  | Absent => Py.Raise Py.FileNotFoundError
  | NotJSON => Py.Raise Py.JSONDecodeError
  | Document v => Py.Ok v
  end.

(** The attributes of a [TradeSimulator] object. *)
Record t : Type := {
  capital : float;
  initial_capital : float;
  trade_history : list SimulatedTrade
}.

(** [sum(t.net_profit_usd for t in self.trade_history)]. *)
Definition cumulative_profit (history : list SimulatedTrade) : Py.result float :=
  Py.sum_values (map net_profit_usd history).

(** [_load_existing_trades]: the two caught exceptions can only come from
    [open] and [json.load], before anything is assigned; every other
    exception leaves the method. *)
Definition _load_existing_trades (self : t) (file : trades_file) : Py.result t :=
  let body :=
    trades_data <- load_json file ;;
    items <- Py.iterate trades_data ;;
    loaded <- Py.mapM SimulatedTrade_of items ;;
    let history := (trade_history self ++ loaded)%list in
    match history with
    | [] => Py.Ok {| capital := capital self;
                     initial_capital := initial_capital self;
                     trade_history := history |}
    | _ :: _ =>
        profit <- cumulative_profit history ;;
        Py.Ok {| capital := initial_capital self + profit;
                 initial_capital := initial_capital self;
                 trade_history := history |}
    end in
  match body with
  | Py.Raise Py.FileNotFoundError => Py.Ok self
  | Py.Raise Py.JSONDecodeError => Py.Ok self
  | r => r
  end.

(** [TradeSimulator(initial_capital)]; [None] is the default argument, and
    [initial_capital or TRADING.sim_capital_usd] takes the configured
    capital when the argument is [None] or zero. *)
Definition __init__ (cfg : TradingConfig) (initial_capital : option float)
    (file : trades_file) : Py.result t :=
  let capital :=
    match initial_capital with
    | Some c => if Py.truthy c then c else sim_capital_usd cfg
    | None => sim_capital_usd cfg
    end in
  _load_existing_trades
    {| capital := capital; initial_capital := capital; trade_history := [] |}
    file.

Definition _sentiment_to_risk (sentiment : SentimentAnalyzer.SentimentResult)
  : float :=
  let score := SentimentAnalyzer.score sentiment in
  let multiplier :=
    if 0.5 <=? score then 1.5
    else if 0.2 <=? score then 1.2
    else if -0.2 <=? score then 1.0
    else if -0.5 <=? score then 0.7
    else 0.3 in
  if SentimentAnalyzer.trending sentiment then multiplier * 1.1
  else multiplier.

(** Lines 109 to 111 of [execute_simulation]: the capital deployed in one
    trade. *)
Definition sized_capital (capital risk_multiplier : float) : float :=
  let max_capital := capital * 0.80 in
  let capital_used := Py.min2 max_capital (capital * risk_multiplier * 0.5) in
  Py.max2 10.0 capital_used.

(** [_save_trade]: whatever goes wrong is logged and swallowed, so the
    file is left as it was; a document that is not a list has no
    [append]. *)
Definition _save_trade (file : trades_file) (trade : SimulatedTrade)
  : trades_file :=
  let trades_data :=
    match load_json file with
    | Py.Ok v => Py.Ok v
    | Py.Raise Py.FileNotFoundError => Py.Ok (Py.VList [])
    | Py.Raise Py.JSONDecodeError => Py.Ok (Py.VList [])
    | Py.Raise e => Py.Raise e
    end in
  match trades_data with
  | Py.Ok (Py.VList l) => Document (Py.VList (l ++ [to_dict trade])%list)
  | _ => file
  end.

(** [execute_simulation].  [now] is [datetime.now().isoformat()].  The
    result comes with the simulator and the history file as the call
    leaves them; an exception is raised before either is touched. *)
Definition execute_simulation (cfg : TradingConfig) (now : string)
    (self : t) (file : trades_file)
    (opportunity : ArbitrageDetector.ArbitrageOpportunity)
    (sentiment : SentimentAnalyzer.SentimentResult)
  : Py.result (option SimulatedTrade) * t * trades_file :=
  if negb (ArbitrageDetector.is_viable opportunity)
  then (Py.Ok None, self, file)
  else if capital self <=? 0 then (Py.Ok None, self, file)
  else
    let risk := _sentiment_to_risk sentiment in
    let used := sized_capital (capital self) risk in
    let settled :=
      units <- Py.truediv used (ArbitrageDetector.buy_price opportunity) ;;
      let gross_revenue :=
        units * ArbitrageDetector.sell_price opportunity in
      let gross_profit := gross_revenue - used in
      let fee_buy := used * (estimated_fee_pct cfg / 100) in
      let fee_sell := gross_revenue * (estimated_fee_pct cfg / 100) in
      let total_fees := fee_buy + fee_sell in
      let net_profit := gross_profit - total_fees in
      ratio <- Py.truediv net_profit used ;;
      let net_pct := ratio * 100 in
      Py.Ok (net_profit, {|
        timestamp := Py.VStr now;
        coin := Py.VStr (ArbitrageDetector.coin opportunity);
        buy_exchange := Py.VStr (ArbitrageDetector.buy_exchange opportunity);
        sell_exchange := Py.VStr (ArbitrageDetector.sell_exchange opportunity);
        buy_price := Py.VNum (ArbitrageDetector.buy_price opportunity);
        sell_price := Py.VNum (ArbitrageDetector.sell_price opportunity);
        capital_used := Py.VNum (Py.round used 2);
        gross_profit_usd := Py.VNum (Py.round gross_profit 2);
        fees_paid_usd := Py.VNum (Py.round total_fees 2);
        net_profit_usd := Py.VNum (Py.round net_profit 2);
        net_profit_pct := Py.VNum (Py.round net_pct 4);
        sentiment_score := Py.VNum (SentimentAnalyzer.score sentiment);
        sentiment_label := Py.VStr (SentimentAnalyzer.label sentiment);
        risk_multiplier := Py.VNum (Py.round risk 3);
        mode := Py.VStr BotMode_CURRENT
      |}) in
    match settled with
    | Py.Raise e => (Py.Raise e, self, file)
    | Py.Ok (net_profit, trade) =>
        (Py.Ok (Some trade),
         {| capital := capital self + net_profit;
            initial_capital := initial_capital self;
            trade_history := (trade_history self ++ [trade])%list |},
         _save_trade file trade)
    end.

(** The dictionary [get_performance_summary] returns; its key
    ["initial_capital"] is the field [summary_initial_capital]. *)
Record performance : Type := {
  total_trades : Z;
  winning_trades : Z;
  losing_trades : Z;
  win_rate_pct : float;
  summary_initial_capital : float;
  current_capital : float;
  total_profit_usd : float;
  total_return_pct : float;
  avg_profit_per_trade : float;
  best_trade : Py.value;
  worst_trade : Py.value
}.

Inductive summary : Type :=
  | Message (message : string)
  | Performance (p : performance).

Definition len {A} (l : list A) : Z := Z.of_nat (List.length l).

Definition get_performance_summary (self : t) : Py.result summary :=
  match trade_history self with
  | [] => Py.Ok (Message "Sin trades registrados aún.")
  | first :: rest =>
      let history := trade_history self in
      total_profit <- cumulative_profit history ;;
      win_trades <-
        Py.filterM (fun t => x <- Py.number_of (net_profit_usd t) ;;
                             Py.Ok (0 <? x)) history ;;
      loss_trades <-
        Py.filterM (fun t => x <- Py.number_of (net_profit_usd t) ;;
                             Py.Ok (x <=? 0)) history ;;
      win_ratio <- Py.int_truediv (len win_trades) (len history) ;;
      let win_rate := win_ratio * 100 in
      return_ratio <-
        Py.truediv (capital self - initial_capital self) (initial_capital self) ;;
      let total_return_pct := return_ratio * 100 in
      avg <- Py.truediv_int total_profit (len history) ;;
      best <- Py.max_by_from net_profit_usd first rest ;;
      worst <- Py.min_by_from net_profit_usd first rest ;;
      Py.Ok (Performance {|
        total_trades := len history;
        winning_trades := len win_trades;
        losing_trades := len loss_trades;
        win_rate_pct := Py.round win_rate 1;
        summary_initial_capital := initial_capital self;
        current_capital := Py.round (capital self) 2;
        total_profit_usd := Py.round total_profit 2;
        total_return_pct := Py.round total_return_pct 2;
        avg_profit_per_trade := Py.round avg 2;
        best_trade := net_profit_usd best;
        worst_trade := net_profit_usd worst
      |})
  end.

End TradeSimulator.

(* ===================================================================== *)
(** * price_fetcher.py *)
(* ===================================================================== *)

Module PriceFetcher.
Import Config.

Definition EXCHANGE_ID_MAP : Py.dict string := [
  ("binance", "binance");
  ("coinbase", "gdax");
  ("coinbase-exchange", "gdax");
  ("kraken", "kraken");
  ("huobi", "huobi");
  ("htx", "huobi");
  ("kucoin", "kucoin");
  ("bybit", "bybit_spot");
  ("okx", "okex");
  ("bitfinex", "bitfinex");
  ("gate", "gate");
  ("bitget", "bitget");
  ("mexc", "mxc")
].

Definition _exponential_backoff (attempt base_wait : Z) : Z :=
  (base_wait * 2 ^ attempt)%Z.

(** ** What the upstream API answers

    The JSON bodies are read at the schema of the three endpoints: a page
    of tickers with its [has_more] flag, the simple prices of some coins
    (a coin's ["usd"] entry may be missing or null), or an empty object.
    A key that is absent reads as the default the source passes to
    [dict.get]. *)
Record ticker : Type := {
  market_identifier : string;
  target : string;
  converted_last_usd : option float
}.

Inductive payload : Type :=
  | EmptyObject
  | Tickers (tickers : list ticker) (has_more : bool)
  | SimplePrices (prices : Py.dict (option float)).

Definition falsy (data : payload) : bool :=
  match data with
  | EmptyObject => true
  | SimplePrices [] => true
  | _ => false
  end.

Definition tickers_of (data : payload) : list ticker :=
  match data with Tickers l _ => l | _ => [] end.

Definition has_more_of (data : payload) : bool :=
  match data with Tickers _ b => b | _ => false end.

(** A response: its status code and what [response.json()] gives ([None]
    when the body is not JSON). *)
Record response : Type := {
  status_code : Z;
  json_body : option payload
}.

(** One [session.get]: it takes [latency] seconds and then either returns a
    response or raises because the transport failed. *)
Inductive reply : Type :=
  | Responds (r : response)
  | Fails (e : Py.transport_exn).

Record outcome : Type := {
  latency : float;
  answer : reply
}.

Inductive sleep : Type :=
  | Throttle (seconds : float)
  | Backoff (seconds : Z).

(** The fetcher's two attributes together with the world it acts on: the
    clock behind [time.time()], the outcome of the n-th HTTP request, the
    n-th value of [random.random()], and the calls to [time.sleep] made so
    far, oldest first. *)
Record world : Type := {
  _last_call_time : float;
  _min_call_interval : float;
  clock : float;
  network : nat -> outcome;
  requests_made : nat;
  random_tape : nat -> float;
  draws_made : nat;
  slept : list sleep
}.

(** A fresh [PriceFetcher()] in a given world. *)
Definition fresh (now : float) (net : nat -> outcome) (tape : nat -> float)
  : world :=
  {| _last_call_time := 0.0; _min_call_interval := 2.0; clock := now;
     network := net; requests_made := 0; random_tape := tape;
     draws_made := 0; slept := [] |}.

(** Computations that read and change the world and may raise. *)
Definition M (A : Type) : Type := world -> Py.result A * world.

Definition ret {A} (a : A) : M A := fun w => (Py.Ok a, w).

Definition mbind {A B} (c : M A) (k : A -> M B) : M B :=
  fun w =>
    match c w with
    | (Py.Ok a, w') => k a w'
    | (Py.Raise e, w') => (Py.Raise e, w')
    end.

Definition raise {A} (e : Py.exn) : M A := fun w => (Py.Raise e, w).

(** [try: c  except HTTPError: h  except RequestException: h]: the source
    handles the two alike, but for the log line. *)
Definition except_RequestException {A} (c : M A) (h : M A) : M A :=
  fun w =>
    match c w with
    | (Py.Raise (Py.RequestException _), w') => h w'
    | r => r
    end.

Declare Scope fetch_scope.
Delimit Scope fetch_scope with fetch.
Notation "x <~ c ;; k" := (mbind c (fun x => k))
  (at level 61, c at next level, right associativity) : fetch_scope.
Notation "c ;;; k" := (mbind c (fun _ => k))
  (at level 61, right associativity) : fetch_scope.
Local Open Scope fetch_scope.

Definition seconds_of (s : sleep) : float :=
  match s with
  | Throttle x => x
  | Backoff n => Py.of_Z n
  end.

(** Reading an attribute of the fetcher or a component of the world. *)
Definition reading {A} (f : world -> A) : M A := fun w => (Py.Ok (f w), w).

Definition time_time : M float := reading clock.

Definition time_sleep (s : sleep) : M unit := fun w =>
  (Py.Ok tt,
   {| _last_call_time := _last_call_time w;
      _min_call_interval := _min_call_interval w;
      clock := clock w + seconds_of s;
      network := network w; requests_made := requests_made w;
      random_tape := random_tape w; draws_made := draws_made w;
      slept := (slept w ++ [s])%list |}).

Definition set_last_call_time (x : float) : M unit := fun w =>
  (Py.Ok tt,
   {| _last_call_time := x;
      _min_call_interval := _min_call_interval w;
      clock := clock w;
      network := network w; requests_made := requests_made w;
      random_tape := random_tape w; draws_made := draws_made w;
      slept := slept w |}).

(** [self.session.get(url, params=params, timeout=15)]. *)
Definition session_get : M response := fun w =>
  let o := network w (requests_made w) in
  let w' :=
    {| _last_call_time := _last_call_time w;
       _min_call_interval := _min_call_interval w;
       clock := clock w + latency o;
       network := network w; requests_made := S (requests_made w);
       random_tape := random_tape w; draws_made := draws_made w;
       slept := slept w |} in
  match answer o with
  | Responds r => (Py.Ok r, w')
  | Fails e => (Py.Raise (Py.RequestException (Py.Transport e)), w')
  end.

(** [random.random()]. *)
Definition random_random : M float := fun w =>
  (Py.Ok (random_tape w (draws_made w)),
   {| _last_call_time := _last_call_time w;
      _min_call_interval := _min_call_interval w;
      clock := clock w;
      network := network w; requests_made := requests_made w;
      random_tape := random_tape w; draws_made := S (draws_made w);
      slept := slept w |}).

(** [random.uniform(a, b)] is [a + (b - a) * random()]. *)
Definition uniform_of (a b r : float) : float := a + (b - a) * r.

Definition random_uniform (a b : float) : M float :=
  r <~ random_random ;; ret (uniform_of a b r).

(** [response.raise_for_status()]. *)
Definition raise_for_status (r : response) : M unit :=
  if ((400 <=? status_code r) && (status_code r <? 600))%Z
  then raise (Py.RequestException Py.HTTPError)
  else ret tt.

(** [response.json()]; the exception is [requests.exceptions.JSONDecodeError]. *)
Definition response_json (r : response) : M payload :=
  match json_body r with
  | Some data => ret data
  | None => raise (Py.RequestException Py.RequestsJSONDecodeError)
  end.

(** How one turn of the [for attempt in range(max_retries)] loop ends. *)
Inductive turn : Type :=
  | Next
  | Return (data : payload).

Definition attempt_once (attempt max_retries : Z) : M turn :=
  except_RequestException
    (response <~ session_get ;;
     now <~ time_time ;;
     set_last_call_time now ;;;
     if (status_code response =? 429)%Z then
       time_sleep (Backoff (_exponential_backoff attempt 15)) ;;;
       ret Next
     else
       raise_for_status response ;;;
       data <~ response_json response ;;
       ret (Return data))
    ((if (attempt <? max_retries - 1)%Z
      then time_sleep (Backoff (_exponential_backoff attempt 5))
      else ret tt) ;;;
     ret Next).

(** The loop over [range(max_retries)]: [todo] turns are left and the next
    one is numbered [attempt]. *)
Fixpoint attempts (todo : nat) (attempt max_retries : Z) : M (option payload) :=
  match todo with
  | O => ret None
  | S todo' =>
      t <~ attempt_once attempt max_retries ;;
      match t with
      | Return data => ret (Some data)
      | Next => attempts todo' (attempt + 1)%Z max_retries
      end
  end.

Definition _safe_get (cfg : TradingConfig) (url : string)
    (max_retries : option Z) : M (option payload) :=
  let max_retries :=
    match max_retries with
    | Some n => n
    | None => Config.max_retries cfg
    end in
  now <~ time_time ;;
  last <~ reading _last_call_time ;;
  interval <~ reading _min_call_interval ;;
  let elapsed := now - last in
  (if elapsed <? interval
   then time_sleep (Throttle (interval - elapsed))
   else ret tt) ;;;
  attempts (Z.to_nat max_retries) 0 max_retries.

(** [get_price_simple]: the reply, or [{}] when there is none or it is
    falsy. *)
Definition get_price_simple (cfg : TradingConfig) (coin_ids : list string)
  : M payload :=
  let url := COINGECKO_BASE_URL ++ "/simple/price" in
  data <~ _safe_get cfg url None ;;
  match data with
  | Some d => if falsy d then ret EmptyObject else ret d
  | None => ret EmptyObject
  end.

(** [data.get(coin_id, {}).get("usd")]. *)
Definition usd_of (data : payload) (coin_id : string) : option float :=
  match data with
  | SimplePrices prices =>
      match Py.get prices coin_id with
      | Some usd => usd
      | None => None
      end
  | _ => None
  end.

Definition has_coin (data : payload) (coin_id : string) : bool :=
  match data with
  | SimplePrices prices => Py.mem prices coin_id
  | _ => false
  end.

Definition fallback_prices : Py.dict float := [
  ("bitcoin", 68000.0);
  ("ethereum", 2000.0);
  ("solana", 85.0);
  ("binancecoin", 620.0);
  ("ripple", 1.40)
].

(** The [for exchange in TRADING.exchanges] loop of
    [_simulate_exchange_prices]. *)
Fixpoint simulate_each (exchanges : list string) (base_price : float)
    (simulated : Py.dict float) : M (Py.dict float) :=
  match exchanges with
  | [] => ret simulated
  | exchange :: rest =>
      spread_pct <~ random_uniform (-0.015) 0.015 ;;
      simulate_each rest base_price
        (Py.set simulated exchange (Py.round (base_price * (1 + spread_pct)) 2))
  end.

(** [_simulate_exchange_prices].  [base_data[coin_id].get("usd", 0)] reads
    an absent price as [0]; [if not base_price] sends [None] and zero to
    the hardcoded table. *)
Definition _simulate_exchange_prices (cfg : TradingConfig) (coin_id : string)
    (base_price : option float) : M (Py.dict float) :=
  base_price <~
    match base_price with
    | None =>
        base_data <~ get_price_simple cfg [coin_id] ;;
        if negb (falsy base_data) && has_coin base_data coin_id
        then ret (match usd_of base_data coin_id with
                  | Some p => Some p
                  | None => Some 0
                  end)
        else ret None
    | Some p => ret (Some p)
    end ;;
  let base_price :=
    match base_price with
    | Some p =>
        if Py.truthy p then p else Py.get_or fallback_prices coin_id 100.0
    | None => Py.get_or fallback_prices coin_id 100.0
    end in
  simulate_each (exchanges cfg) base_price [].

(** The body of the [for ticker in tickers] loop: the first valid
    USD or USDT quote of a wanted exchange is kept. *)
Definition scan_ticker (target_ids : list string) (prices : Py.dict float)
    (tk : ticker) : Py.dict float :=
  let exchange_id := market_identifier tk in
  if negb (existsb (String.eqb exchange_id) target_ids) then prices
  else if negb (String.eqb (target tk) "USD" || String.eqb (target tk) "USDT")
  then prices
  else
    match converted_last_usd tk with
    | None => prices
    | Some price_usd =>
        if negb (Py.truthy price_usd) || (price_usd <=? 0) then prices
        else if Py.mem prices exchange_id then prices
        else Py.set prices exchange_id price_usd
    end.

(** The [while True] loop over the pages; it leaves at the latest when
    [page] passes 5, so [turns = 5] turns are enough. *)
Fixpoint paging (cfg : TradingConfig) (url : string)
    (target_ids : list string)
    (turns : nat) (page : Z) (prices : Py.dict float) : M (Py.dict float) :=
  match turns with
  | O => ret prices
  | S turns' =>
      data <~ _safe_get cfg url None ;;
      match data with
      | None => ret prices
      | Some data =>
          if falsy data then ret prices
          else
            match tickers_of data with
            | [] => ret prices
            | tickers =>
                let prices := fold_left (scan_ticker target_ids) tickers prices in
                if forallb (Py.mem prices) target_ids then ret prices
                else if negb (has_more_of data)
                        && (Z.of_nat (List.length tickers) <? 100)%Z
                then ret prices
                else
                  let page := (page + 1)%Z in
                  if (5 <? page)%Z then ret prices
                  else paging cfg url target_ids turns' page prices
            end
      end
  end.

(** [{EXCHANGE_ID_MAP.get(ex, ex) for ex in TRADING.exchanges}]. *)
Definition target_ids_of (cfg : TradingConfig) : list string :=
  map (fun ex => Py.get_or EXCHANGE_ID_MAP ex ex) (exchanges cfg).

(** [{v: k for k, v in EXCHANGE_ID_MAP.items() if k in TRADING.exchanges}]. *)
Definition id_to_friendly_of (cfg : TradingConfig) : Py.dict string :=
  fold_left
    (fun acc e =>
       if existsb (String.eqb (fst e)) (exchanges cfg)
       then Py.set acc (snd e) (fst e) else acc)
    EXCHANGE_ID_MAP [].

(** The real quotes of [get_all_exchange_prices] (up to the test on their
    number), under the configured names. *)
Definition real_prices (cfg : TradingConfig) (coin_id : string)
  : M (Py.dict float) :=
  let url := COINGECKO_BASE_URL ++ "/coins/" ++ coin_id ++ "/tickers" in
  prices <~ paging cfg url (target_ids_of cfg) 5 1 [] ;;
  let id_to_friendly := id_to_friendly_of cfg in
  ret (fold_left
         (fun acc e =>
            let friendly := Py.get_or id_to_friendly (fst e) (fst e) in
            Py.set acc friendly (snd e))
         prices []).

Definition get_all_exchange_prices (cfg : TradingConfig) (coin_id : string)
  : M (Py.dict float) :=
  prices_friendly <~ real_prices cfg coin_id ;;
  if (List.length prices_friendly <? 2)%nat then
    base_data <~ get_price_simple cfg [coin_id] ;;
    let base_price :=
      if falsy base_data then None else usd_of base_data coin_id in
    _simulate_exchange_prices cfg coin_id base_price
  else ret prices_friendly.

End PriceFetcher.

(* ===================================================================== *)
(** * The vocabulary of the properties *)
(* ===================================================================== *)

Module Spec.
Import Config ArbitrageDetector.

(** ** The order of floats *)

(** The comparison of two floats as [SpecFloat] specifies it: [None] when
    one of them is a NaN. *)
Definition cmp (x y : float) : option comparison :=
  SFcompare (Prim2SF x) (Prim2SF y).

(** [x == x] holds for every float but NaN. *)
Definition ordered (x : float) : Prop := (x =? x) = true.

(** ** Price maps *)





(** ** Spreads before they are rounded for the record *)

Definition raw_gross_spread_pct (buy_price sell_price : float) : float :=
  (sell_price - buy_price) / buy_price * 100.

Definition raw_net_spread_pct (cfg : TradingConfig)
    (buy_price sell_price : float) : float :=
  raw_gross_spread_pct buy_price sell_price - estimated_fee_pct cfg * 2.

(** ** The states a simulator can be in

    A simulator is built by [__init__] from some history file and then
    only changed by [execute_simulation], whether the call returns or
    raises. *)
Inductive reachable (cfg : TradingConfig) : TradeSimulator.t -> Prop :=
  | reach_init (initial_capital : option float)
      (file : TradeSimulator.trades_file) (self : TradeSimulator.t) :
      TradeSimulator.__init__ cfg initial_capital file = Py.Ok self ->
      reachable cfg self
  | reach_execute (now : string) (self self' : TradeSimulator.t)
      (file file' : TradeSimulator.trades_file)
      (opportunity : ArbitrageOpportunity)
      (sentiment : SentimentAnalyzer.SentimentResult)
      (r : Py.result (option TradeSimulator.SimulatedTrade)) :
      reachable cfg self ->
      TradeSimulator.execute_simulation cfg now self file opportunity sentiment
        = (r, self', file') ->
      reachable cfg self'.

(** What every reachable simulator satisfies: its initial capital is not
    zero and every recorded net profit is a number. *)
Definition well_kept (self : TradeSimulator.t) : Prop :=
  Py.truthy (TradeSimulator.initial_capital self) = true /\
  Forall (fun t => Py.is_number (TradeSimulator.net_profit_usd t) = true)
         (TradeSimulator.trade_history self).

(** [capital == initial_capital + sum(t.net_profit_usd for t in history)],
    as Python evaluates it; [None] when the evaluation raises. *)
Definition ledger_reconciles (self : TradeSimulator.t) : option bool :=
  match TradeSimulator.cumulative_profit (TradeSimulator.trade_history self) with
  | Py.Ok profit =>
      Some (TradeSimulator.capital self
            =? TradeSimulator.initial_capital self + profit)
  | Py.Raise _ => None
  end.

(** ** Retries *)

(** What one HTTP request amounts to for [_safe_get]. *)
Inductive verdict : Type :=
  | RateLimited
  | Transient
  | Success (data : PriceFetcher.payload).

Definition judge (o : PriceFetcher.outcome) : verdict :=
  match PriceFetcher.answer o with
  | PriceFetcher.Fails _ => Transient
  | PriceFetcher.Responds r =>
      if (PriceFetcher.status_code r =? 429)%Z then RateLimited
      else if ((400 <=? PriceFetcher.status_code r)
               && (PriceFetcher.status_code r <? 600))%Z then Transient
      else match PriceFetcher.json_body r with
           | Some data => Success data
           | None => Transient
           end
  end.

(** The verdicts of the next [n] requests in world [w]. *)
Definition verdicts (w : PriceFetcher.world) (n : nat) : list verdict :=
  map (fun i => judge (PriceFetcher.network w (PriceFetcher.requests_made w + i)))
      (seq 0 n).

(** The seconds slept after a failed attempt: after a 429 always, after
    another failure unless the attempt was the last one. *)
Definition backoff_after (max_retries attempt : Z) (v : verdict) : list Z :=
  match v with
  | RateLimited => [15 * 2 ^ attempt]%Z
  | Transient => if (attempt <? max_retries - 1)%Z then [5 * 2 ^ attempt]%Z else []
  | Success _ => []
  end.

(** The same with a sleep after every failed attempt. *)
Definition backoff_after_every (attempt : Z) (v : verdict) : list Z :=
  match v with
  | RateLimited => [15 * 2 ^ attempt]%Z
  | Transient => [5 * 2 ^ attempt]%Z
  | Success _ => []
  end.

(** The sleeps and the result of a run of attempts numbered from
    [attempt]: the run stops at the first success. *)
Fixpoint retry_schedule (after : Z -> verdict -> list Z) (vs : list verdict)
    (attempt : Z) : list Z * option PriceFetcher.payload :=
  match vs with
  | [] => ([], None)
  | Success data :: _ => ([], Some data)
  | v :: vs' =>
      let rest := retry_schedule after vs' (attempt + 1)%Z in
      ((after attempt v ++ fst rest)%list, snd rest)
  end.

Definition is_failure (v : verdict) : bool :=
  match v with Success _ => false | _ => true end.

(** The back-off sleeps among the calls to [time.sleep]. *)
Definition backoffs (l : list PriceFetcher.sleep) : list Z :=
  flat_map (fun s => match s with
                     | PriceFetcher.Backoff n => [n]
                     | PriceFetcher.Throttle _ => []
                     end) l.

(** The number of turns a call of [_safe_get] makes at most. *)
Definition retry_limit (cfg : TradingConfig) (max_retries : option Z) : Z :=
  match max_retries with
  | Some n => n
  | None => Config.max_retries cfg
  end.

(** [w'] is [w] after some requests and sleeps: the same network, the same
    random tape read up to the same point, [sleeps] more calls to
    [time.sleep]. *)
Definition advanced (w w' : PriceFetcher.world) (requests : nat)
    (sleeps : list PriceFetcher.sleep) : Prop :=
  PriceFetcher.network w' = PriceFetcher.network w /\
  PriceFetcher.requests_made w'
  = (PriceFetcher.requests_made w + requests)%nat /\
  PriceFetcher.random_tape w' = PriceFetcher.random_tape w /\
  PriceFetcher.draws_made w' = PriceFetcher.draws_made w /\
  PriceFetcher.slept w' = (PriceFetcher.slept w ++ sleeps)%list.

(** ** Synthetic quotes *)



(** ** Scans and price matrices *)

(** [a] may stand before [b] in a list sorted by net spread, greatest
    first. *)
Definition by_net_spread (a b : ArbitrageOpportunity) : Prop :=
  (net_spread_pct b <=? net_spread_pct a) = true.

(** The viable opportunity of one coin of a snapshot, if there is one. *)
Definition viable_of (cfg : TradingConfig) (item : string * Py.dict float)
  : list ArbitrageOpportunity :=
  match find_opportunity cfg (fst item) (snd item) with
  | Py.Ok (Some opp) => if is_viable opp then [opp] else []
  | _ => []
  end.

(** Every item of a list paired with every later item, row by row. *)
Fixpoint later_pairs {A} (l : list A) : list (A * A) :=
  match l with
  | [] => []
  | x :: rest => (map (pair x) rest ++ later_pairs rest)%list
  end.

(** The entry of the price matrix for buying at [buy] and selling at
    [sell]. *)
Definition spread_entry (p : (string * float) * (string * float))
  : (string * string) * float :=
  let (buy, sell) := p in
  ((fst buy, fst sell), Py.round (raw_gross_spread_pct (snd buy) (snd sell)) 4).

(** A price of [d] other than the last one is zero. *)
Definition zero_before_last (d : Py.dict float) : bool :=
  existsb (fun p => p =? 0) (removelast (Py.values d)).

(** ** The simulator and its history file over time *)

(** The simulator and the file after any number of calls of
    [execute_simulation], nobody else writing the file. *)
Inductive runs (cfg : TradingConfig)
  : TradeSimulator.t * TradeSimulator.trades_file ->
    TradeSimulator.t * TradeSimulator.trades_file -> Prop :=
  | runs_refl (st : TradeSimulator.t * TradeSimulator.trades_file) :
      runs cfg st st
  | runs_step (st : TradeSimulator.t * TradeSimulator.trades_file)
      (now : string) (self self' : TradeSimulator.t)
      (file file' : TradeSimulator.trades_file)
      (opportunity : ArbitrageOpportunity)
      (sentiment : SentimentAnalyzer.SentimentResult)
      (r : Py.result (option TradeSimulator.SimulatedTrade)) :
      runs cfg st (self, file) ->
      TradeSimulator.execute_simulation cfg now self file opportunity sentiment
        = (r, self', file') ->
      runs cfg st (self', file').

(** The records [_save_trade] appends to: the list the file holds, the
    empty list when the file is missing or is not JSON, nothing when the
    document is not a list. *)
Definition stored (file : TradeSimulator.trades_file)
  : option (list Py.value) :=
  match file with
  | TradeSimulator.Absent | TradeSimulator.NotJSON => Some []
  | TradeSimulator.Document (Py.VList l) => Some l
  | TradeSimulator.Document _ => None
  end.

(** The file holds the records of the simulator's history, in order. *)
Definition in_sync (self : TradeSimulator.t)
    (file : TradeSimulator.trades_file) : Prop :=
  exists l, stored file = Some l /\
            Py.mapM TradeSimulator.SimulatedTrade_of l
            = Py.Ok (TradeSimulator.trade_history self).

(** The number a recorded value stands for, [0] when it is none. *)
Definition amount (v : Py.value) : float :=
  match Py.number_of v with
  | Py.Ok x => x
  | Py.Raise _ => 0
  end.

(** ** Requests and quotes *)

Definition total (l : list Z) : Z := fold_right Z.add 0%Z l.

(** What [get_all_exchange_prices] checks of a real quote before it keeps
    it: the price is neither zero nor below zero. *)
Definition vetted (prices : Py.dict float) : Prop :=
  NoDup (Py.keys prices) /\
  Forall (fun e => (snd e =? 0) = false /\ (snd e <=? 0) = false) prices.

(** ** What a fetch costs *)

(** The requests a run of attempts makes on the given verdicts: one for
    every failure before the first success, and one for that success. *)
Fixpoint tried (vs : list verdict) : nat :=
  match vs with
  | [] => O
  | Success _ :: _ => 1
  | _ :: vs' => S (tried vs')
  end.

(** The seconds of back-off that [m] attempts can add up to, at
    [15 * 2^n] seconds after attempt [n]. *)
Definition backoff_budget (m : nat) : Z := (15 * (2 ^ Z.of_nat m - 1))%Z.

(** From [w] to [w'] the fetcher made at most [calls] calls of
    [_safe_get] of at most [m] attempts each: it sent at most
    [calls * m] requests and slept at most [calls] back-off budgets. *)
Definition spent (w w' : PriceFetcher.world) (calls m : nat) : Prop :=
  exists requests sleeps,
    PriceFetcher.requests_made w'
    = (PriceFetcher.requests_made w + requests)%nat /\
    PriceFetcher.slept w' = (PriceFetcher.slept w ++ sleeps)%list /\
    (requests <= calls * m)%nat /\
    (total (backoffs sleeps) <= Z.of_nat calls * backoff_budget m)%Z.

(** [c] returns when it is run in [w], with a result and a world that
    satisfy [post]. *)
Definition returns {A} (c : PriceFetcher.M A) (w : PriceFetcher.world)
    (post : A -> PriceFetcher.world -> Prop) : Prop :=
  exists a w', c w = (Py.Ok a, w') /\ post a w'.

(** The capital a simulator starts from: the argument of the constructor,
    the configured capital when the argument is [None] or zero. *)
Definition opening_capital (cfg : TradingConfig)
    (initial_capital : option float) : float :=
  match initial_capital with
  | Some c => if Py.truthy c then c else sim_capital_usd cfg
  | None => sim_capital_usd cfg
  end.

End Spec.

(* ===================================================================== *)
(** * Concrete runs *)
(* ===================================================================== *)

Module Scenario.
Import Config.

Definition now : string := "2026-01-01T00:00:00".

Definition btc_wide : Py.dict float :=
  [("binance", 67000); ("coinbase", 69000)].

Definition btc_narrow : Py.dict float :=
  [("binance", 67800); ("coinbase", 68200)].

Definition btc_boundary : Py.dict float :=
  [("binance", 100000); ("coinbase", 101199.96)].

(** The opportunity [find_opportunity] returns on [btc_wide]. *)
Definition wide_opportunity : ArbitrageDetector.ArbitrageOpportunity := {|
  ArbitrageDetector.coin := "bitcoin";
  ArbitrageDetector.buy_exchange := "binance";
  ArbitrageDetector.sell_exchange := "coinbase";
  ArbitrageDetector.buy_price := 67000;
  ArbitrageDetector.sell_price := 69000;
  ArbitrageDetector.gross_spread_pct := 2.9851;
  ArbitrageDetector.net_spread_pct := 2.5851;
  ArbitrageDetector.estimated_profit_usd := 25.85;
  ArbitrageDetector.is_viable := true
|}.

Definition neutral : SentimentAnalyzer.SentimentResult := {|
  SentimentAnalyzer.coin := "bitcoin";
  SentimentAnalyzer.score := 0.0;
  SentimentAnalyzer.subjectivity := 0.5;
  SentimentAnalyzer.tweet_count := 10;
  SentimentAnalyzer.label := "NEUTRAL";
  SentimentAnalyzer.trending := false
|}.

(** [TradeSimulator()] and [TradeSimulator(initial_capital=5.0)] with no
    history file. *)
Definition fresh_simulator : TradeSimulator.t :=
  {| TradeSimulator.capital := 1000;
     TradeSimulator.initial_capital := 1000;
     TradeSimulator.trade_history := [] |}.

Definition small_simulator : TradeSimulator.t :=
  {| TradeSimulator.capital := 5;
     TradeSimulator.initial_capital := 5;
     TradeSimulator.trade_history := [] |}.

(** A simulator whose capital is used up. *)
Definition drained_simulator : TradeSimulator.t :=
  {| TradeSimulator.capital := 0;
     TradeSimulator.initial_capital := 1000;
     TradeSimulator.trade_history := [] |}.

(** The record of the trade settled on [wide_opportunity] with 500 USD. *)
Definition wide_trade : TradeSimulator.SimulatedTrade := {|
  TradeSimulator.timestamp := Py.VStr now;
  TradeSimulator.coin := Py.VStr "bitcoin";
  TradeSimulator.buy_exchange := Py.VStr "binance";
  TradeSimulator.sell_exchange := Py.VStr "coinbase";
  TradeSimulator.buy_price := Py.VNum 67000;
  TradeSimulator.sell_price := Py.VNum 69000;
  TradeSimulator.capital_used := Py.VNum 500;
  TradeSimulator.gross_profit_usd := Py.VNum 14.93;
  TradeSimulator.fees_paid_usd := Py.VNum 2.03;
  TradeSimulator.net_profit_usd := Py.VNum 12.9;
  TradeSimulator.net_profit_pct := Py.VNum 2.5791;
  TradeSimulator.sentiment_score := Py.VNum 0;
  TradeSimulator.sentiment_label := Py.VStr "NEUTRAL";
  TradeSimulator.risk_multiplier := Py.VNum 1;
  TradeSimulator.mode := Py.VStr "simulation"
|}.

(** The simulator after the trade [wide_trade]. *)
Definition after_trade : TradeSimulator.t :=
  {| TradeSimulator.capital := 1012.8955223880597;
     TradeSimulator.initial_capital := 1000;
     TradeSimulator.trade_history := [wide_trade] |}.

(** A history file cut short: one record with only its first field. *)
Definition truncated_file : TradeSimulator.trades_file :=
  TradeSimulator.Document
    (Py.VList [Py.VDict [("timestamp", Py.VStr now)]]).

(** Every request ends in a connection error after half a second, and
    [random.random()] always gives [0.25]. *)
Definition unreachable_api : nat -> PriceFetcher.outcome :=
  fun _ => {| PriceFetcher.latency := 0.5;
              PriceFetcher.answer := PriceFetcher.Fails Py.ConnectionError |}.

Definition offline : PriceFetcher.world :=
  PriceFetcher.fresh 1000 unreachable_api (fun _ => 0.25).

(** A snapshot of two coins: one wide spread, one narrow. *)
Definition snapshot : Py.dict (Py.dict float) :=
  [("ethereum", btc_narrow); ("bitcoin", btc_wide)].

Definition bearish : SentimentAnalyzer.SentimentResult := {|
  SentimentAnalyzer.coin := "bitcoin";
  SentimentAnalyzer.score := -0.3;
  SentimentAnalyzer.subjectivity := 0.6;
  SentimentAnalyzer.tweet_count := 90;
  SentimentAnalyzer.label := "BEARISH";
  SentimentAnalyzer.trending := true
|}.

(** The first request is answered with one page of tickers that quotes
    two of the configured exchanges; every later request fails. *)
Definition one_page : nat -> PriceFetcher.outcome :=
  fun n =>
    match n with
    | O =>
        {| PriceFetcher.latency := 0.5;
           PriceFetcher.answer :=
             PriceFetcher.Responds
               {| PriceFetcher.status_code := 200;
                  PriceFetcher.json_body :=
                    Some (PriceFetcher.Tickers
                            [ {| PriceFetcher.market_identifier := "binance";
                                 PriceFetcher.target := "USDT";
                                 PriceFetcher.converted_last_usd := Some 67800 |};
                              {| PriceFetcher.market_identifier := "gdax";
                                 PriceFetcher.target := "USD";
                                 PriceFetcher.converted_last_usd := Some 68200 |} ]
                            false) |} |}
    | S _ => unreachable_api n
    end.

Definition online : PriceFetcher.world :=
  PriceFetcher.fresh 1000 one_page (fun _ => 0.25).

(** A record as the history file may hold it: a trade that lost money. *)
Definition losing_trade : TradeSimulator.SimulatedTrade := {|
  TradeSimulator.timestamp := Py.VStr "2025-12-31T00:00:00";
  TradeSimulator.coin := Py.VStr "ethereum";
  TradeSimulator.buy_exchange := Py.VStr "kraken";
  TradeSimulator.sell_exchange := Py.VStr "bybit";
  TradeSimulator.buy_price := Py.VNum 2000;
  TradeSimulator.sell_price := Py.VNum 1990;
  TradeSimulator.capital_used := Py.VNum 500;
  TradeSimulator.gross_profit_usd := Py.VNum (-2.5);
  TradeSimulator.fees_paid_usd := Py.VNum 2;
  TradeSimulator.net_profit_usd := Py.VNum (-4.5);
  TradeSimulator.net_profit_pct := Py.VNum (-0.9);
  TradeSimulator.sentiment_score := Py.VNum 0;
  TradeSimulator.sentiment_label := Py.VStr "NEUTRAL";
  TradeSimulator.risk_multiplier := Py.VNum 1;
  TradeSimulator.mode := Py.VStr "simulation"
|}.

(** The simulator started from a file that holds [losing_trade] and
    [wide_trade]. *)
Definition two_trades : TradeSimulator.t :=
  {| TradeSimulator.capital := 1008.4;
     TradeSimulator.initial_capital := 1000;
     TradeSimulator.trade_history := [losing_trade; wide_trade] |}.

(** A snapshot of four coins and the two viable opportunities in it. *)
Definition four_coins : Py.dict (Py.dict float) :=
  (("ripple", btc_boundary) :: snapshot
   ++ [("solana", [("kraken", 100); ("bybit", 105)])])%list.

Definition solana_opportunity : ArbitrageDetector.ArbitrageOpportunity := {|
  ArbitrageDetector.coin := "solana";
  ArbitrageDetector.buy_exchange := "kraken";
  ArbitrageDetector.sell_exchange := "bybit";
  ArbitrageDetector.buy_price := 100;
  ArbitrageDetector.sell_price := 105;
  ArbitrageDetector.gross_spread_pct := 5;
  ArbitrageDetector.net_spread_pct := 4.6;
  ArbitrageDetector.estimated_profit_usd := 46;
  ArbitrageDetector.is_viable := true
|}.

Definition bullish : SentimentAnalyzer.SentimentResult := {|
  SentimentAnalyzer.coin := "bitcoin";
  SentimentAnalyzer.score := 0.6;
  SentimentAnalyzer.subjectivity := 0.7;
  SentimentAnalyzer.tweet_count := 120;
  SentimentAnalyzer.label := "BULLISH";
  SentimentAnalyzer.trending := true
|}.

End Scenario.

(* ===================================================================== *)
(** * The order of binary64 values

    The comparisons of primitive floats are specified on [spec_float] by
    [SFcompare]; what the proofs below need of it is that, NaN apart, it is
    a total preorder. *)
(* ===================================================================== *)

Module FloatOrder.

Ltac split_compare :=
  repeat match goal with
  | |- context [Z.compare ?a ?b] => destruct (Z.compare_spec a b); subst
  | H : context [Z.compare ?a ?b] |- _ => destruct (Z.compare_spec a b); subst
  | |- context [Pos.compare ?a ?b] => destruct (Pos.compare_spec a b); subst
  | H : context [Pos.compare ?a ?b] |- _ =>
      destruct (Pos.compare_spec a b); subst
  end.

Ltac spec_cases :=
  simpl in *; change (Pos.compare_cont Eq) with Pos.compare in *;
  try congruence;
  split_compare; simpl in *; try congruence; try lia.

Lemma SFcompare_swap (x y : spec_float) :
  SFcompare y x = option_map CompOpp (SFcompare x y).
Proof.
  destruct x as [[]|[]| |[] mx ex], y as [[]|[]| |[] my ey];
    try reflexivity; spec_cases.
Qed.

Lemma SFcompare_chain (x y z : spec_float) (c1 c2 : comparison) :
  SFcompare x y = Some c1 -> SFcompare y z = Some c2 ->
  c1 <> Gt -> c2 <> Gt ->
  SFcompare x z = Some (match c1, c2 with Eq, Eq => Eq | _, _ => Lt end).
Proof.
  intros H1 H2 N1 N2.
  destruct x as [[]|[]| |[] mx ex], y as [[]|[]| |[] my ey],
           z as [[]|[]| |[] mz ez];
    destruct c1, c2; try congruence; clear N1 N2; spec_cases.
Qed.

Lemma SFcompare_defined (x y : spec_float) :
  x <> S754_nan -> y <> S754_nan -> exists c, SFcompare x y = Some c.
Proof.
  destruct x as [[]|[]| |[] mx ex], y as [[]|[]| |[] my ey];
    intros; try congruence; simpl; eauto.
Qed.

Lemma ltb_cmp x y : (x <? y) = true <-> Spec.cmp x y = Some Lt.
Proof.
  rewrite ltb_spec. unfold SFltb, Spec.cmp.
  destruct (SFcompare _ _) as [[]|]; split; congruence.
Qed.

Lemma leb_cmp x y :
  (x <=? y) = true <-> Spec.cmp x y = Some Lt \/ Spec.cmp x y = Some Eq.
Proof.
  rewrite leb_spec. unfold SFleb, Spec.cmp.
  destruct (SFcompare _ _) as [[]|]; split; intuition congruence.
Qed.

Lemma eqb_cmp x y : (x =? y) = true <-> Spec.cmp x y = Some Eq.
Proof.
  rewrite eqb_spec. unfold SFeqb, Spec.cmp.
  destruct (SFcompare _ _) as [[]|]; split; congruence.
Qed.

Lemma ordered_not_nan x : Spec.ordered x <-> Prim2SF x <> S754_nan.
Proof.
  unfold Spec.ordered. rewrite eqb_cmp. unfold Spec.cmp.
  destruct (Prim2SF x) as [[]|[]| |[] m e]; simpl;
    change (Pos.compare_cont Eq) with Pos.compare;
    rewrite ?Z.compare_refl, ?Pos.compare_refl; simpl;
    split; intro H; try reflexivity; try discriminate; now elim H.
Qed.

Lemma cmp_defined x y : Spec.ordered x -> Spec.ordered y -> exists c, Spec.cmp x y = Some c.
Proof.
  rewrite !ordered_not_nan. apply SFcompare_defined.
Qed.

Lemma cmp_ordered x y c : Spec.cmp x y = Some c -> Spec.ordered x /\ Spec.ordered y.
Proof.
  rewrite !ordered_not_nan. unfold Spec.cmp.
  destruct (Prim2SF x) as [[]|[]| |[] mx ex],
           (Prim2SF y) as [[]|[]| |[] my ey]; simpl; split; congruence.
Qed.

Lemma cmp_swap x y : Spec.cmp y x = option_map CompOpp (Spec.cmp x y).
Proof. apply SFcompare_swap. Qed.

Lemma ltb_ordered x y : (x <? y) = true -> Spec.ordered x /\ Spec.ordered y.
Proof. rewrite ltb_cmp. apply cmp_ordered. Qed.

Lemma leb_ordered x y : (x <=? y) = true -> Spec.ordered x /\ Spec.ordered y.
Proof. rewrite leb_cmp. intros [H|H]; exact (cmp_ordered _ _ _ H). Qed.

Lemma leb_refl x : Spec.ordered x -> (x <=? x) = true.
Proof. unfold Spec.ordered. rewrite eqb_cmp, leb_cmp. auto. Qed.

Lemma ltb_leb x y : (x <? y) = true -> (x <=? y) = true.
Proof. rewrite ltb_cmp, leb_cmp. auto. Qed.

Lemma eqb_leb x y : (x =? y) = true -> (x <=? y) = true.
Proof. rewrite eqb_cmp, leb_cmp. auto. Qed.

Lemma eqb_sym x y : (x =? y) = true -> (y =? x) = true.
Proof. rewrite !eqb_cmp, (cmp_swap x y). intros ->. reflexivity. Qed.

Lemma not_ltb_leb x y :
  Spec.ordered x -> Spec.ordered y -> (x <? y) = false -> (y <=? x) = true.
Proof.
  intros Hx Hy H. destruct (cmp_defined x y Hx Hy) as [c Hc].
  apply leb_cmp. rewrite (cmp_swap x y), Hc.
  destruct c; simpl; auto.
  apply ltb_cmp in Hc. congruence.
Qed.

Lemma ltb_trans x y z :
  (x <? y) = true -> (y <? z) = true -> (x <? z) = true.
Proof.
  rewrite !ltb_cmp. intros H1 H2.
  exact (SFcompare_chain _ _ _ _ _ H1 H2 ltac:(discriminate) ltac:(discriminate)).
Qed.

Lemma ltb_leb_trans x y z :
  (x <? y) = true -> (y <=? z) = true -> (x <? z) = true.
Proof.
  rewrite !ltb_cmp, leb_cmp. intros H1 [H2|H2];
  exact (SFcompare_chain _ _ _ _ _ H1 H2 ltac:(discriminate) ltac:(discriminate)).
Qed.

Lemma leb_ltb_trans x y z :
  (x <=? y) = true -> (y <? z) = true -> (x <? z) = true.
Proof.
  rewrite !ltb_cmp, leb_cmp. intros [H1|H1] H2;
  exact (SFcompare_chain _ _ _ _ _ H1 H2 ltac:(discriminate) ltac:(discriminate)).
Qed.

Lemma leb_trans x y z :
  (x <=? y) = true -> (y <=? z) = true -> (x <=? z) = true.
Proof.
  rewrite !leb_cmp. intros [H1|H1] [H2|H2];
  pose proof (SFcompare_chain _ _ _ _ _ H1 H2
                ltac:(discriminate) ltac:(discriminate)) as H; auto.
Qed.

Lemma leb_antisym x y :
  (x <=? y) = true -> (y <=? x) = true -> (x =? y) = true.
Proof.
  rewrite !leb_cmp, eqb_cmp, (cmp_swap x y).
  intros [H|H] [H'|H']; rewrite H in H'; simpl in H'; congruence.
Qed.


Lemma ltb_not_eqb x y : (x <? y) = true -> (y =? x) = false.
Proof.
  rewrite ltb_cmp. intros H.
  destruct (y =? x) eqn:E; [|reflexivity].
  apply eqb_cmp in E. rewrite (cmp_swap x y), H in E. discriminate.
Qed.

End FloatOrder.

(* ===================================================================== *)
(** * Dictionaries and the one-pass [min] and [max] *)
(* ===================================================================== *)

Section FirstBest.
Import FloatOrder.

Variable A : Type.
Variable key : A -> float.



End FirstBest.

Section DictFacts.

Variable V : Type.

Lemma get_entry (d : Py.dict V) (k : string) (v : V) :
  NoDup (Py.keys d) -> In (k, v) d -> Py.get d k = Some v.
Proof.
  induction d as [|[k' v'] d IH]; simpl; intros Hnd Hin; [contradiction|].
  inversion Hnd as [|? ? Hk Hnd']; subst.
  destruct Hin as [Heq|Hin].
  - inversion Heq; subst. rewrite String.eqb_refl. reflexivity.
  - destruct (String.eqb_spec k k') as [->|Hne].
    + exfalso. apply Hk. apply (in_map fst) in Hin. exact Hin.
    + auto.
Qed.


End DictFacts.

(* ===================================================================== *)
(** * arbitrage_detector.py: [find_opportunity] *)
(* ===================================================================== *)

Section FindOpportunity.
Import FloatOrder Config ArbitrageDetector.


Lemma positive_not_zero (x : float) : (0 <? x) = true -> (x =? 0) = false.
Proof. apply ltb_not_eqb. Qed.












Lemma getitem_entry (d : Py.dict float) (e : string * float) :
  NoDup (Py.keys d) -> In e d -> Py.getitem d (fst e) = Py.Ok (snd e).
Proof.
  intros Hnd Hin. unfold Py.getitem. destruct e as [k p]; simpl.
  rewrite (get_entry _ d k p Hnd Hin). reflexivity.
Qed.



(** Outside the invariant of the quotes the statement is lost: a least
    price of zero makes the spread a division by zero, and a NaN, which
    compares as neither less nor greater, is taken for both the least and
    the greatest price. *)
Example find_opportunity_outside_the_invariant :
  find_opportunity TRADING "bitcoin" [("binance", 0); ("coinbase", 0.01)]
  = Py.Raise Py.ZeroDivisionError /\
  find_opportunity TRADING "bitcoin" [("binance", nan); ("coinbase", 1)]
  = Py.Ok None.
Proof.
  split; vm_compute; reflexivity.
Qed.

End FindOpportunity.

Section OpportunityFields.
Import FloatOrder Config ArbitrageDetector.

(** What [find_opportunity] stores in the opportunity it returns. *)
Lemma find_opportunity_fields cfg coin_id d opp :
  find_opportunity cfg coin_id d = Py.Ok (Some opp) ->
  gross_spread_pct opp =
    Py.round (Spec.raw_gross_spread_pct (buy_price opp) (sell_price opp)) 4 /\
  net_spread_pct opp =
    Py.round (Spec.raw_net_spread_pct cfg (buy_price opp) (sell_price opp)) 4 /\
  is_viable opp =
    (arbitrage_threshold_pct cfg
     <=? Spec.raw_net_spread_pct cfg (buy_price opp) (sell_price opp)).
Proof.
  unfold find_opportunity.
  destruct (List.length d <? 2)%nat; [discriminate|].
  destruct (Py.min_key d) as [kmin|]; [|discriminate]. cbn [Py.bind].
  destruct (Py.getitem d kmin) as [pmin|]; [|discriminate]. cbn [Py.bind].
  destruct (Py.max_key d) as [kmax|]; [|discriminate]. cbn [Py.bind].
  destruct (Py.getitem d kmax) as [pmax|]; [|discriminate]. cbn [Py.bind].
  destruct (String.eqb kmin kmax); [discriminate|].
  unfold Py.truediv. destruct (pmin =? 0); [discriminate|]. cbn [Py.bind].
  intros H. injection H as <-. cbn. auto.
Qed.

(** C4, as the code has it.  [is_viable] is the comparison of the
    threshold with the net spread before it is rounded: the stored
    [net_spread_pct] is that net spread rounded to four decimals, and the
    boundary is inclusive on the unrounded value. *)
Theorem is_viable_tests_the_unrounded_net_spread cfg coin_id d opp :
  find_opportunity cfg coin_id d = Py.Ok (Some opp) ->
  is_viable opp =
    (arbitrage_threshold_pct cfg
     <=? Spec.raw_net_spread_pct cfg (buy_price opp) (sell_price opp)) /\
  net_spread_pct opp =
    Py.round (Spec.raw_net_spread_pct cfg (buy_price opp) (sell_price opp)) 4 /\
  ((Spec.raw_net_spread_pct cfg (buy_price opp) (sell_price opp)
    =? arbitrage_threshold_pct cfg) = true -> is_viable opp = true).
Proof.
  intros H. destruct (find_opportunity_fields _ _ _ _ H) as (_ & Hnet & Hv).
  repeat split; auto.
  intros Heq. rewrite Hv. apply eqb_leb. apply eqb_sym. exact Heq.
Qed.

Lemma is_viable_tests_the_unrounded_net_spread_witness :
  find_opportunity TRADING "bitcoin" Scenario.btc_wide
    = Py.Ok (Some Scenario.wide_opportunity) /\
  is_viable Scenario.wide_opportunity =
    (arbitrage_threshold_pct TRADING
     <=? Spec.raw_net_spread_pct TRADING 67000 69000) /\
  net_spread_pct Scenario.wide_opportunity =
    Py.round (Spec.raw_net_spread_pct TRADING 67000 69000) 4.
Proof.
  assert (H : find_opportunity TRADING "bitcoin" Scenario.btc_wide
              = Py.Ok (Some Scenario.wide_opportunity))
    by (vm_compute; reflexivity).
  split; [exact H|].
  destruct (is_viable_tests_the_unrounded_net_spread
              TRADING "bitcoin" Scenario.btc_wide Scenario.wide_opportunity H)
    as (Hv & Hnet & _).
  split; [exact Hv | exact Hnet].
Defined.

(** C4 as stated fails: prices 100000 and 101199.96 give a net spread of
    0.79996...%, stored as 0.8, the threshold itself, and the opportunity
    is not viable. *)
Lemma is_viable_at_stored_threshold_counterexample :
  exists opp,
    find_opportunity TRADING "bitcoin" Scenario.btc_boundary
      = Py.Ok (Some opp) /\
    net_spread_pct opp = arbitrage_threshold_pct TRADING /\
    (arbitrage_threshold_pct TRADING <=? net_spread_pct opp) = true /\
    is_viable opp = false.
Proof.
  eexists. split; [vm_compute; reflexivity|].
  repeat split; vm_compute; reflexivity.
Qed.

(** C5, as the code has it.  The subtraction of the two fees is exact
    between the spreads before rounding; the two stored fields are those
    two values, each rounded to four decimals on its own. *)
Theorem spreads_are_rounded_after_the_fee_subtraction cfg coin_id d opp :
  find_opportunity cfg coin_id d = Py.Ok (Some opp) ->
  gross_spread_pct opp =
    Py.round (Spec.raw_gross_spread_pct (buy_price opp) (sell_price opp)) 4 /\
  net_spread_pct opp =
    Py.round (Spec.raw_gross_spread_pct (buy_price opp) (sell_price opp)
              - estimated_fee_pct cfg * 2) 4.
Proof.
  intros H. destruct (find_opportunity_fields _ _ _ _ H) as (Hg & Hn & _).
  split; assumption.
Qed.

Lemma spreads_are_rounded_after_the_fee_subtraction_witness :
  find_opportunity TRADING "bitcoin" Scenario.btc_wide
    = Py.Ok (Some Scenario.wide_opportunity) /\
  gross_spread_pct Scenario.wide_opportunity =
    Py.round (Spec.raw_gross_spread_pct 67000 69000) 4 /\
  net_spread_pct Scenario.wide_opportunity =
    Py.round (Spec.raw_gross_spread_pct 67000 69000
              - estimated_fee_pct TRADING * 2) 4.
Proof.
  assert (H : find_opportunity TRADING "bitcoin" Scenario.btc_wide
              = Py.Ok (Some Scenario.wide_opportunity))
    by (vm_compute; reflexivity).
  split; [exact H|].
  exact (spreads_are_rounded_after_the_fee_subtraction
           TRADING "bitcoin" Scenario.btc_wide Scenario.wide_opportunity H).
Defined.

(** C5 as stated fails on the prices 67800 and 68200 with the default fee
    of 0.2%: the stored spreads are 0.59 and 0.19, and [0.59 - 2 * 0.2] is
    0.18999999999999995. *)
Lemma stored_spreads_counterexample :
  exists opp,
    find_opportunity TRADING "bitcoin" Scenario.btc_narrow
      = Py.Ok (Some opp) /\
    gross_spread_pct opp = 0.59 /\
    net_spread_pct opp = 0.19 /\
    gross_spread_pct opp - 2 * estimated_fee_pct TRADING
      = 0.18999999999999995 /\
    (net_spread_pct opp
     =? gross_spread_pct opp - 2 * estimated_fee_pct TRADING) = false.
Proof.
  eexists. split; [vm_compute; reflexivity|].
  repeat split; vm_compute; reflexivity.
Qed.

End OpportunityFields.

(* ===================================================================== *)
(** * trade_simulator.py *)
(* ===================================================================== *)

Section Ledger.
Import FloatOrder Config ArbitrageDetector TradeSimulator.

(** C9.  A non-viable opportunity, or a capital that is not above zero,
    makes [execute_simulation] return [None]; the simulator (capital and
    history) and the history file are left as they were. *)
Theorem execute_simulation_rejects cfg now self file opportunity sentiment :
  is_viable opportunity = false \/ (capital self <=? 0) = true ->
  execute_simulation cfg now self file opportunity sentiment
    = (Py.Ok None, self, file).
Proof.
  intros [H|H]; unfold execute_simulation.
  - rewrite H. reflexivity.
  - rewrite H. destruct (is_viable opportunity); reflexivity.
Qed.

Lemma execute_simulation_rejects_witness :
  (is_viable Scenario.wide_opportunity = false
   \/ (capital Scenario.drained_simulator <=? 0) = true) /\
  execute_simulation TRADING Scenario.now Scenario.drained_simulator
    Absent Scenario.wide_opportunity Scenario.neutral
  = (Py.Ok None, Scenario.drained_simulator, Absent).
Proof.
  assert (H : is_viable Scenario.wide_opportunity = false
              \/ (capital Scenario.drained_simulator <=? 0) = true)
    by (right; vm_compute; reflexivity).
  split; [exact H|].
  exact (execute_simulation_rejects TRADING Scenario.now
           Scenario.drained_simulator Absent
           Scenario.wide_opportunity Scenario.neutral H).
Defined.



(** C1, the run that breaks the invariant.  A simulator started without a
    history file holds 1000 USD and reconciles; after one trade on the
    prices 67000 and 69000 its capital is 1012.8955223880597 while the
    history sums to 12.9, so the ledger no longer reconciles; and a
    simulator restarted from the file written by that trade holds 1012.9. *)
Theorem ledger_drifts_after_a_trade :
  __init__ TRADING None Absent = Py.Ok Scenario.fresh_simulator /\
  Spec.ledger_reconciles Scenario.fresh_simulator = Some true /\
  exists after file,
    execute_simulation TRADING Scenario.now Scenario.fresh_simulator Absent
      Scenario.wide_opportunity Scenario.neutral
    = (Py.Ok (Some Scenario.wide_trade), after, file) /\
    trade_history after = [Scenario.wide_trade] /\
    capital after = 1012.8955223880597 /\
    initial_capital after = 1000 /\
    cumulative_profit (trade_history after) = Py.Ok 12.9 /\
    Spec.ledger_reconciles after = Some false /\
    __init__ TRADING None file
    = Py.Ok {| capital := 1012.9; initial_capital := 1000;
               trade_history := [Scenario.wide_trade] |}.
Proof.
  split; [vm_compute; reflexivity|].
  split; [vm_compute; reflexivity|].
  eexists. eexists. split; [vm_compute; reflexivity|].
  repeat split; vm_compute; reflexivity.
Qed.

(** What holds of the sizing on every input: the floor of 10 USD always,
    the cap of 80% as soon as the cap itself is at least 10 USD. *)
Lemma sized_capital_at_least_floor (capital risk_multiplier : float) :
  (10.0 <=? sized_capital capital risk_multiplier) = true.
Proof.
  unfold sized_capital, Py.max2.
  destruct (10.0 <? _) eqn:E.
  - apply ltb_leb. exact E.
  - apply leb_refl. vm_compute. reflexivity.
Qed.

Lemma sized_capital_within_cap (capital risk_multiplier : float) :
  (10.0 <=? capital * 0.80) = true ->
  (sized_capital capital risk_multiplier <=? capital * 0.80) = true.
Proof.
  intros Hcap. pose proof (proj2 (leb_ordered _ _ Hcap)) as Hord.
  unfold sized_capital, Py.max2, Py.min2.
  destruct (capital * risk_multiplier * 0.5 <? capital * 0.80) eqn:E.
  - destruct (10.0 <? _); [apply ltb_leb; exact E | exact Hcap].
  - destruct (10.0 <? _); [apply leb_refl; exact Hord | exact Hcap].
Qed.

(** C2, the run that breaks the bound.  With 5 USD of capital the 80% cap
    is 4 USD, and the trade is sized at the 10 USD floor. *)
Theorem sized_capital_exceeds_the_cap :
  __init__ TRADING (Some 5.0) Absent = Py.Ok Scenario.small_simulator /\
  (0 <? capital Scenario.small_simulator) = true /\
  is_viable Scenario.wide_opportunity = true /\
  sized_capital (capital Scenario.small_simulator)
    (_sentiment_to_risk Scenario.neutral) = 10 /\
  0.8 * capital Scenario.small_simulator = 4 /\
  (sized_capital (capital Scenario.small_simulator)
     (_sentiment_to_risk Scenario.neutral)
   <=? 0.8 * capital Scenario.small_simulator) = false /\
  exists trade after file,
    execute_simulation TRADING Scenario.now Scenario.small_simulator Absent
      Scenario.wide_opportunity Scenario.neutral
    = (Py.Ok (Some trade), after, file) /\
    capital_used trade = Py.VNum 10.
Proof.
  repeat (split; [vm_compute; reflexivity|]).
  do 3 eexists. split; vm_compute; reflexivity.
Qed.

(** C8, the store that fails the start.  A history file holding one
    record with only its first field is valid JSON; the record cannot be
    rebuilt, the [TypeError] is not among the exceptions
    [_load_existing_trades] catches, and the constructor raises it. *)
Theorem truncated_history_fails_startup :
  load_json Scenario.truncated_file
    = Py.Ok (Py.VList [Py.VDict [("timestamp", Py.VStr Scenario.now)]]) /\
  __init__ TRADING None Scenario.truncated_file = Py.Raise Py.TypeError /\
  __init__ TRADING None Absent = Py.Ok Scenario.fresh_simulator /\
  __init__ TRADING None NotJSON = Py.Ok Scenario.fresh_simulator.
Proof.
  repeat split; vm_compute; reflexivity.
Qed.

End Ledger.

Section Numbers.

Lemma number_of_ok (v : Py.value) :
  Py.is_number v = true -> exists x, Py.number_of v = Py.Ok x.
Proof.
  destruct v as [|[]| | | |]; simpl; intros H; try discriminate; eauto.
Qed.

Lemma sum_from_numbers (vs : list Py.value) (acc r : float) :
  Py.sum_from acc vs = Py.Ok r ->
  Forall (fun v => Py.is_number v = true) vs.
Proof.
  revert acc. induction vs as [|v vs IH]; intros acc H; [constructor|].
  simpl in H. destruct (Py.number_of v) as [x|] eqn:E; [|discriminate].
  cbn [Py.bind] in H. constructor; [|eauto].
  destruct v as [|[]| | | |]; simpl in *; congruence.
Qed.

Lemma sum_from_ok (vs : list Py.value) (acc : float) :
  Forall (fun v => Py.is_number v = true) vs ->
  exists r, Py.sum_from acc vs = Py.Ok r.
Proof.
  intros H. revert acc. induction H as [|v vs Hv _ IH]; intros acc; simpl.
  - eauto.
  - destruct (number_of_ok v Hv) as [x ->]. cbn [Py.bind]. apply IH.
Qed.

Variable A : Type.

Lemma filterM_ok (p : A -> Py.result bool) (l : list A) :
  Forall (fun x => exists b, p x = Py.Ok b) l ->
  exists r, Py.filterM p l = Py.Ok r.
Proof.
  induction 1 as [|x l [b Hb] _ [r IH]]; simpl.
  - eauto.
  - rewrite Hb, IH. cbn [Py.bind]. eauto.
Qed.

Variable key : A -> Py.value.

Lemma max_by_from_ok (l : list A) (best : A) :
  Forall (fun x => Py.is_number (key x) = true) (best :: l) ->
  exists r, Py.max_by_from key best l = Py.Ok r.
Proof.
  revert best. induction l as [|x l IH]; intros best H; simpl; [eauto|].
  inversion H as [|? ? Hb Hl]; subst. inversion Hl as [|? ? Hx Hl']; subst.
  destruct (number_of_ok _ Hx) as [kx ->], (number_of_ok _ Hb) as [kb ->].
  cbn [Py.bind]. apply IH. constructor; [|assumption].
  destruct (kb <? kx); assumption.
Qed.

Lemma min_by_from_ok (l : list A) (best : A) :
  Forall (fun x => Py.is_number (key x) = true) (best :: l) ->
  exists r, Py.min_by_from key best l = Py.Ok r.
Proof.
  revert best. induction l as [|x l IH]; intros best H; simpl; [eauto|].
  inversion H as [|? ? Hb Hl]; subst. inversion Hl as [|? ? Hx Hl']; subst.
  destruct (number_of_ok _ Hx) as [kx ->], (number_of_ok _ Hb) as [kb ->].
  cbn [Py.bind]. apply IH. constructor; [|assumption].
  destruct (kx <? kb); assumption.
Qed.

End Numbers.

Section Summary.
Import Config ArbitrageDetector TradeSimulator.

Lemma init_well_kept cfg initial file self :
  Py.truthy (sim_capital_usd cfg) = true ->
  __init__ cfg initial file = Py.Ok self -> Spec.well_kept self.
Proof.
  intros Hcfg. unfold __init__.
  set (c := match initial with
            | Some c => if Py.truthy c then c else sim_capital_usd cfg
            | None => sim_capital_usd cfg
            end).
  assert (Hc : Py.truthy c = true).
  { subst c. destruct initial as [x|]; [|exact Hcfg].
    destruct (Py.truthy x) eqn:E; [exact E | exact Hcfg]. }
  assert (Hstart : Spec.well_kept {| capital := c; initial_capital := c;
                                trade_history := [] |}).
  { split; [exact Hc | constructor]. }
  unfold _load_existing_trades. cbn [trade_history initial_capital capital app].
  destruct (load_json file) as [data|e]; cbn [Py.bind].
  2:{ destruct e; intros H; try discriminate; injection H as <-; exact Hstart. }
  destruct (Py.iterate data) as [items|e]; cbn [Py.bind].
  2:{ destruct e; intros H; try discriminate; injection H as <-; exact Hstart. }
  destruct (Py.mapM SimulatedTrade_of items) as [loaded|e]; cbn [Py.bind].
  2:{ destruct e; intros H; try discriminate; injection H as <-; exact Hstart. }
  destruct loaded as [|t loaded].
  - intros H. injection H as <-. exact Hstart.
  - destruct (cumulative_profit (t :: loaded)) as [profit|e] eqn:E;
      cbn [Py.bind].
    2:{ destruct e; intros H; try discriminate; injection H as <-;
        exact Hstart. }
    intros H. injection H as <-. split; [exact Hc|].
    cbn [trade_history]. unfold cumulative_profit, Py.sum_values in E.
    apply sum_from_numbers in E. rewrite Forall_map in E. exact E.
Qed.

Lemma execute_well_kept cfg now self file opportunity sentiment r self' file' :
  Spec.well_kept self ->
  execute_simulation cfg now self file opportunity sentiment = (r, self', file') ->
  Spec.well_kept self'.
Proof.
  intros [Hi Hh]. unfold execute_simulation.
  destruct (negb (is_viable opportunity));
    [intros H; injection H as <- <- <-; split; assumption|].
  destruct (capital self <=? 0);
    [intros H; injection H as <- <- <-; split; assumption|].
  destruct (Py.truediv _ (ArbitrageDetector.buy_price opportunity))
    as [units|e]; cbn [Py.bind];
    [|intros H; injection H as <- <- <-; split; assumption].
  destruct (Py.truediv _ (sized_capital _ _)) as [ratio|e]; cbn [Py.bind];
    [|intros H; injection H as <- <- <-; split; assumption].
  intros H. injection H as <- <- <-. split; [exact Hi|].
  cbn [trade_history]. apply Forall_app. split; [exact Hh|].
  constructor; [reflexivity|constructor].
Qed.

Lemma reachable_well_kept cfg self :
  Py.truthy (sim_capital_usd cfg) = true ->
  Spec.reachable cfg self -> Spec.well_kept self.
Proof.
  intros Hcfg. induction 1 as [initial file self H|? ? ? ? ? ? ? ? _ IH H].
  - eapply init_well_kept; eassumption.
  - eapply execute_well_kept; eassumption.
Qed.

Lemma summary_of_well_kept self :
  Spec.well_kept self -> exists s, get_performance_summary self = Py.Ok s.
Proof.
  intros [Hi Hh]. unfold get_performance_summary.
  destruct (trade_history self) as [|first rest] eqn:Eh; [eauto|].
  assert (Hnum : Forall (fun v => Py.is_number v = true)
                   (map net_profit_usd (first :: rest))).
  { rewrite Forall_map. exact Hh. }
  destruct (sum_from_ok _ 0 Hnum) as [total Htotal].
  unfold cumulative_profit, Py.sum_values. rewrite Htotal. cbn [Py.bind].
  destruct (filterM_ok _
              (fun t => x <- Py.number_of (net_profit_usd t) ;; Py.Ok (0 <? x))
              (first :: rest)) as [wins ->].
  { eapply Forall_impl; [|exact Hh]. intros t Ht.
    destruct (number_of_ok _ Ht) as [x ->]. cbn [Py.bind]. eauto. }
  cbn [Py.bind].
  destruct (filterM_ok _
              (fun t => x <- Py.number_of (net_profit_usd t) ;; Py.Ok (x <=? 0))
              (first :: rest)) as [losses ->].
  { eapply Forall_impl; [|exact Hh]. intros t Ht.
    destruct (number_of_ok _ Ht) as [x ->]. cbn [Py.bind]. eauto. }
  cbn [Py.bind].
  assert (Hlen : (len (first :: rest) =? 0)%Z = false).
  { apply Z.eqb_neq. unfold len. simpl List.length. lia. }
  unfold Py.int_truediv, Py.truediv_int. rewrite Hlen. cbn [Py.bind].
  unfold Py.truediv. unfold Py.truthy in Hi.
  apply negb_true_iff in Hi. rewrite Hi. cbn [Py.bind].
  destruct (max_by_from_ok _ net_profit_usd rest first Hh) as [best ->].
  destruct (min_by_from_ok _ net_profit_usd rest first Hh) as [worst ->].
  cbn [Py.bind]. eauto.
Qed.

(** C10.  With a configured capital that is not zero, every reachable
    simulator has a non-zero initial capital (the constructor replaces a
    falsy argument by the configured capital) and
    [get_performance_summary] returns on it; on an empty history what it
    returns is the message alone, before any division. *)
Theorem get_performance_summary_never_raises cfg self :
  Py.truthy (sim_capital_usd cfg) = true ->
  Spec.reachable cfg self ->
  Py.truthy (initial_capital self) = true /\
  (exists s, get_performance_summary self = Py.Ok s) /\
  (trade_history self = [] ->
   get_performance_summary self
   = Py.Ok (Message "Sin trades registrados aún.")).
Proof.
  intros Hcfg Hreach.
  pose proof (reachable_well_kept cfg self Hcfg Hreach) as Hk.
  split; [exact (proj1 Hk)|]. split.
  - apply summary_of_well_kept. exact Hk.
  - intros Hh. unfold get_performance_summary. rewrite Hh. reflexivity.
Qed.

Lemma get_performance_summary_never_raises_witness :
  Py.truthy (sim_capital_usd TRADING) = true /\
  Spec.reachable TRADING Scenario.after_trade /\
  Py.truthy (initial_capital Scenario.after_trade) = true /\
  (exists s, get_performance_summary Scenario.after_trade = Py.Ok s) /\
  (trade_history Scenario.after_trade = [] ->
   get_performance_summary Scenario.after_trade
   = Py.Ok (Message "Sin trades registrados aún.")).
Proof.
  assert (Hcfg : Py.truthy (sim_capital_usd TRADING) = true)
    by (vm_compute; reflexivity).
  assert (Hreach : Spec.reachable TRADING Scenario.after_trade).
  { eapply Spec.reach_execute
      with (now := Scenario.now) (self := Scenario.fresh_simulator)
           (file := Absent) (opportunity := Scenario.wide_opportunity)
           (sentiment := Scenario.neutral).
    - eapply Spec.reach_init with (initial_capital := None) (file := Absent).
      vm_compute. reflexivity.
    - vm_compute. reflexivity. }
  split; [exact Hcfg|]. split; [exact Hreach|].
  exact (get_performance_summary_never_raises TRADING Scenario.after_trade
           Hcfg Hreach).
Defined.

(** The hypothesis on the configuration is needed: with a configured
    capital of zero, a simulator started on a history of one trade has an
    initial capital of zero, and the summary divides by it. *)
Example get_performance_summary_zero_configured_capital :
  exists cfg self,
    sim_capital_usd cfg = 0 /\
    __init__ cfg None (Document (Py.VList [to_dict Scenario.wide_trade]))
    = Py.Ok self /\
    get_performance_summary self = Py.Raise Py.ZeroDivisionError.
Proof.
  exists {| coins := coins TRADING; exchanges := exchanges TRADING;
            arbitrage_threshold_pct := 0.8;
            sentiment_bullish_threshold := 0.2;
            sentiment_bearish_threshold := -0.2;
            sim_capital_usd := 0; estimated_fee_pct := 0.2;
            max_tweets := 50; loop_interval_seconds := 120;
            max_retries := 3 |}.
  eexists. split; [reflexivity|]. split; vm_compute; reflexivity.
Qed.

End Summary.

(* ===================================================================== *)
(** * price_fetcher.py *)
(* ===================================================================== *)

Section Retries.
Import Config PriceFetcher.

Lemma advanced_refl w : Spec.advanced w w 0 [].
Proof.
  unfold Spec.advanced. rewrite Nat.add_0_r, app_nil_r. auto.
Qed.

Lemma advanced_trans w1 w2 w3 n1 n2 s1 s2 :
  Spec.advanced w1 w2 n1 s1 -> Spec.advanced w2 w3 n2 s2 ->
  Spec.advanced w1 w3 (n1 + n2) (s1 ++ s2).
Proof.
  unfold Spec.advanced. intros (A1 & A2 & A3 & A4 & A5) (B1 & B2 & B3 & B4 & B5).
  repeat split; try congruence.
  - lia.
  - rewrite B5, A5, app_assoc. reflexivity.
Qed.

Lemma backoffs_app l1 l2 :
  Spec.backoffs (l1 ++ l2) = (Spec.backoffs l1 ++ Spec.backoffs l2)%list.
Proof. unfold Spec.backoffs. apply flat_map_app. Qed.

Lemma backoffs_map l : Spec.backoffs (map Backoff l) = l.
Proof.
  induction l as [|n l IH]; simpl; [reflexivity|]. f_equal. exact IH.
Qed.

Lemma verdicts_step w w' n :
  network w' = network w -> requests_made w' = S (requests_made w) ->
  Spec.verdicts w (S n)
  = Spec.judge (network w (requests_made w)) :: Spec.verdicts w' n.
Proof.
  intros Hn Hr. unfold Spec.verdicts. rewrite <- cons_seq, <- seq_shift.
  simpl. rewrite Nat.add_0_r, map_map. f_equal.
  apply map_ext. intros i. rewrite Hn, Hr. f_equal. f_equal. lia.
Qed.

(** One turn of the loop: the request is made, the sleep that follows a
    failure is the one [Spec.backoff_after] names, and the turn returns
    exactly on a success. *)
Lemma attempt_once_turn (attempt max_retries : Z) (w : world) :
  exists w',
    attempt_once attempt max_retries w
    = (Py.Ok match Spec.judge (network w (requests_made w)) with
             | Spec.Success data => Return data
             | _ => Next
             end, w') /\
    Spec.advanced w w' 1
      (map Backoff
         (Spec.backoff_after max_retries attempt
            (Spec.judge (network w (requests_made w))))).
Proof.
  unfold attempt_once, except_RequestException, mbind, session_get, Spec.judge.
  destruct (answer (network w (requests_made w))) as [r|e].
  - unfold time_time, reading, set_last_call_time. cbn [clock].
    destruct (status_code r =? 429)%Z.
    + eexists. split; [reflexivity|]. unfold Spec.advanced. simpl.
      repeat split; auto. lia.
    + unfold raise_for_status.
      destruct ((400 <=? status_code r) && (status_code r <? 600))%Z.
      * unfold raise. cbn. unfold Spec.backoff_after.
        destruct (attempt <? max_retries - 1)%Z; cbn;
          eexists; (split; [reflexivity|]); unfold Spec.advanced; simpl;
          rewrite ?app_nil_r; repeat split; auto; lia.
      * unfold ret, response_json.
        destruct (json_body r) as [data|].
        -- eexists. split; [reflexivity|]. unfold Spec.advanced. simpl.
           rewrite ?app_nil_r. repeat split; auto. lia.
        -- unfold raise. cbn. unfold Spec.backoff_after.
           destruct (attempt <? max_retries - 1)%Z; cbn;
             eexists; (split; [reflexivity|]); unfold Spec.advanced; simpl;
             rewrite ?app_nil_r; repeat split; auto; lia.
  - cbn. unfold Spec.backoff_after.
    destruct (attempt <? max_retries - 1)%Z; cbn;
      eexists; (split; [reflexivity|]); unfold Spec.advanced; simpl;
      rewrite ?app_nil_r; repeat split; auto; lia.
Qed.

Lemma attempts_schedule (todo : nat) (attempt max_retries : Z) (w : world) :
  exists w' requests,
    attempts todo attempt max_retries w
    = (Py.Ok (snd (Spec.retry_schedule (Spec.backoff_after max_retries)
                     (Spec.verdicts w todo) attempt)), w') /\
    Spec.advanced w w' requests
      (map Backoff
         (fst (Spec.retry_schedule (Spec.backoff_after max_retries)
                 (Spec.verdicts w todo) attempt))).
Proof.
  revert attempt w. induction todo as [|todo IH]; intros attempt w.
  - exists w, 0%nat. split; [reflexivity|]. apply advanced_refl.
  - destruct (attempt_once_turn attempt max_retries w) as (w1 & Hrun & Hadv).
    pose proof Hadv as (Hnet & Hreq & _).
    rewrite (verdicts_step w w1 todo Hnet) by (rewrite Hreq; lia).
    cbn [attempts]. unfold mbind at 1. rewrite Hrun.
    destruct (Spec.judge (network w (requests_made w))) as [| |data] eqn:Ev.
    + destruct (IH (attempt + 1)%Z w1) as (w2 & n & Hrest & Hadv2).
      exists w2, (1 + n)%nat. cbn [Spec.retry_schedule fst snd].
      split; [exact Hrest|]. rewrite map_app.
      eapply advanced_trans; eassumption.
    + destruct (IH (attempt + 1)%Z w1) as (w2 & n & Hrest & Hadv2).
      exists w2, (1 + n)%nat. cbn [Spec.retry_schedule fst snd].
      split; [exact Hrest|]. rewrite map_app.
      eapply advanced_trans; eassumption.
    + exists w1, 1%nat. cbn [Spec.retry_schedule fst snd].
      split; [reflexivity|]. exact Hadv.
Qed.

Lemma retry_schedule_all_failed after vs attempt :
  forallb Spec.is_failure vs = true ->
  snd (Spec.retry_schedule after vs attempt) = None.
Proof.
  revert attempt. induction vs as [|v vs IH]; intros attempt H; [reflexivity|].
  simpl in H. apply andb_true_iff in H. destruct H as [Hv Hvs].
  destruct v; simpl in *; try discriminate; auto.
Qed.


(** [_safe_get] as a whole: it returns what the schedule says and sleeps
    what the schedule says, after at most one throttling sleep. *)
Lemma safe_get_schedule cfg url max_retries (w : world) :
  exists w' requests throttle,
    _safe_get cfg url max_retries w
    = (Py.Ok (snd (Spec.retry_schedule
                     (Spec.backoff_after (Spec.retry_limit cfg max_retries))
                     (Spec.verdicts w (Z.to_nat (Spec.retry_limit cfg max_retries)))
                     0)), w') /\
    Spec.backoffs throttle = [] /\
    Spec.advanced w w' requests
      (throttle ++
       map Backoff
         (fst (Spec.retry_schedule
                 (Spec.backoff_after (Spec.retry_limit cfg max_retries))
                 (Spec.verdicts w (Z.to_nat (Spec.retry_limit cfg max_retries)))
                 0))).
Proof.
  unfold _safe_get. fold (Spec.retry_limit cfg max_retries).
  set (m := Spec.retry_limit cfg max_retries).
  unfold mbind at 1, time_time, reading. unfold mbind at 1. unfold mbind at 1.
  destruct (clock w - _last_call_time w <? _min_call_interval w).
  - unfold mbind, time_sleep.
    match goal with
    | |- context [attempts ?t ?a ?b ?w1] =>
        destruct (attempts_schedule t a b w1) as (w' & n & Hrun & Hadv);
        set (w1' := w1) in *
    end.
    assert (Hv : Spec.verdicts w1' (Z.to_nat m) = Spec.verdicts w (Z.to_nat m))
      by reflexivity.
    rewrite Hv in Hrun, Hadv.
    exists w', n, [Throttle (_min_call_interval w
                             - (clock w - _last_call_time w))].
    split; [exact Hrun|]. split; [reflexivity|].
    change n with (0 + n)%nat.
    eapply advanced_trans; [|exact Hadv].
    unfold Spec.advanced. subst w1'. simpl. repeat split; auto.
  - unfold mbind, ret.
    destruct (attempts_schedule (Z.to_nat m) 0 m w) as (w' & n & Hrun & Hadv).
    exists w', n, []. split; [exact Hrun|]. split; [reflexivity|].
    exact Hadv.
Qed.

(** C6, as the code has it.  [_safe_get] always returns.  Its result and
    its back-off sleeps are those of the schedule over the next
    [max_retries] requests (the configured number, 3 by default, when none
    is given): a 429 at attempt [n] is followed by a sleep of [15 * 2^n]
    seconds, another failure by a sleep of [5 * 2^n] seconds unless the
    attempt was the last one, the first success is returned, and when all
    the attempts fail the result is [None].  With base 15 the sleeps at
    attempts 0, 1 and 2 are 15, 30 and 60 seconds. *)
Theorem safe_get_never_raises_and_backs_off cfg url max_retries (w : world) :
  (exists w',
     _safe_get cfg url max_retries w
     = (Py.Ok (snd (Spec.retry_schedule
                      (Spec.backoff_after (Spec.retry_limit cfg max_retries))
                      (Spec.verdicts w (Z.to_nat (Spec.retry_limit cfg max_retries)))
                      0)), w') /\
     Spec.backoffs (slept w')
     = (Spec.backoffs (slept w) ++
        fst (Spec.retry_schedule
               (Spec.backoff_after (Spec.retry_limit cfg max_retries))
               (Spec.verdicts w (Z.to_nat (Spec.retry_limit cfg max_retries)))
               0))%list /\
     (forallb Spec.is_failure
        (Spec.verdicts w (Z.to_nat (Spec.retry_limit cfg max_retries))) = true ->
      fst (_safe_get cfg url max_retries w) = Py.Ok None)) /\
  Spec.retry_limit TRADING None = 3%Z /\
  map (fun attempt => _exponential_backoff attempt 15) [0; 1; 2]%Z
  = [15; 30; 60]%Z /\
  (forall attempt,
     Spec.backoff_after (Spec.retry_limit cfg max_retries) attempt Spec.RateLimited
     = [_exponential_backoff attempt 15]) /\
  (forall attempt,
     Spec.backoff_after (Spec.retry_limit cfg max_retries) attempt Spec.Transient
     = if (attempt <? Spec.retry_limit cfg max_retries - 1)%Z
       then [_exponential_backoff attempt 5] else []).
Proof.
  split; [|repeat split].
  destruct (safe_get_schedule cfg url max_retries w)
    as (w' & n & throttle & Hrun & Hthr & Hadv).
  exists w'. split; [exact Hrun|]. split.
  - destruct Hadv as (_ & _ & _ & _ & Hs).
    rewrite Hs, !backoffs_app, Hthr, backoffs_map. reflexivity.
  - intros Hall. rewrite Hrun. cbn [fst].
    rewrite (retry_schedule_all_failed _ _ _ Hall). reflexivity.
Qed.

(** C6 as stated fails at the last attempt: with the default three attempts
    and a connection error each time, the sleeps are 5 and 10 seconds, not
    5, 10 and 20, and the result is [None]. *)
Lemma safe_get_last_attempt_counterexample :
  fst (_safe_get TRADING "https://api.coingecko.com/api/v3/simple/price"
         None Scenario.offline) = Py.Ok None /\
  Spec.verdicts Scenario.offline 3
  = [Spec.Transient; Spec.Transient; Spec.Transient] /\
  fst (Spec.retry_schedule Spec.backoff_after_every
         (Spec.verdicts Scenario.offline 3) 0) = [5; 10; 20]%Z /\
  Spec.backoffs
    (slept (snd (_safe_get TRADING
                   "https://api.coingecko.com/api/v3/simple/price"
                   None Scenario.offline))) = [5; 10]%Z.
Proof.
  repeat split; vm_compute; reflexivity.
Qed.

End Retries.

Section Fallback.
Import Config PriceFetcher.














End Fallback.

(* ===================================================================== *)
(** * Scanning a snapshot of all coins *)
(* ===================================================================== *)

Section Sorting.
Import FloatOrder.

Variable A : Type.
Variable key : A -> float.

Lemma insert_desc_perm (x : A) (l : list A) :
  Permutation (x :: l) (Py.insert_desc key x l).
Proof.
  induction l as [|y l IH]; cbn [Py.insert_desc]; [reflexivity|].
  destruct (key x <? key y); [|reflexivity].
  rewrite perm_swap. apply perm_skip. exact IH.
Qed.

Lemma sort_desc_perm (l : list A) : Permutation l (Py.sort_desc key l).
Proof.
  induction l as [|x l IH]; [reflexivity|].
  unfold Py.sort_desc. cbn [fold_right]. fold (Py.sort_desc key l).
  rewrite <- insert_desc_perm. apply perm_skip. exact IH.
Qed.

(** [a] may stand before [b]: the key of [b] is not greater. *)
Let before (a b : A) : Prop := (key b <=? key a) = true.

Lemma insert_desc_sorted (x : A) (l : list A) :
  Forall (fun y => Spec.ordered (key y)) (x :: l) ->
  StronglySorted before l ->
  StronglySorted before (Py.insert_desc key x l).
Proof.
  intros Hord Hs. induction Hs as [|y l Hs IH Hy]; cbn [Py.insert_desc].
  - constructor; constructor.
  - pose proof (Forall_inv Hord) as Hx.
    pose proof (Forall_inv (Forall_inv_tail Hord)) as Hoy.
    destruct (key x <? key y) eqn:E.
    + constructor.
      * apply IH. constructor; [exact Hx|].
        exact (Forall_inv_tail (Forall_inv_tail Hord)).
      * rewrite <- (insert_desc_perm x l). constructor; [|exact Hy].
        unfold before. apply ltb_leb. exact E.
    + constructor; [constructor; assumption|].
      assert (Hyx : (key y <=? key x) = true)
        by (apply not_ltb_leb; assumption).
      constructor; [exact Hyx|].
      revert Hy. apply Forall_impl. intros z Hz. unfold before in *.
      exact (leb_trans _ _ _ Hz Hyx).
Qed.

Lemma sort_desc_sorted (l : list A) :
  Forall (fun y => Spec.ordered (key y)) l ->
  StronglySorted before (Py.sort_desc key l).
Proof.
  induction l as [|x l IH]; intros Hord; [constructor|].
  unfold Py.sort_desc. cbn [fold_right]. fold (Py.sort_desc key l).
  apply insert_desc_sorted.
  - constructor; [exact (Forall_inv Hord)|].
    rewrite <- (sort_desc_perm l). exact (Forall_inv_tail Hord).
  - apply IH. exact (Forall_inv_tail Hord).
Qed.

End Sorting.

Section Scan.
Import FloatOrder Config ArbitrageDetector.

(** The loop either stops at the first coin on which [find_opportunity]
    raises, or collects the viable opportunities in the order of the
    coins. *)
Lemma scan_each_collects cfg items opportunities :
  (exists found,
     scan_each cfg items opportunities
     = Py.Ok (opportunities ++ flat_map (Spec.viable_of cfg) items)%list /\
     Py.mapM (fun item => find_opportunity cfg (fst item) (snd item)) items
     = Py.Ok found) \/
  (exists e before coin_id prices after,
     scan_each cfg items opportunities = Py.Raise e /\
     items = (before ++ (coin_id, prices) :: after)%list /\
     Forall (fun item =>
               exists r, find_opportunity cfg (fst item) (snd item) = Py.Ok r)
            before /\
     find_opportunity cfg coin_id prices = Py.Raise e).
Proof.
  revert opportunities.
  induction items as [|[coin_id prices] items IH]; intros opportunities.
  - left. exists []. cbn. rewrite app_nil_r. split; reflexivity.
  - cbn [scan_each Py.mapM flat_map fst snd].
    unfold Spec.viable_of at 1. cbn [fst snd].
    destruct (find_opportunity cfg coin_id prices) as [opp|e] eqn:E;
      cbn [Py.bind].
    2:{ right. exists e, [], coin_id, prices, items.
        repeat split; [constructor | exact E]. }
    set (acc := match opp with
                | Some o => if is_viable o then (opportunities ++ [o])%list
                            else opportunities
                | None => opportunities
                end).
    assert (Hacc : (acc ++ flat_map (Spec.viable_of cfg) items
                    = opportunities ++
                      match opp with
                      | Some o => if is_viable o then [o] else []
                      | None => []
                      end ++ flat_map (Spec.viable_of cfg) items)%list).
    { subst acc. destruct opp as [o|]; [destruct (is_viable o)|];
        cbn [app]; rewrite <- ?app_assoc; reflexivity. }
    destruct (IH acc) as [(found & Hok & Hall)
                         |(e & before & c & p & after & Hr & -> & Hb & He)].
    + left. exists (opp :: found). rewrite Hok, Hacc, Hall.
      split; reflexivity.
    + right. exists e, ((coin_id, prices) :: before), c, p, after.
      repeat split; try assumption.
      constructor; [exists opp; exact E | exact Hb].
Qed.

Lemma viable_of_spec cfg item opp :
  In opp (Spec.viable_of cfg item) <->
  find_opportunity cfg (fst item) (snd item) = Py.Ok (Some opp) /\
  is_viable opp = true.
Proof.
  unfold Spec.viable_of.
  destruct (find_opportunity cfg (fst item) (snd item)) as [[o|]|e].
  - destruct (is_viable o) eqn:E; cbn [In].
    + split.
      * intros [<-|[]]. split; [reflexivity | exact E].
      * intros [H _]. left. congruence.
    + split; [intros [] | intros [H Hv]].
      injection H as <-. congruence.
  - split; [intros [] | intros [H _]; discriminate].
  - split; [intros [] | intros [H _]; discriminate].
Qed.

Lemma viable_of_length cfg item : (List.length (Spec.viable_of cfg item) <= 1)%nat.
Proof.
  unfold Spec.viable_of.
  destruct (find_opportunity cfg (fst item) (snd item)) as [[o|]|e];
    [destruct (is_viable o)| |]; cbn; lia.
Qed.

Lemma flat_map_viable_length cfg items :
  (List.length (flat_map (Spec.viable_of cfg) items) <= List.length items)%nat.
Proof.
  induction items as [|item items IH]; cbn [flat_map List.length]; [lia|].
  rewrite length_app. pose proof (viable_of_length cfg item). lia.
Qed.

(** X1.  What [scan_all_coins] returns is a rearrangement of the viable
    opportunities of the coins of the snapshot: every opportunity of the
    result is viable and is the one [find_opportunity] gives for a coin of
    the snapshot, every viable one of those is in the result, once for
    each coin that gives it, and there is at most one per coin. *)
Theorem scan_all_coins_returns_the_viable_opportunities
    cfg all_prices opportunities :
  scan_all_coins cfg all_prices = Py.Ok opportunities ->
  Permutation opportunities (flat_map (Spec.viable_of cfg) all_prices) /\
  Forall (fun opp => is_viable opp = true) opportunities /\
  (forall opp,
     In opp opportunities <->
     exists coin_id prices,
       In (coin_id, prices) all_prices /\
       find_opportunity cfg coin_id prices = Py.Ok (Some opp) /\
       is_viable opp = true) /\
  (List.length opportunities <= List.length all_prices)%nat.
Proof.
  unfold scan_all_coins. intros H.
  destruct (scan_each_collects cfg all_prices [])
    as [(found & Hok & _)|(e & b & c & p & a & Hr & _)];
    [|rewrite Hr in H; discriminate].
  rewrite Hok in H. cbn [Py.bind app] in H. injection H as <-.
  set (viable := flat_map (Spec.viable_of cfg) all_prices).
  assert (Hperm : Permutation (Py.sort_desc net_spread_pct viable) viable)
    by (symmetry; apply sort_desc_perm).
  assert (Hin : forall opp,
            In opp viable <->
            exists coin_id prices,
              In (coin_id, prices) all_prices /\
              find_opportunity cfg coin_id prices = Py.Ok (Some opp) /\
              is_viable opp = true).
  { intros opp. subst viable. rewrite in_flat_map. split.
    - intros ([c p] & Hi & Hv). apply viable_of_spec in Hv.
      exists c, p. split; [exact Hi | exact Hv].
    - intros (c & p & Hi & Hf & Hv). exists (c, p). split; [exact Hi|].
      apply viable_of_spec. split; assumption. }
  split; [exact Hperm|]. split; [|split].
  - apply Forall_forall. intros opp Ho.
    apply (Permutation_in _ Hperm) in Ho. apply Hin in Ho.
    destruct Ho as (_ & _ & _ & _ & Hv). exact Hv.
  - intros opp. rewrite <- Hin. split; apply Permutation_in;
      [exact Hperm | symmetry; exact Hperm].
  - rewrite (Permutation_length Hperm). apply flat_map_viable_length.
Qed.

Lemma scan_all_coins_returns_the_viable_opportunities_witness :
  scan_all_coins TRADING Scenario.snapshot
    = Py.Ok [Scenario.wide_opportunity] /\
  Permutation [Scenario.wide_opportunity]
    (flat_map (Spec.viable_of TRADING) Scenario.snapshot) /\
  Forall (fun opp => is_viable opp = true) [Scenario.wide_opportunity] /\
  (forall opp,
     In opp [Scenario.wide_opportunity] <->
     exists coin_id prices,
       In (coin_id, prices) Scenario.snapshot /\
       find_opportunity TRADING coin_id prices = Py.Ok (Some opp) /\
       is_viable opp = true) /\
  (List.length [Scenario.wide_opportunity]
   <= List.length Scenario.snapshot)%nat.
Proof.
  assert (H : scan_all_coins TRADING Scenario.snapshot
              = Py.Ok [Scenario.wide_opportunity])
    by (vm_compute; reflexivity).
  split; [exact H|].
  exact (scan_all_coins_returns_the_viable_opportunities
           TRADING Scenario.snapshot [Scenario.wide_opportunity] H).
Defined.

(** X2.  The opportunities [scan_all_coins] returns are sorted by their
    stored net spread, greatest first, when those spreads are numbers. *)
Theorem scan_all_coins_sorts_by_net_spread cfg all_prices opportunities :
  scan_all_coins cfg all_prices = Py.Ok opportunities ->
  Forall (fun opp => Spec.ordered (net_spread_pct opp)) opportunities ->
  StronglySorted Spec.by_net_spread opportunities.
Proof.
  unfold scan_all_coins. intros H Hord.
  destruct (scan_each cfg all_prices []) as [found|e]; [|discriminate].
  cbn [Py.bind] in H. injection H as <-.
  apply sort_desc_sorted.
  rewrite (sort_desc_perm _ net_spread_pct found). exact Hord.
Qed.

Lemma scan_all_coins_sorts_by_net_spread_witness :
  scan_all_coins TRADING Scenario.four_coins
    = Py.Ok [Scenario.solana_opportunity; Scenario.wide_opportunity] /\
  Forall (fun opp => Spec.ordered (net_spread_pct opp))
    [Scenario.solana_opportunity; Scenario.wide_opportunity] /\
  StronglySorted Spec.by_net_spread
    [Scenario.solana_opportunity; Scenario.wide_opportunity].
Proof.
  assert (H : scan_all_coins TRADING Scenario.four_coins
              = Py.Ok [Scenario.solana_opportunity; Scenario.wide_opportunity])
    by (vm_compute; reflexivity).
  assert (Hord : Forall (fun opp => Spec.ordered (net_spread_pct opp))
                   [Scenario.solana_opportunity; Scenario.wide_opportunity])
    by (repeat constructor).
  split; [exact H|]. split; [exact Hord|].
  exact (scan_all_coins_sorts_by_net_spread _ _ _ H Hord).
Defined.

(** X3.  [scan_all_coins] has no handler of its own: it raises exactly
    when [find_opportunity] raises on a coin of the snapshot, with the
    exception of the first such coin, whatever the other coins hold. *)
Theorem scan_all_coins_raises_at_the_first_failure cfg all_prices e :
  scan_all_coins cfg all_prices = Py.Raise e <->
  exists before coin_id prices after,
    all_prices = (before ++ (coin_id, prices) :: after)%list /\
    Forall (fun item =>
              exists r, find_opportunity cfg (fst item) (snd item) = Py.Ok r)
           before /\
    find_opportunity cfg coin_id prices = Py.Raise e.
Proof.
  unfold scan_all_coins. split.
  - intros H.
    destruct (scan_each_collects cfg all_prices [])
      as [(found & Hok & _)|(e' & b & c & p & a & Hr & Heq & Hb & He)].
    + rewrite Hok in H. discriminate.
    + rewrite Hr in H. cbn [Py.bind] in H. injection H as ->.
      exists b, c, p, a. repeat split; assumption.
  - intros (b & c & p & a & -> & Hb & He).
    destruct (scan_each_collects cfg (b ++ (c, p) :: a) [])
      as [(found & _ & Hall)|(e' & b' & c' & p' & a' & Hr & Heq & Hb' & He')].
    + exfalso. clear - Hall He. revert found Hall.
      induction b as [|item b IH]; intros found Hall; cbn in Hall.
      * rewrite He in Hall. discriminate.
      * destruct (find_opportunity cfg (fst item) (snd item)); [|discriminate].
        cbn [Py.bind] in Hall.
        destruct (Py.mapM _ (b ++ (c, p) :: a)) as [l|] eqn:E; [|discriminate].
        exact (IH _ eq_refl).
    + rewrite Hr. cbn [Py.bind]. f_equal.
      clear Hr. revert b' Heq Hb'.
      induction b as [|item b IH]; intros b' Heq Hb'.
      * destruct b' as [|item' b']; cbn in Heq.
        -- inversion Heq; subst. congruence.
        -- inversion Heq; subst. apply Forall_inv in Hb'.
           destruct Hb' as [r Hr]. cbn [fst snd] in Hr. congruence.
      * destruct b' as [|item' b']; cbn in Heq.
        -- inversion Heq; subst. apply Forall_inv in Hb.
           destruct Hb as [r Hr]. cbn [fst snd] in Hr. congruence.
        -- injection Heq as Hitem Heq. subst item'.
           exact (IH (Forall_inv_tail Hb) b' Heq (Forall_inv_tail Hb')).
Qed.

End Scan.

(* ===================================================================== *)
(** * The matrix of spreads between pairs of exchanges *)
(* ===================================================================== *)

Section PriceMatrix.
Import Config ArbitrageDetector.

Lemma pair_eqb_eq (a b : string * string) : pair_eqb a b = true <-> a = b.
Proof.
  destruct a as [a1 a2], b as [b1 b2]. unfold pair_eqb. cbn [fst snd].
  rewrite andb_true_iff, !String.eqb_eq. split.
  - intros [-> ->]. reflexivity.
  - intros H. injection H as -> ->. split; reflexivity.
Qed.

Lemma matrix_set_fresh (matrix : price_matrix) k v :
  ~ In k (map fst matrix) -> matrix_set matrix k v = (matrix ++ [(k, v)])%list.
Proof.
  induction matrix as [|[k' v'] m IH]; cbn [matrix_set map fst In app];
    intros Hk; [reflexivity|].
  destruct (pair_eqb k k') eqn:E.
  - apply pair_eqb_eq in E. elim Hk. left. symmetry. exact E.
  - rewrite IH; [reflexivity|]. intros Hin. apply Hk. right. exact Hin.
Qed.

Lemma zero_before_last_cons (e e' : string * float) (rest : Py.dict float) :
  Spec.zero_before_last (e :: e' :: rest)
  = (snd e =? 0) || Spec.zero_before_last (e' :: rest).
Proof. reflexivity. Qed.

(** One row: with nothing to sell to the row is empty; otherwise a zero
    buying price raises at the first pair, and any other price gives one
    entry for every later exchange. *)
Lemma matrix_row_result (d : Py.dict float) (buy : string * float)
    (sells : Py.dict float) (matrix : price_matrix) :
  NoDup (Py.keys d) -> In buy d -> incl sells d -> NoDup (Py.keys sells) ->
  (forall s, In s sells -> ~ In (fst buy, fst s) (map fst matrix)) ->
  matrix_row d (fst buy) (Py.keys sells) matrix
  = match sells with
    | [] => Py.Ok matrix
    | _ :: _ =>
        if snd buy =? 0 then Py.Raise Py.ZeroDivisionError
        else Py.Ok (matrix
                    ++ map (fun s => Spec.spread_entry (buy, s)) sells)%list
    end.
Proof.
  intros Hnd Hbuy. revert matrix.
  induction sells as [|s rest IH]; intros matrix Hincl Hnds Hfresh;
    [reflexivity|].
  cbn [Py.keys map matrix_row].
  rewrite (getitem_entry d buy Hnd Hbuy). cbn [Py.bind].
  rewrite (getitem_entry d s Hnd (Hincl s (or_introl eq_refl))).
  cbn [Py.bind]. unfold Py.truediv.
  destruct (snd buy =? 0) eqn:Ez; cbn [Py.bind]; [reflexivity|].
  rewrite matrix_set_fresh by (apply Hfresh; left; reflexivity).
  fold (Py.keys rest). rewrite IH.
  - destruct rest as [|s' rest]; cbn [map]; [reflexivity|].
    rewrite <- app_assoc. reflexivity.
  - intros x Hx. apply Hincl. right. exact Hx.
  - cbn [Py.keys map] in Hnds. apply NoDup_cons_iff in Hnds.
    exact (proj2 Hnds).
  - intros s' Hs'. rewrite map_app, in_app_iff. cbn [map fst In].
    intros [Hin|[Heq|[]]].
    + exact (Hfresh s' (or_intror Hs') Hin).
    + injection Heq as Heq.
      cbn [Py.keys map] in Hnds. apply NoDup_cons_iff in Hnds.
      apply (proj1 Hnds). rewrite Heq. apply in_map. exact Hs'.
Qed.

Lemma matrix_rows_result (d pre l : Py.dict float) (matrix : price_matrix) :
  d = (pre ++ l)%list -> NoDup (Py.keys d) ->
  (forall k, In k (map fst matrix) -> In (fst k) (Py.keys pre)) ->
  matrix_rows d (Py.keys l) matrix
  = if Spec.zero_before_last l then Py.Raise Py.ZeroDivisionError
    else Py.Ok (matrix ++ map Spec.spread_entry (Spec.later_pairs l))%list.
Proof.
  intros Hd Hnd. revert pre matrix Hd.
  induction l as [|buy rest IH]; intros pre matrix Hd Hm.
  - cbn. rewrite app_nil_r. reflexivity.
  - cbn [Py.keys map matrix_rows]. fold (Py.keys rest).
    assert (Hkeys : NoDup (Py.keys pre ++ fst buy :: Py.keys rest)).
    { rewrite Hd in Hnd. unfold Py.keys in *. rewrite map_app in Hnd.
      exact Hnd. }
    rewrite (matrix_row_result d buy rest matrix Hnd).
    + destruct rest as [|s rest].
      * cbn. rewrite app_nil_r. reflexivity.
      * rewrite zero_before_last_cons.
        destruct (snd buy =? 0); cbn [orb Py.bind]; [reflexivity|].
        rewrite (IH (pre ++ [buy])%list).
        -- destruct (Spec.zero_before_last (s :: rest)); [reflexivity|].
           change (Spec.later_pairs (buy :: s :: rest))
             with (map (pair buy) (s :: rest)
                   ++ Spec.later_pairs (s :: rest))%list.
           rewrite map_app, map_map, <- app_assoc. reflexivity.
        -- rewrite <- app_assoc. exact Hd.
        -- intros k. rewrite map_app, in_app_iff. unfold Py.keys.
           rewrite map_app, in_app_iff. intros [Hk|Hk].
           ++ left. exact (Hm k Hk).
           ++ right. left. rewrite map_map in Hk. apply in_map_iff in Hk.
              destruct Hk as (x & <- & _). reflexivity.
    + rewrite Hd. apply in_or_app. right. left. reflexivity.
    + intros x Hx. rewrite Hd. apply in_or_app. right. right. exact Hx.
    + apply NoDup_app_remove_l in Hkeys. apply NoDup_cons_iff in Hkeys.
      exact (proj2 Hkeys).
    + intros s Hs Hin. apply Hm in Hin. cbn [fst] in Hin.
      apply NoDup_remove_2 in Hkeys. apply Hkeys.
      apply in_or_app. left. exact Hin.
Qed.

Lemma later_pairs_length (A : Type) (l : list A) :
  (2 * List.length (Spec.later_pairs l)
   = List.length l * (List.length l - 1))%nat.
Proof.
  induction l as [|x l IH]; [reflexivity|].
  cbn [Spec.later_pairs List.length]. rewrite length_app, length_map.
  destruct l as [|y l]; [reflexivity|]. cbn [List.length] in *. nia.
Qed.

(** X4.  On a price map with distinct keys [calculate_price_matrix]
    raises [ZeroDivisionError] when a price other than the last one is
    zero; otherwise it returns, row by row, one entry for every pair of an
    exchange and a later exchange of the map, keyed (earlier, later) and
    holding the spread of buying at the earlier and selling at the later
    one, rounded to four decimals: n (n - 1) / 2 entries for n
    exchanges. *)
Theorem calculate_price_matrix_lists_every_later_pair (d : Py.dict float) :
  NoDup (Py.keys d) ->
  calculate_price_matrix d
  = (if Spec.zero_before_last d then Py.Raise Py.ZeroDivisionError
     else Py.Ok (map Spec.spread_entry (Spec.later_pairs d))) /\
  (2 * List.length (map Spec.spread_entry (Spec.later_pairs d))
   = List.length d * (List.length d - 1))%nat.
Proof.
  intros Hnd. split.
  - unfold calculate_price_matrix.
    rewrite (matrix_rows_result d [] d [] eq_refl Hnd); [reflexivity|].
    intros k [].
  - rewrite length_map. apply later_pairs_length.
Qed.

Lemma calculate_price_matrix_lists_every_later_pair_witness :
  NoDup (Py.keys [("binance", 100); ("kraken", 102); ("bybit", 0)]) /\
  calculate_price_matrix [("binance", 100); ("kraken", 102); ("bybit", 0)]
  = Py.Ok [(("binance", "kraken"), 2); (("binance", "bybit"), -100);
           (("kraken", "bybit"), -100)] /\
  (2 * 3 = 3 * (3 - 1))%nat.
Proof.
  assert (Hnd : NoDup (Py.keys [("binance", 100); ("kraken", 102); ("bybit", 0)])).
  { repeat constructor; cbn; intuition discriminate. }
  split; [exact Hnd|].
  exact (calculate_price_matrix_lists_every_later_pair
           [("binance", 100); ("kraken", 102); ("bybit", 0)] Hnd).
Defined.

End PriceMatrix.

(* ===================================================================== *)
(** * Sizing, settlement and the history file *)
(* ===================================================================== *)

Section Risk.
Import FloatOrder Config TradeSimulator.

(** The tier of the table a score falls in. *)
Ltac tiers s :=
  destruct (0.5 <=? s);
    [|destruct (0.2 <=? s);
        [|destruct (-0.2 <=? s); [|destruct (-0.5 <=? s)]]].

(** X5.  [_sentiment_to_risk] is monotone in the score: of two sentiments
    alike in [trending], the one with the lower score never gets the
    greater multiplier. *)
Theorem sentiment_to_risk_is_monotone
    (low high : SentimentAnalyzer.SentimentResult) :
  (SentimentAnalyzer.score low <=? SentimentAnalyzer.score high) = true ->
  SentimentAnalyzer.trending low = SentimentAnalyzer.trending high ->
  (_sentiment_to_risk low <=? _sentiment_to_risk high) = true.
Proof.
  intros Hle Ht. unfold _sentiment_to_risk. rewrite Ht.
  destruct (0.5 <=? SentimentAnalyzer.score low) eqn:L1;
  destruct (0.2 <=? SentimentAnalyzer.score low) eqn:L2;
  destruct (-0.2 <=? SentimentAnalyzer.score low) eqn:L3;
  destruct (-0.5 <=? SentimentAnalyzer.score low) eqn:L4;
  destruct (0.5 <=? SentimentAnalyzer.score high) eqn:H1;
  destruct (0.2 <=? SentimentAnalyzer.score high) eqn:H2;
  destruct (-0.2 <=? SentimentAnalyzer.score high) eqn:H3;
  destruct (-0.5 <=? SentimentAnalyzer.score high) eqn:H4;
  destruct (SentimentAnalyzer.trending high);
  try (vm_compute; reflexivity);
  exfalso;
  repeat match goal with
  | L : (?c <=? SentimentAnalyzer.score low) = true,
    H : (?c <=? SentimentAnalyzer.score high) = false |- _ =>
      rewrite (leb_trans _ _ _ L Hle) in H; discriminate
  end.
Qed.

Lemma sentiment_to_risk_is_monotone_witness :
  (SentimentAnalyzer.score Scenario.bearish
   <=? SentimentAnalyzer.score Scenario.bullish) = true /\
  SentimentAnalyzer.trending Scenario.bearish
  = SentimentAnalyzer.trending Scenario.bullish /\
  (_sentiment_to_risk Scenario.bearish
   <=? _sentiment_to_risk Scenario.bullish) = true.
Proof.
  assert (Hs : (SentimentAnalyzer.score Scenario.bearish
                <=? SentimentAnalyzer.score Scenario.bullish) = true)
    by (vm_compute; reflexivity).
  assert (Ht : SentimentAnalyzer.trending Scenario.bearish
               = SentimentAnalyzer.trending Scenario.bullish) by reflexivity.
  split; [exact Hs|]. split; [exact Ht|].
  exact (sentiment_to_risk_is_monotone Scenario.bearish Scenario.bullish
           Hs Ht).
Defined.

(** X6.  The multiplier is one of the five constants of the table, times
    [1.1] when the coin is trending; it lies between [0.3] and
    [1.5 * 1.1] and is never zero or negative, so the sentiment alone never
    cancels a trade.  A score that is not a number gets the lowest
    multiplier. *)
Theorem sentiment_to_risk_range (sentiment : SentimentAnalyzer.SentimentResult) :
  (exists m, In m [0.3; 0.7; 1.0; 1.2; 1.5] /\
             _sentiment_to_risk sentiment
             = if SentimentAnalyzer.trending sentiment then m * 1.1 else m) /\
  (0.3 <=? _sentiment_to_risk sentiment) = true /\
  (_sentiment_to_risk sentiment <=? 1.5 * 1.1) = true /\
  (0 <? _sentiment_to_risk sentiment) = true /\
  ((SentimentAnalyzer.score sentiment =? SentimentAnalyzer.score sentiment)
   = false ->
   _sentiment_to_risk sentiment
   = if SentimentAnalyzer.trending sentiment then 0.3 * 1.1 else 0.3).
Proof.
  unfold _sentiment_to_risk.
  split; [|split; [|split; [|split]]].
  - tiers (SentimentAnalyzer.score sentiment);
      [exists 1.5|exists 1.2|exists 1.0|exists 0.7|exists 0.3];
      (split; [cbn [In]; repeat (first [left; reflexivity | right])
              | reflexivity]).
  - tiers (SentimentAnalyzer.score sentiment);
      destruct (SentimentAnalyzer.trending sentiment); vm_compute; reflexivity.
  - tiers (SentimentAnalyzer.score sentiment);
      destruct (SentimentAnalyzer.trending sentiment); vm_compute; reflexivity.
  - tiers (SentimentAnalyzer.score sentiment);
      destruct (SentimentAnalyzer.trending sentiment); vm_compute; reflexivity.
  - intros Hnan.
    assert (Hno : forall c, (c <=? SentimentAnalyzer.score sentiment) = false).
    { intros c. destruct (c <=? SentimentAnalyzer.score sentiment) eqn:E;
        [|reflexivity].
      apply leb_ordered in E. destruct E as [_ E]. unfold Spec.ordered in E.
      congruence. }
    rewrite !Hno. reflexivity.
Qed.

End Risk.

Section Settlement.
Import FloatOrder Config ArbitrageDetector TradeSimulator.

Lemma ltb_asym (x y : float) : (x <? y) = true -> (y <? x) = false.
Proof.
  intros H. destruct (y <? x) eqn:E; [|reflexivity].
  pose proof (ltb_not_eqb _ _ (ltb_trans _ _ _ H E)) as Hne.
  pose proof (proj1 (ltb_ordered _ _ H)) as Hord. unfold Spec.ordered in Hord.
  congruence.
Qed.

Lemma at_least_ten_not_zero (x : float) : (10 <=? x) = true -> (x =? 0) = false.
Proof.
  intros H. apply positive_not_zero.
  apply (ltb_leb_trans 0 10 x); [vm_compute; reflexivity | exact H].
Qed.

(** The three ways a call of [execute_simulation] ends: rejected, raising
    on the first division, or settled. *)
Lemma execute_simulation_cases cfg now self file opportunity sentiment :
  ((is_viable opportunity = false \/ (capital self <=? 0) = true) /\
   execute_simulation cfg now self file opportunity sentiment
   = (Py.Ok None, self, file)) \/
  (is_viable opportunity = true /\ (capital self <=? 0) = false /\
   (ArbitrageDetector.buy_price opportunity =? 0) = true /\
   execute_simulation cfg now self file opportunity sentiment
   = (Py.Raise Py.ZeroDivisionError, self, file)) \/
  (is_viable opportunity = true /\ (capital self <=? 0) = false /\
   (ArbitrageDetector.buy_price opportunity =? 0) = false /\
   exists net_profit trade,
     execute_simulation cfg now self file opportunity sentiment
     = (Py.Ok (Some trade),
        {| capital := capital self + net_profit;
           initial_capital := initial_capital self;
           trade_history := (trade_history self ++ [trade])%list |},
        _save_trade file trade) /\
     net_profit_usd trade = Py.VNum (Py.round net_profit 2) /\
     capital_used trade
     = Py.VNum (Py.round (sized_capital (capital self)
                            (_sentiment_to_risk sentiment)) 2)).
Proof.
  unfold execute_simulation, Py.truediv.
  rewrite (at_least_ten_not_zero _
             (sized_capital_at_least_floor (capital self)
                (_sentiment_to_risk sentiment))).
  destruct (is_viable opportunity) eqn:Ev; cbn [negb];
    [|left; split; [left|]; reflexivity].
  destruct (capital self <=? 0) eqn:Ec;
    [left; split; [right|]; reflexivity|].
  right.
  destruct (ArbitrageDetector.buy_price opportunity =? 0) eqn:Eb;
    cbn [Py.bind].
  - left. repeat split.
  - right. repeat split. eexists. eexists. split; [reflexivity|].
    split; reflexivity.
Qed.

(** X7.  The capital a settled trade deploys: at least 10 USD; at most
    80% of the capital held before the trade as soon as that cap reaches
    10 USD; exactly 10 USD when the cap is below 10 USD.  The record
    keeps it rounded to two decimals. *)
Theorem settled_trade_deploys_between_floor_and_cap
    cfg now self file opportunity sentiment trade self' file' :
  execute_simulation cfg now self file opportunity sentiment
  = (Py.Ok (Some trade), self', file') ->
  exists used,
    capital_used trade = Py.VNum (Py.round used 2) /\
    (10 <=? used) = true /\
    ((10 <=? capital self * 0.80) = true ->
     (used <=? capital self * 0.80) = true) /\
    ((capital self * 0.80 <? 10) = true -> used = 10).
Proof.
  intros H.
  destruct (execute_simulation_cases cfg now self file opportunity sentiment)
    as [(_ & E)|[(_ & _ & _ & E)|(_ & _ & _ & net & trade' & E & _ & Hused)]];
    rewrite E in H; try discriminate.
  injection H as <- _ _.
  exists (sized_capital (capital self) (_sentiment_to_risk sentiment)).
  split; [exact Hused|]. split; [apply sized_capital_at_least_floor|].
  split; [apply sized_capital_within_cap|].
  intros Hlow. unfold sized_capital, Py.max2, Py.min2.
  set (cap := capital self * 0.80) in *.
  set (sized := capital self * _sentiment_to_risk sentiment * 0.5).
  destruct (sized <? cap) eqn:E1.
  - rewrite (ltb_asym sized 10); [reflexivity|].
    exact (ltb_trans _ _ _ E1 Hlow).
  - rewrite (ltb_asym cap 10); [reflexivity | exact Hlow].
Qed.

Lemma settled_trade_deploys_between_floor_and_cap_witness :
  exists trade self' file',
    execute_simulation TRADING Scenario.now Scenario.fresh_simulator Absent
      Scenario.wide_opportunity Scenario.bearish
    = (Py.Ok (Some trade), self', file') /\
    exists used,
      capital_used trade = Py.VNum (Py.round used 2) /\
      (10 <=? used) = true /\
      ((10 <=? capital Scenario.fresh_simulator * 0.80) = true ->
       (used <=? capital Scenario.fresh_simulator * 0.80) = true) /\
      ((capital Scenario.fresh_simulator * 0.80 <? 10) = true -> used = 10).
Proof.
  eexists. eexists. eexists.
  assert (H : execute_simulation TRADING Scenario.now Scenario.fresh_simulator
                Absent Scenario.wide_opportunity Scenario.bearish
              = (Py.Ok (Some _), _, _)) by (vm_compute; reflexivity).
  split; [exact H|].
  exact (settled_trade_deploys_between_floor_and_cap _ _ _ _ _ _ _ _ _ H).
Defined.

(** X8.  [execute_simulation] raises in one case only: on a viable
    opportunity whose buying price is zero, a simulator that holds capital
    divides by that price.  The exception is [ZeroDivisionError], and the
    simulator and the history file are left as they were.  The second
    division, by the capital deployed, cannot fail: that capital is at
    least 10 USD. *)
Theorem execute_simulation_raises_only_on_a_zero_buy_price
    cfg now self file opportunity sentiment :
  (is_viable opportunity = true -> (capital self <=? 0) = false ->
   (ArbitrageDetector.buy_price opportunity =? 0) = true ->
   execute_simulation cfg now self file opportunity sentiment
   = (Py.Raise Py.ZeroDivisionError, self, file)) /\
  (forall e self' file',
     execute_simulation cfg now self file opportunity sentiment
     = (Py.Raise e, self', file') ->
     e = Py.ZeroDivisionError /\
     (ArbitrageDetector.buy_price opportunity =? 0) = true /\
     is_viable opportunity = true /\ (capital self <=? 0) = false /\
     self' = self /\ file' = file).
Proof.
  destruct (execute_simulation_cases cfg now self file opportunity sentiment)
    as [(Hr & E)|[(Hv & Hc & Hb & E)|(Hv & Hc & Hb & net & trade & E & _)]];
    rewrite E; split.
  - intros Hv Hc _. destruct Hr; congruence.
  - intros e self' file' H. discriminate.
  - intros _ _ _. reflexivity.
  - intros e self' file' H. injection H as <- <- <-. repeat split; assumption.
  - intros _ _ Hz. congruence.
  - intros e self' file' H. discriminate.
Qed.

Lemma find_opportunity_buy_price_not_zero cfg coin_id d opp :
  find_opportunity cfg coin_id d = Py.Ok (Some opp) ->
  (ArbitrageDetector.buy_price opp =? 0) = false.
Proof.
  unfold find_opportunity.
  destruct (List.length d <? 2)%nat; [discriminate|].
  destruct (Py.min_key d) as [kmin|]; [|discriminate]. cbn [Py.bind].
  destruct (Py.getitem d kmin) as [pmin|]; [|discriminate]. cbn [Py.bind].
  destruct (Py.max_key d) as [kmax|]; [|discriminate]. cbn [Py.bind].
  destruct (Py.getitem d kmax) as [pmax|]; [|discriminate]. cbn [Py.bind].
  destruct (String.eqb kmin kmax); [discriminate|].
  unfold Py.truediv. destruct (pmin =? 0) eqn:E; [discriminate|].
  cbn [Py.bind]. intros H. injection H as <-. exact E.
Qed.

(** X9.  The detector and the simulator compose: [execute_simulation]
    never raises on an opportunity that [find_opportunity] returned,
    whatever the simulator, the history file and the sentiment are; it
    returns [None] exactly when the opportunity is not viable or the
    capital is used up. *)
Theorem detected_opportunity_never_breaks_the_simulator
    cfg coin_id exchange_prices opportunity now self file sentiment :
  find_opportunity cfg coin_id exchange_prices = Py.Ok (Some opportunity) ->
  exists r self' file',
    execute_simulation cfg now self file opportunity sentiment
    = (Py.Ok r, self', file') /\
    (r = None <->
     is_viable opportunity = false \/ (capital self <=? 0) = true).
Proof.
  intros Hfound. apply find_opportunity_buy_price_not_zero in Hfound.
  destruct (execute_simulation_cases cfg now self file opportunity sentiment)
    as [(Hr & E)|[(Hv & Hc & Hb & E)|(Hv & Hc & Hb & net & trade & E & _)]].
  - eexists. eexists. eexists. split; [exact E|]. split; [intros _; exact Hr|].
    reflexivity.
  - congruence.
  - eexists. eexists. eexists. split; [exact E|]. split; [discriminate|].
    intros [H|H]; congruence.
Qed.

Lemma detected_opportunity_never_breaks_the_simulator_witness :
  find_opportunity TRADING "bitcoin" Scenario.btc_wide
    = Py.Ok (Some Scenario.wide_opportunity) /\
  exists r self' file',
    execute_simulation TRADING Scenario.now Scenario.fresh_simulator Absent
      Scenario.wide_opportunity Scenario.bearish
    = (Py.Ok r, self', file') /\
    (r = None <->
     is_viable Scenario.wide_opportunity = false
     \/ (capital Scenario.fresh_simulator <=? 0) = true).
Proof.
  assert (H : find_opportunity TRADING "bitcoin" Scenario.btc_wide
              = Py.Ok (Some Scenario.wide_opportunity))
    by (vm_compute; reflexivity).
  split; [exact H|].
  exact (detected_opportunity_never_breaks_the_simulator
           TRADING "bitcoin" Scenario.btc_wide Scenario.wide_opportunity
           Scenario.now Scenario.fresh_simulator Absent Scenario.bearish H).
Defined.

End Settlement.

Section History.
Import FloatOrder Config ArbitrageDetector TradeSimulator.

Lemma SimulatedTrade_of_to_dict (trade : SimulatedTrade) :
  SimulatedTrade_of (to_dict trade) = Py.Ok trade.
Proof. destruct trade. reflexivity. Qed.

Lemma mapM_app (A B : Type) (f : A -> Py.result B) (l1 l2 : list A)
    (r1 r2 : list B) :
  Py.mapM f l1 = Py.Ok r1 -> Py.mapM f l2 = Py.Ok r2 ->
  Py.mapM f (l1 ++ l2) = Py.Ok (r1 ++ r2)%list.
Proof.
  revert r1. induction l1 as [|x l1 IH]; intros r1 H1 H2; cbn in *.
  - injection H1 as <-. exact H2.
  - destruct (f x) as [y|]; [|discriminate]. cbn [Py.bind] in *.
    destruct (Py.mapM f l1) as [ys|]; [|discriminate]. cbn [Py.bind] in *.
    injection H1 as <-. rewrite (IH ys eq_refl H2). reflexivity.
Qed.




(** Saving a trade to a file that is missing, is not JSON or holds a list
    appends the record of the trade to what the file stores. *)
Lemma save_trade_stored file trade l :
  Spec.stored file = Some l ->
  Spec.stored (_save_trade file trade) = Some (l ++ [to_dict trade])%list.
Proof.
  destruct file as [| |v]; cbn.
  - intros H. injection H as <-. reflexivity.
  - intros H. injection H as <-. reflexivity.
  - destruct v; intros H; try discriminate H. injection H as <-. reflexivity.
Qed.

(** A document that is not a list is left as it is. *)
Lemma save_trade_not_stored file trade :
  Spec.stored file = None -> _save_trade file trade = file.
Proof.
  destruct file as [| |v]; cbn; intros H; try discriminate H.
  destruct v; try discriminate H; reflexivity.
Qed.




(** What a call of [execute_simulation] keeps: the initial capital, the
    history up to what it appends, net profits that are numbers, and the
    agreement of the file with the history. *)
Lemma execute_simulation_keeps cfg now self file opportunity sentiment
    r self' file' :
  execute_simulation cfg now self file opportunity sentiment
  = (r, self', file') ->
  initial_capital self' = initial_capital self /\
  (exists more, trade_history self' = (trade_history self ++ more)%list /\
                (List.length more <= 1)%nat) /\
  (Forall (fun t => Py.is_number (net_profit_usd t) = true) (trade_history self) ->
   Forall (fun t => Py.is_number (net_profit_usd t) = true) (trade_history self')) /\
  (Spec.in_sync self file -> Spec.in_sync self' file') /\
  (Spec.stored file = None -> file' = file).
Proof.
  intros H.
  destruct (execute_simulation_cases cfg now self file opportunity sentiment)
    as [(_ & E)|[(_ & _ & _ & E)
                |(_ & _ & _ & net & trade & E & Hnet & _)]];
    rewrite E in H; injection H as <- <- <-.
  - repeat split; try tauto. exists []. rewrite app_nil_r. split; [reflexivity|].
    cbn. lia.
  - repeat split; try tauto. exists []. rewrite app_nil_r. split; [reflexivity|].
    cbn. lia.
  - cbn [initial_capital trade_history]. split; [reflexivity|].
    split; [exists [trade]; split; [reflexivity | cbn; lia]|].
    split; [|split].
    + intros Hn. apply Forall_app. split; [exact Hn|].
      constructor; [|constructor]. rewrite Hnet. reflexivity.
    + intros (l & Hs & Hl). exists (l ++ [to_dict trade])%list.
      split; [apply save_trade_stored; exact Hs|].
      cbn [trade_history]. apply mapM_app; [exact Hl|].
      cbn [Py.mapM]. rewrite SimulatedTrade_of_to_dict. reflexivity.
    + apply save_trade_not_stored.
Qed.

Lemma runs_keep cfg st0 st :
  Spec.runs cfg st0 st ->
  initial_capital (fst st) = initial_capital (fst st0) /\
  (exists more,
     trade_history (fst st) = (trade_history (fst st0) ++ more)%list) /\
  (Forall (fun t => Py.is_number (net_profit_usd t) = true)
          (trade_history (fst st0)) ->
   Forall (fun t => Py.is_number (net_profit_usd t) = true)
          (trade_history (fst st))) /\
  (Spec.in_sync (fst st0) (snd st0) -> Spec.in_sync (fst st) (snd st)) /\
  (Spec.stored (snd st0) = None -> snd st = snd st0).
Proof.
  induction 1 as [st|st now self self' file file' opp sent r Hruns IH Hstep].
  - repeat split; try tauto. exists []. rewrite app_nil_r. reflexivity.
  - cbn [fst snd] in *.
    destruct IH as (Hi & (more & Hm) & Hn & Hs & Hf).
    destruct (execute_simulation_keeps _ _ _ _ _ _ _ _ _ Hstep)
      as (Hi' & (more' & Hm' & _) & Hn' & Hs' & Hf').
    split; [congruence|]. split; [|split; [|split]].
    + exists (more ++ more')%list. rewrite Hm', Hm, app_assoc. reflexivity.
    + intros H0. apply Hn'. apply Hn. exact H0.
    + intros H0. apply Hs'. apply Hs. exact H0.
    + intros H0. rewrite <- (Hf H0). apply Hf'. rewrite (Hf H0). exact H0.
Qed.



(** X11.  A history file that holds valid JSON other than a list is never
    written: [_save_trade] swallows the failure of [append], so whatever
    trades are settled, the file stays as it was.  The constructor does
    accept two such files, the empty object and the empty string, as an
    empty history. *)
Theorem history_file_that_is_no_list_is_never_written
    cfg self0 v self file :
  Spec.stored (Document v) = None ->
  Spec.runs cfg (self0, Document v) (self, file) ->
  file = Document v /\
  (forall initial,
     v = Py.VDict [] \/ v = Py.VStr "" ->
     __init__ cfg initial (Document v)
     = Py.Ok {| capital := Spec.opening_capital cfg initial;
                initial_capital := Spec.opening_capital cfg initial;
                trade_history := [] |}).
Proof.
  intros Hv Hruns. split.
  - destruct (runs_keep _ _ _ Hruns) as (_ & _ & _ & _ & Hf).
    exact (Hf Hv).
  - intros initial [-> | ->]; reflexivity.
Qed.

Lemma history_file_that_is_no_list_is_never_written_witness :
  Spec.stored (Document (Py.VDict [])) = None /\
  Spec.runs TRADING (Scenario.fresh_simulator, Document (Py.VDict []))
    (Scenario.after_trade, Document (Py.VDict [])) /\
  Document (Py.VDict []) = Document (Py.VDict []) /\
  (forall initial,
     Py.VDict [] = Py.VDict [] \/ Py.VDict [] = Py.VStr "" ->
     __init__ TRADING initial (Document (Py.VDict []))
     = Py.Ok {| capital := Spec.opening_capital TRADING initial;
                initial_capital := Spec.opening_capital TRADING initial;
                trade_history := [] |}).
Proof.
  assert (Hs : Spec.stored (Document (Py.VDict [])) = None) by reflexivity.
  assert (Hr : Spec.runs TRADING
                 (Scenario.fresh_simulator, Document (Py.VDict []))
                 (Scenario.after_trade, Document (Py.VDict []))).
  { apply (Spec.runs_step TRADING _ Scenario.now Scenario.fresh_simulator _
             (Document (Py.VDict [])) _ Scenario.wide_opportunity
             Scenario.neutral
             (Py.Ok (Some Scenario.wide_trade)) (Spec.runs_refl _ _)).
    vm_compute. reflexivity. }
  split; [exact Hs|]. split; [exact Hr|].
  exact (history_file_that_is_no_list_is_never_written TRADING
           Scenario.fresh_simulator (Py.VDict []) Scenario.after_trade
           _ Hs Hr).
Defined.

End History.

(* ===================================================================== *)
(** * The figures of the performance summary *)
(* ===================================================================== *)

Section Figures.
Import FloatOrder Config TradeSimulator.

Variable A : Type.
Variable key : A -> Py.value.

Lemma number_of_amount (v : Py.value) :
  Py.is_number v = true -> Py.number_of v = Py.Ok (Spec.amount v).
Proof.
  unfold Spec.amount. destruct v as [|[]| | | |]; try discriminate; reflexivity.
Qed.

(** A comprehension that tests the number of each item keeps the items
    whose number passes the test. *)
Lemma filterM_number (test : float -> bool) (l : list A) :
  Forall (fun x => Py.is_number (key x) = true) l ->
  Py.filterM (fun x => n <- Py.number_of (key x) ;; Py.Ok (test n)) l
  = Py.Ok (filter (fun x => test (Spec.amount (key x))) l).
Proof.
  induction 1 as [|x l Hx Hl IH]; [reflexivity|].
  cbn [Py.filterM filter]. rewrite (number_of_amount _ Hx). cbn [Py.bind].
  rewrite IH. cbn [Py.bind].
  destruct (test (Spec.amount (key x))); reflexivity.
Qed.

(** On numbers, [max(l, key=f)] and [min(l, key=f)] are the one-pass
    maximum and minimum of the numbers. *)
Lemma max_by_from_numbers (l : list A) (best : A) :
  Forall (fun x => Py.is_number (key x) = true) (best :: l) ->
  Py.max_by_from key best l
  = Py.Ok (Py.max_from (fun x => Spec.amount (key x)) best l).
Proof.
  revert best. induction l as [|x l IH]; intros best H; [reflexivity|].
  cbn [Py.max_by_from Py.max_from].
  pose proof (Forall_inv H) as Hb.
  pose proof (Forall_inv (Forall_inv_tail H)) as Hx.
  pose proof (Forall_inv_tail (Forall_inv_tail H)) as Hl.
  rewrite (number_of_amount _ Hx), (number_of_amount _ Hb). cbn [Py.bind].
  apply IH. constructor; [|exact Hl].
  destruct (Spec.amount (key best) <? Spec.amount (key x)); assumption.
Qed.

Lemma min_by_from_numbers (l : list A) (best : A) :
  Forall (fun x => Py.is_number (key x) = true) (best :: l) ->
  Py.min_by_from key best l
  = Py.Ok (Py.min_from (fun x => Spec.amount (key x)) best l).
Proof.
  revert best. induction l as [|x l IH]; intros best H; [reflexivity|].
  cbn [Py.min_by_from Py.min_from].
  pose proof (Forall_inv H) as Hb.
  pose proof (Forall_inv (Forall_inv_tail H)) as Hx.
  pose proof (Forall_inv_tail (Forall_inv_tail H)) as Hl.
  rewrite (number_of_amount _ Hx), (number_of_amount _ Hb). cbn [Py.bind].
  apply IH. constructor; [|exact Hl].
  destruct (Spec.amount (key x) <? Spec.amount (key best)); assumption.
Qed.

(** Gains and losses: no item is counted twice, and an item whose number
    is not NaN is counted once. *)
Lemma gains_and_losses (l : list A) :
  let gains := filter (fun x => 0 <? Spec.amount (key x)) l in
  let losses := filter (fun x => Spec.amount (key x) <=? 0) l in
  (List.length gains + List.length losses <= List.length l)%nat /\
  (Forall (fun x => Spec.ordered (Spec.amount (key x))) l ->
   (List.length gains + List.length losses = List.length l)%nat).
Proof.
  cbv zeta. induction l as [|x l [IHle IHeq]]; [split; reflexivity|].
  cbn [filter List.length].
  destruct (0 <? Spec.amount (key x)) eqn:Egain;
    destruct (Spec.amount (key x) <=? 0) eqn:Eloss; cbn [List.length].
  - exfalso. pose proof (leb_ltb_trans _ _ _ Eloss Egain) as Hlt.
    pose proof (ltb_not_eqb _ _ Hlt) as Hne.
    pose proof (proj2 (ltb_ordered _ _ Egain)) as Hord.
    unfold Spec.ordered in Hord. congruence.
  - split; [lia|]. intros H. specialize (IHeq (Forall_inv_tail H)). lia.
  - split; [lia|]. intros H. specialize (IHeq (Forall_inv_tail H)). lia.
  - split; [lia|]. intros H. exfalso.
    assert (Hz : Spec.ordered 0) by reflexivity.
    rewrite (not_ltb_leb _ _ Hz (Forall_inv H) Egain) in Eloss.
    discriminate Eloss.
Qed.

End Figures.

Section Performance.
Import FloatOrder Config TradeSimulator.

(** What [get_performance_summary] computes when it returns figures. *)
Lemma performance_figures self p :
  get_performance_summary self = Py.Ok (Performance p) ->
  exists first rest,
    trade_history self = first :: rest /\
    Forall (fun t => Py.is_number (net_profit_usd t) = true)
           (trade_history self) /\
    total_trades p = len (trade_history self) /\
    winning_trades p
    = len (filter (fun t => 0 <? Spec.amount (net_profit_usd t))
                  (trade_history self)) /\
    losing_trades p
    = len (filter (fun t => Spec.amount (net_profit_usd t) <=? 0)
                  (trade_history self)) /\
    best_trade p
    = net_profit_usd
        (Py.max_from (fun t => Spec.amount (net_profit_usd t)) first rest) /\
    worst_trade p
    = net_profit_usd
        (Py.min_from (fun t => Spec.amount (net_profit_usd t)) first rest).
Proof.
  unfold get_performance_summary.
  destruct (trade_history self) as [|first rest] eqn:Eh; [discriminate|].
  destruct (cumulative_profit (first :: rest)) as [total|] eqn:Et;
    [|discriminate].
  cbn [Py.bind].
  assert (Hn : Forall (fun t => Py.is_number (net_profit_usd t) = true)
                      (first :: rest)).
  { unfold cumulative_profit, Py.sum_values in Et.
    apply sum_from_numbers in Et. rewrite Forall_map in Et. exact Et. }
  rewrite (filterM_number _ net_profit_usd (fun x => 0 <? x) _ Hn).
  cbn [Py.bind].
  rewrite (filterM_number _ net_profit_usd (fun x => x <=? 0) _ Hn).
  cbn [Py.bind].
  rewrite (max_by_from_numbers _ net_profit_usd rest first Hn).
  rewrite (min_by_from_numbers _ net_profit_usd rest first Hn).
  destruct (Py.int_truediv _ _); [|discriminate]. cbn [Py.bind].
  destruct (Py.truediv _ _); [|discriminate]. cbn [Py.bind].
  destruct (Py.truediv_int _ _); [|discriminate]. cbn [Py.bind].
  intros H. injection H as <-. cbn.
  exists first, rest. repeat split. exact Hn.
Qed.

(** X12.  The counts of the summary: [total_trades] is the length of the
    history and is positive; a trade is never counted both as winning and
    as losing, so the two counts sum to [total_trades] at most, and to
    [total_trades] exactly when no recorded net profit is NaN. *)
Theorem performance_summary_counts_every_trade_once self p :
  get_performance_summary self = Py.Ok (Performance p) ->
  total_trades p = len (trade_history self) /\
  (0 < total_trades p)%Z /\
  (winning_trades p + losing_trades p <= total_trades p)%Z /\
  (Forall (fun t => Spec.ordered (Spec.amount (net_profit_usd t)))
          (trade_history self) ->
   (winning_trades p + losing_trades p = total_trades p)%Z).
Proof.
  intros H.
  destruct (performance_figures self p H)
    as (first & rest & Eh & _ & Ht & Hw & Hl & _).
  destruct (gains_and_losses _ net_profit_usd (trade_history self))
    as [Hle Heq].
  rewrite Ht, Hw, Hl. unfold len. split; [reflexivity|].
  split; [rewrite Eh; cbn [List.length]; lia|].
  split; [lia|]. intros Hord. specialize (Heq Hord). lia.
Qed.

Lemma performance_summary_counts_every_trade_once_witness :
  exists p,
    get_performance_summary Scenario.two_trades = Py.Ok (Performance p) /\
    total_trades p = len (trade_history Scenario.two_trades) /\
    (0 < total_trades p)%Z /\
    (winning_trades p + losing_trades p <= total_trades p)%Z /\
    (Forall (fun t => Spec.ordered (Spec.amount (net_profit_usd t)))
            (trade_history Scenario.two_trades) ->
     (winning_trades p + losing_trades p = total_trades p)%Z).
Proof.
  eexists.
  assert (H : get_performance_summary Scenario.two_trades
              = Py.Ok (Performance _)) by (vm_compute; reflexivity).
  split; [exact H|].
  exact (performance_summary_counts_every_trade_once _ _ H).
Defined.



End Performance.

(* ===================================================================== *)
(** * What a fetch costs and what it brings back *)
(* ===================================================================== *)

Section Budget.
Import Config PriceFetcher.

Lemma total_app (l1 l2 : list Z) :
  Spec.total (l1 ++ l2) = (Spec.total l1 + Spec.total l2)%Z.
Proof.
  unfold Spec.total. induction l1 as [|x l1 IH]; cbn [app fold_right];
    [reflexivity|]. rewrite IH. lia.
Qed.

Lemma backoff_budget_nonneg (m : nat) : (0 <= Spec.backoff_budget m)%Z.
Proof.
  unfold Spec.backoff_budget.
  assert (0 < 2 ^ Z.of_nat m)%Z by (apply Z.pow_pos_nonneg; lia). lia.
Qed.

Lemma tried_le (vs : list Spec.verdict) : (Spec.tried vs <= List.length vs)%nat.
Proof.
  induction vs as [|[| |d] vs IH]; cbn [Spec.tried List.length]; lia.
Qed.

Lemma verdicts_length (w : world) (n : nat) : List.length (Spec.verdicts w n) = n.
Proof. unfold Spec.verdicts. rewrite length_map, length_seq. reflexivity. Qed.

(** The back-off of a run of attempts numbered from [attempt] doubles from
    one attempt to the next, from at most [15 * 2^attempt]. *)
Lemma retry_schedule_total (max_retries : Z) (vs : list Spec.verdict)
    (attempt : Z) :
  (0 <= attempt)%Z ->
  (0 <= Spec.total (fst (Spec.retry_schedule (Spec.backoff_after max_retries)
                           vs attempt))
   <= 15 * 2 ^ attempt * (2 ^ Z.of_nat (List.length vs) - 1))%Z.
Proof.
  revert attempt. induction vs as [|v vs IH]; intros attempt Ha.
  - cbn. lia.
  - assert (Hp : (0 < 2 ^ attempt)%Z) by (apply Z.pow_pos_nonneg; lia).
    assert (Hq : (0 < 2 ^ Z.of_nat (List.length vs))%Z)
      by (apply Z.pow_pos_nonneg; lia).
    assert (Hs : (2 ^ (attempt + 1) = 2 * 2 ^ attempt)%Z)
      by (rewrite Z.pow_add_r by lia; lia).
    assert (Hl : (2 ^ Z.of_nat (List.length (v :: vs))
                  = 2 * 2 ^ Z.of_nat (List.length vs))%Z).
    { cbn [List.length]. rewrite Nat2Z.inj_succ, Z.pow_succ_r by lia.
      reflexivity. }
    rewrite Hl. specialize (IH (attempt + 1)%Z ltac:(lia)). rewrite Hs in IH.
    set (P := (2 ^ attempt)%Z) in *.
    set (Q := (2 ^ Z.of_nat (List.length vs))%Z) in *.
    assert (Hsplit : (15 * P * (2 * Q - 1)
                      = 15 * P + 15 * (2 * P) * (Q - 1))%Z) by ring.
    rewrite Hsplit.
    assert (Hrest : (0 <= 15 * (2 * P) * (Q - 1))%Z) by nia.
    destruct v as [| |d]; cbn [Spec.retry_schedule fst snd].
    + rewrite total_app. cbn [Spec.backoff_after Spec.total fold_right].
      fold P. lia.
    + rewrite total_app. cbn [Spec.backoff_after].
      destruct (attempt <? max_retries - 1)%Z; cbn [Spec.total fold_right];
        fold P; lia.
    + cbn [Spec.total fold_right]. lia.
Qed.

Lemma attempts_requests (todo : nat) (attempt max_retries : Z) (w : world) :
  exists w',
    attempts todo attempt max_retries w
    = (Py.Ok (snd (Spec.retry_schedule (Spec.backoff_after max_retries)
                     (Spec.verdicts w todo) attempt)), w') /\
    Spec.advanced w w' (Spec.tried (Spec.verdicts w todo))
      (map Backoff
         (fst (Spec.retry_schedule (Spec.backoff_after max_retries)
                 (Spec.verdicts w todo) attempt))).
Proof.
  revert attempt w. induction todo as [|todo IH]; intros attempt w.
  - exists w. split; [reflexivity|]. apply advanced_refl.
  - destruct (attempt_once_turn attempt max_retries w) as (w1 & Hrun & Hadv).
    pose proof Hadv as (Hnet & Hreq & _).
    rewrite (verdicts_step w w1 todo Hnet) by (rewrite Hreq; lia).
    cbn [attempts]. unfold mbind at 1. rewrite Hrun.
    destruct (Spec.judge (network w (requests_made w))) as [| |data] eqn:Ev.
    + destruct (IH (attempt + 1)%Z w1) as (w2 & Hrest & Hadv2).
      exists w2. cbn [Spec.retry_schedule Spec.tried fst snd].
      split; [exact Hrest|]. rewrite map_app.
      exact (advanced_trans _ _ _ _ _ _ _ Hadv Hadv2).
    + destruct (IH (attempt + 1)%Z w1) as (w2 & Hrest & Hadv2).
      exists w2. cbn [Spec.retry_schedule Spec.tried fst snd].
      split; [exact Hrest|]. rewrite map_app.
      exact (advanced_trans _ _ _ _ _ _ _ Hadv Hadv2).
    + exists w1. cbn [Spec.retry_schedule Spec.tried fst snd].
      split; [reflexivity|]. exact Hadv.
Qed.

(** A call of [_safe_get]: its result, the requests it sends and the
    sleeps it makes, the throttling sleep first. *)
Lemma safe_get_requests cfg url max_retries (w : world) :
  let m := Spec.retry_limit cfg max_retries in
  let schedule :=
    Spec.retry_schedule (Spec.backoff_after m)
      (Spec.verdicts w (Z.to_nat m)) 0 in
  exists w' throttle,
    _safe_get cfg url max_retries w = (Py.Ok (snd schedule), w') /\
    Spec.backoffs throttle = [] /\
    Spec.advanced w w' (Spec.tried (Spec.verdicts w (Z.to_nat m)))
      (throttle ++ map Backoff (fst schedule)).
Proof.
  cbv zeta. unfold _safe_get. fold (Spec.retry_limit cfg max_retries).
  set (m := Spec.retry_limit cfg max_retries).
  unfold mbind at 1, time_time, reading. unfold mbind at 1. unfold mbind at 1.
  destruct (clock w - _last_call_time w <? _min_call_interval w).
  - unfold mbind, time_sleep.
    match goal with
    | |- context [attempts ?t ?a ?b ?w1] =>
        destruct (attempts_requests t a b w1) as (w' & Hrun & Hadv);
        set (w1' := w1) in *
    end.
    assert (Hv : Spec.verdicts w1' (Z.to_nat m) = Spec.verdicts w (Z.to_nat m))
      by reflexivity.
    rewrite Hv in Hrun, Hadv.
    exists w', [Throttle (_min_call_interval w
                          - (clock w - _last_call_time w))].
    split; [exact Hrun|]. split; [reflexivity|].
    change (Spec.tried (Spec.verdicts w (Z.to_nat m)))
      with (0 + Spec.tried (Spec.verdicts w (Z.to_nat m)))%nat.
    eapply advanced_trans; [|exact Hadv].
    unfold Spec.advanced. subst w1'. simpl. repeat split; auto.
  - unfold mbind, ret.
    destruct (attempts_requests (Z.to_nat m) 0 m w) as (w' & Hrun & Hadv).
    exists w', []. split; [exact Hrun|]. split; [reflexivity|].
    exact Hadv.
Qed.

(** X14.  A call of [_safe_get] with a limit of [m] attempts sends at most
    [m] requests, none when [m <= 0], and the seconds of back-off it sleeps
    add up to [15 * (2^m - 1)] at most: 105 seconds for the configured
    three attempts.  The throttling sleep before the first attempt is not
    counted. *)
Theorem safe_get_stays_within_its_budget cfg url max_retries (w : world) :
  exists data w' requests sleeps,
    _safe_get cfg url max_retries w = (Py.Ok data, w') /\
    requests_made w' = (requests_made w + requests)%nat /\
    slept w' = (slept w ++ sleeps)%list /\
    (requests <= Z.to_nat (Spec.retry_limit cfg max_retries))%nat /\
    (0 <= Spec.total (Spec.backoffs sleeps)
     <= 15 * (2 ^ Z.of_nat (Z.to_nat (Spec.retry_limit cfg max_retries)) - 1))%Z /\
    ((Spec.retry_limit cfg max_retries <= 0)%Z ->
     data = None /\ requests = 0%nat /\ Spec.backoffs sleeps = []) /\
    (Spec.retry_limit TRADING None = 3 /\
     15 * (2 ^ Z.of_nat (Z.to_nat (Spec.retry_limit TRADING None)) - 1) = 105)%Z.
Proof.
  destruct (safe_get_requests cfg url max_retries w)
    as (w' & throttle & Hrun & Hth & Hadv).
  set (m := Spec.retry_limit cfg max_retries) in *.
  set (vs := Spec.verdicts w (Z.to_nat m)) in *.
  pose proof Hadv as (_ & Hreq & _ & _ & Hslept).
  eexists _, w', _, _. split; [exact Hrun|]. split; [exact Hreq|].
  split; [exact Hslept|].
  assert (Hlen : List.length vs = Z.to_nat m) by apply verdicts_length.
  split; [rewrite <- Hlen; apply tried_le|].
  rewrite backoffs_app, Hth, backoffs_map. cbn [app].
  split; [|split; [|split; reflexivity]].
  - pose proof (retry_schedule_total m vs 0 ltac:(lia)) as Hb.
    rewrite Hlen in Hb. change (2 ^ 0)%Z with 1%Z in Hb. lia.
  - intros Hm. assert (Hz : Z.to_nat m = 0%nat) by lia.
    subst vs. rewrite Hz. cbn. repeat split.
Qed.

(** X15.  [_safe_get] stops at the first success: when the first request
    of a call that may try at all is answered with a JSON body and a
    status that is neither 429 nor an error, the call returns that body
    after this one request and without any back-off. *)
Theorem safe_get_returns_the_first_success cfg url max_retries (w : world) data :
  (0 < Spec.retry_limit cfg max_retries)%Z ->
  Spec.judge (network w (requests_made w)) = Spec.Success data ->
  exists w',
    _safe_get cfg url max_retries w = (Py.Ok (Some data), w') /\
    requests_made w' = S (requests_made w) /\
    Spec.backoffs (slept w') = Spec.backoffs (slept w).
Proof.
  intros Hm Hfirst.
  destruct (safe_get_requests cfg url max_retries w)
    as (w' & throttle & Hrun & Hth & Hadv).
  set (m := Spec.retry_limit cfg max_retries) in *.
  assert (Hvs : Spec.verdicts w (Z.to_nat m)
                = Spec.Success data
                  :: map (fun i => Spec.judge (network w (requests_made w + i)))
                         (seq 1 (Z.to_nat m - 1))).
  { unfold Spec.verdicts.
    replace (Z.to_nat m) with (S (Z.to_nat m - 1)) at 1 by lia.
    cbn [seq map]. rewrite Nat.add_0_r, Hfirst. reflexivity. }
  rewrite Hvs in Hrun, Hadv. cbn [Spec.retry_schedule Spec.tried fst snd] in *.
  exists w'. split; [exact Hrun|].
  destruct Hadv as (_ & Hreq & _ & _ & Hslept).
  split; [rewrite Hreq; lia|].
  rewrite Hslept, backoffs_app, backoffs_app, Hth. cbn. rewrite app_nil_r.
  reflexivity.
Qed.

Lemma safe_get_returns_the_first_success_witness :
  (0 < Spec.retry_limit TRADING None)%Z /\
  (exists data,
     Spec.judge (network Scenario.online (requests_made Scenario.online))
     = Spec.Success data /\
     exists w',
       _safe_get TRADING "https://api.coingecko.com/api/v3/coins/bitcoin/tickers"
         None Scenario.online
       = (Py.Ok (Some data), w') /\
       requests_made w' = S (requests_made Scenario.online) /\
       Spec.backoffs (slept w') = Spec.backoffs (slept Scenario.online)).
Proof.
  split; [reflexivity|]. eexists.
  assert (H : Spec.judge (network Scenario.online
                            (requests_made Scenario.online))
              = Spec.Success _) by reflexivity.
  split; [exact H|].
  apply (safe_get_returns_the_first_success TRADING _ None Scenario.online _);
    [reflexivity | exact H].
Defined.

End Budget.

Section Cost.
Import Config PriceFetcher.

Lemma spent_refl (w : world) (m : nat) : Spec.spent w w 0 m.
Proof.
  exists 0%nat, []. rewrite Nat.add_0_r, app_nil_r. cbn.
  repeat split; lia.
Qed.

Lemma spent_trans (w1 w2 w3 : world) (c1 c2 m : nat) :
  Spec.spent w1 w2 c1 m -> Spec.spent w2 w3 c2 m ->
  Spec.spent w1 w3 (c1 + c2) m.
Proof.
  intros (n1 & s1 & Hr1 & Hs1 & Hn1 & Ht1) (n2 & s2 & Hr2 & Hs2 & Hn2 & Ht2).
  exists (n1 + n2)%nat, (s1 ++ s2)%list.
  split; [lia|]. split; [rewrite Hs2, Hs1, app_assoc; reflexivity|].
  split; [lia|]. rewrite backoffs_app, total_app. lia.
Qed.

Lemma spent_more (w w' : world) (c c' m : nat) :
  (c <= c')%nat -> Spec.spent w w' c m -> Spec.spent w w' c' m.
Proof.
  intros Hc (n & s & Hr & Hs & Hn & Ht). exists n, s.
  pose proof (backoff_budget_nonneg m).
  repeat split; try assumption; nia.
Qed.

Lemma returns_ret (A : Type) (a : A) (w : world) (post : A -> world -> Prop) :
  post a w -> Spec.returns (ret a) w post.
Proof. intros H. exists a, w. split; [reflexivity | exact H]. Qed.

Lemma returns_bind (A B : Type) (c : M A) (k : A -> M B) (w : world)
    (mid : A -> world -> Prop) (post : B -> world -> Prop) :
  Spec.returns c w mid ->
  (forall a w1, mid a w1 -> Spec.returns (k a) w1 post) ->
  Spec.returns (mbind c k) w post.
Proof.
  intros (a & w1 & Hc & Hmid) Hk.
  destruct (Hk a w1 Hmid) as (b & w2 & Hb & Hpost).
  exists b, w2. unfold mbind. rewrite Hc. split; assumption.
Qed.

Lemma returns_weaken (A : Type) (c : M A) (w : world)
    (post post' : A -> world -> Prop) :
  Spec.returns c w post -> (forall a w', post a w' -> post' a w') ->
  Spec.returns c w post'.
Proof.
  intros (a & w' & Hc & Hp) H. exists a, w'. split; [exact Hc | auto].
Qed.

(** One call of [_safe_get] costs one call. *)
Lemma safe_get_returns cfg url max_retries (w : world) :
  Spec.returns (_safe_get cfg url max_retries) w
    (fun _ w' =>
       Spec.spent w w' 1 (Z.to_nat (Spec.retry_limit cfg max_retries))).
Proof.
  destruct (safe_get_requests cfg url max_retries w)
    as (w' & throttle & Hrun & Hth & Hadv).
  set (m := Spec.retry_limit cfg max_retries) in *.
  eexists _, w'. split; [exact Hrun|].
  destruct Hadv as (_ & Hreq & _ & _ & Hslept).
  eexists _, _. split; [exact Hreq|]. split; [exact Hslept|].
  pose proof (tried_le (Spec.verdicts w (Z.to_nat m))) as Hle.
  rewrite verdicts_length in Hle. split; [lia|].
  rewrite backoffs_app, Hth, backoffs_map. cbn [app].
  pose proof (retry_schedule_total m (Spec.verdicts w (Z.to_nat m)) 0
                ltac:(lia)) as Hb.
  rewrite verdicts_length in Hb. change (2 ^ 0)%Z with 1%Z in Hb.
  unfold Spec.backoff_budget. lia.
Qed.

Lemma get_price_simple_returns cfg coin_ids (w : world) :
  Spec.returns (get_price_simple cfg coin_ids) w
    (fun _ w' => Spec.spent w w' 1 (Z.to_nat (max_retries cfg))).
Proof.
  unfold get_price_simple.
  apply (returns_bind _ _ _ _ _ _ _ (safe_get_returns cfg _ None w)).
  intros data w1 Hs. cbn [Spec.retry_limit] in Hs.
  destruct data as [d|]; [destruct (falsy d)|]; apply returns_ret; exact Hs.
Qed.

End Cost.

Section Quotes.
Import FloatOrder Config PriceFetcher.

Lemma get_set (V : Type) (d : Py.dict V) (k k' : string) (v : V) :
  Py.get (Py.set d k v) k' = if String.eqb k' k then Some v else Py.get d k'.
Proof.
  induction d as [|[k0 v0] d IH]; cbn [Py.set Py.get].
  - destruct (String.eqb k' k); reflexivity.
  - destruct (String.eqb_spec k k0) as [->|Hne]; cbn [Py.get].
    + destruct (String.eqb k' k0); reflexivity.
    + rewrite IH. destruct (String.eqb_spec k' k0) as [->|Hne'];
        [|reflexivity].
      destruct (String.eqb_spec k0 k) as [->|_]; [congruence | reflexivity].
Qed.

Lemma get_none_not_in (V : Type) (d : Py.dict V) (k : string) :
  Py.get d k = None <-> ~ In k (Py.keys d).
Proof.
  induction d as [|[k0 v0] d IH]; cbn [Py.get Py.keys map fst In].
  - split; [intros _ [] | reflexivity].
  - destruct (String.eqb_spec k k0) as [->|Hne].
    + split; [discriminate | intros H; elim H; left; reflexivity].
    + rewrite IH. unfold Py.keys. split.
      * intros H [Heq|Hin]; [congruence | exact (H Hin)].
      * intros H Hin. apply H. right. exact Hin.
Qed.

Lemma get_some_in (V : Type) (d : Py.dict V) (k : string) (v : V) :
  Py.get d k = Some v -> In (k, v) d.
Proof.
  induction d as [|[k0 v0] d IH]; cbn [Py.get]; [discriminate|].
  destruct (String.eqb_spec k k0) as [->|Hne].
  - intros H. injection H as ->. left. reflexivity.
  - intros H. right. exact (IH H).
Qed.

(** Assigning to a key keeps the other keys where they are; a new key
    goes last. *)
Lemma set_keys (V : Type) (d : Py.dict V) (k : string) (v : V) :
  Py.keys (Py.set d k v)
  = if Py.mem d k then Py.keys d else (Py.keys d ++ [k])%list.
Proof.
  unfold Py.mem. induction d as [|[k0 v0] d IH];
    cbn [Py.set Py.get Py.keys map fst app]; [reflexivity|].
  destruct (String.eqb_spec k k0) as [->|Hne]; cbn [map fst]; [reflexivity|].
  fold (Py.keys (Py.set d k v)). rewrite IH. fold (Py.keys d).
  destruct (Py.get d k); reflexivity.
Qed.

Lemma set_keys_nodup (V : Type) (d : Py.dict V) (k : string) (v : V) :
  NoDup (Py.keys d) -> NoDup (Py.keys (Py.set d k v)).
Proof.
  intros H. rewrite set_keys. unfold Py.mem.
  destruct (Py.get d k) eqn:E; [exact H|].
  apply get_none_not_in in E.
  apply NoDup_app; [exact H | repeat constructor; intros [] | ].
  intros x Hx [<-|[]]. exact (E Hx).
Qed.

Lemma set_keys_incl (V : Type) (d : Py.dict V) (k : string) (v : V)
    (allowed : list string) :
  incl (Py.keys d) allowed -> In k allowed ->
  incl (Py.keys (Py.set d k v)) allowed.
Proof.
  intros H Hk. rewrite set_keys. destruct (Py.mem d k); [exact H|].
  apply incl_app; [exact H|]. intros x [<-|[]]. exact Hk.
Qed.

Lemma set_values (V : Type) (good : V -> Prop) (d : Py.dict V) (k : string)
    (v : V) :
  Forall (fun e => good (snd e)) d -> good v ->
  Forall (fun e => good (snd e)) (Py.set d k v).
Proof.
  intros H Hv. induction H as [|[k0 v0] d H0 H IH]; cbn [Py.set].
  - constructor; [exact Hv | constructor].
  - destruct (String.eqb k k0); constructor; assumption.
Qed.

(** One ticker: the quotes kept stay vetted and stay among the wanted
    identifiers. *)
Lemma scan_ticker_keeps (target_ids : list string) (prices : Py.dict float)
    (tk : ticker) :
  Spec.vetted prices -> incl (Py.keys prices) target_ids ->
  Spec.vetted (scan_ticker target_ids prices tk) /\
  incl (Py.keys (scan_ticker target_ids prices tk)) target_ids.
Proof.
  intros Hv Hi. unfold scan_ticker.
  destruct (existsb (String.eqb (market_identifier tk)) target_ids) eqn:Et;
    cbn [negb]; [|split; assumption].
  destruct (negb _); [split; assumption|].
  destruct (converted_last_usd tk) as [p|]; [|split; assumption].
  unfold Py.truthy. rewrite negb_involutive.
  destruct (p =? 0) eqn:Ez; cbn [orb]; [split; assumption|].
  destruct (p <=? 0) eqn:En; [split; assumption|].
  destruct (Py.mem prices (market_identifier tk)); [split; assumption|].
  destruct Hv as [Hnd Hall]. split; [split|].
  - apply set_keys_nodup. exact Hnd.
  - apply (set_values _ (fun x => (x =? 0) = false /\ (x <=? 0) = false));
      [exact Hall | split; assumption].
  - apply set_keys_incl; [exact Hi|].
    apply existsb_exists in Et. destruct Et as (x & Hx & Heq).
    apply String.eqb_eq in Heq. rewrite Heq. exact Hx.
Qed.

Lemma scan_tickers_keep (target_ids : list string) (tickers : list ticker)
    (prices : Py.dict float) :
  Spec.vetted prices -> incl (Py.keys prices) target_ids ->
  Spec.vetted (fold_left (scan_ticker target_ids) tickers prices) /\
  incl (Py.keys (fold_left (scan_ticker target_ids) tickers prices)) target_ids.
Proof.
  revert prices. induction tickers as [|tk tickers IH]; intros prices Hv Hi;
    [split; assumption|].
  cbn [fold_left].
  destruct (scan_ticker_keeps target_ids prices tk Hv Hi) as [Hv' Hi'].
  exact (IH _ Hv' Hi').
Qed.

(** The pages: at most [turns] calls of [_safe_get], and the quotes
    collected are vetted quotes of wanted identifiers. *)
Lemma paging_returns cfg url target_ids turns page prices (w : world) :
  Spec.vetted prices -> incl (Py.keys prices) target_ids ->
  Spec.returns (paging cfg url target_ids turns page prices) w
    (fun prices' w' =>
       Spec.vetted prices' /\ incl (Py.keys prices') target_ids /\
       Spec.spent w w' turns (Z.to_nat (max_retries cfg))).
Proof.
  revert page prices w.
  induction turns as [|turns IH]; intros page prices w Hv Hi.
  - apply returns_ret. split; [exact Hv|]. split; [exact Hi|].
    apply spent_refl.
  - cbn [paging].
    apply (returns_bind _ _ _ _ _ _ _ (safe_get_returns cfg url None w)).
    intros data w1 Hs. cbn [Spec.retry_limit] in Hs.
    assert (Hcost : Spec.spent w w1 (S turns) (Z.to_nat (max_retries cfg)))
      by (apply (spent_more _ _ 1); [lia | exact Hs]).
    assert (Hstop : Spec.returns (ret prices) w1
              (fun prices' w' =>
                 Spec.vetted prices' /\ incl (Py.keys prices') target_ids /\
                 Spec.spent w w' (S turns) (Z.to_nat (max_retries cfg))))
      by (apply returns_ret; repeat split; assumption || apply Hv).
    destruct data as [d|]; [|exact Hstop].
    destruct (falsy d); [exact Hstop|].
    destruct (tickers_of d) as [|tk tks]; [exact Hstop|].
    set (found := fold_left (scan_ticker target_ids) (tk :: tks) prices).
    destruct (scan_tickers_keep target_ids (tk :: tks) prices Hv Hi)
      as [Hv' Hi']. fold found in Hv', Hi'.
    assert (Hfound : Spec.returns (ret found) w1
              (fun prices' w' =>
                 Spec.vetted prices' /\ incl (Py.keys prices') target_ids /\
                 Spec.spent w w' (S turns) (Z.to_nat (max_retries cfg))))
      by (apply returns_ret; repeat split; assumption || apply Hv').
    destruct (forallb (Py.mem found) target_ids); [exact Hfound|].
    destruct (negb (has_more_of d)
              && (Z.of_nat (List.length (tk :: tks)) <? 100)%Z);
      [exact Hfound|].
    destruct (5 <? page + 1)%Z; [exact Hfound|].
    apply (returns_weaken _ _ _ _ _ (IH (page + 1)%Z found w1 Hv' Hi')).
    intros prices' w' (Hv2 & Hi2 & Hs2).
    split; [exact Hv2|]. split; [exact Hi2|].
    exact (spent_trans _ _ _ 1 turns _ Hs Hs2).
Qed.

(** The friendly names: every identifier asked for goes back to a
    configured exchange. *)
Lemma friendly_names_values (wanted : list string)
    (id_map acc : Py.dict string) :
  (forall k v, Py.get acc k = Some v -> In v wanted) ->
  forall k v,
    Py.get (fold_left
              (fun acc e =>
                 if existsb (String.eqb (fst e)) wanted
                 then Py.set acc (snd e) (fst e) else acc)
              id_map acc) k = Some v ->
    In v wanted.
Proof.
  revert acc. induction id_map as [|[ex id] id_map IH]; intros acc Hacc;
    [exact Hacc|].
  cbn [fold_left fst snd]. apply IH.
  destruct (existsb (String.eqb ex) wanted) eqn:E; [|exact Hacc].
  intros k v. rewrite get_set.
  destruct (String.eqb k id); [|apply Hacc].
  intros H. injection H as <-.
  apply existsb_exists in E. destruct E as (x & Hx & Heq).
  apply String.eqb_eq in Heq. rewrite Heq. exact Hx.
Qed.

Lemma friendly_names_keys (wanted : list string)
    (id_map acc : Py.dict string) (ex id : string) :
  (In (ex, id) id_map /\ In ex wanted) \/ Py.get acc id <> None ->
  Py.get (fold_left
            (fun acc e =>
               if existsb (String.eqb (fst e)) wanted
               then Py.set acc (snd e) (fst e) else acc)
            id_map acc) id <> None.
Proof.
  revert acc. induction id_map as [|[ex' id'] id_map IH]; intros acc H.
  - destruct H as [[[] _]|H]; exact H.
  - cbn [fold_left fst snd]. apply IH.
    destruct H as [[[Heq|Hin] Hw]|H].
    + injection Heq as -> ->. right.
      assert (E : existsb (String.eqb ex) wanted = true).
      { apply existsb_exists. exists ex. split; [exact Hw|].
        apply String.eqb_refl. }
      rewrite E, get_set, String.eqb_refl. discriminate.
    + left. split; assumption.
    + right. destruct (existsb (String.eqb ex') wanted); [|exact H].
      rewrite get_set. destruct (String.eqb id id'); [discriminate | exact H].
Qed.

Lemma friendly_in_exchanges cfg (id : string) :
  In id (target_ids_of cfg) ->
  In (Py.get_or (id_to_friendly_of cfg) id id) (exchanges cfg).
Proof.
  unfold target_ids_of. rewrite in_map_iff. intros (ex & Hid & Hex).
  unfold Py.get_or at 1.
  destruct (Py.get (id_to_friendly_of cfg) id) as [k|] eqn:Ek.
  - revert Ek. unfold id_to_friendly_of. apply friendly_names_values.
    intros k' v' H. discriminate H.
  - unfold Py.get_or in Hid.
    destruct (Py.get EXCHANGE_ID_MAP ex) as [v|] eqn:Ev.
    + exfalso. subst v. apply get_some_in in Ev.
      exact (friendly_names_keys (exchanges cfg) EXCHANGE_ID_MAP [] ex id
               (or_introl (conj Ev Hex)) Ek).
    + subst id. exact Hex.
Qed.

(** The real quotes under their configured names. *)
Lemma rename_keeps cfg (prices acc : Py.dict float) :
  Spec.vetted prices -> incl (Py.keys prices) (target_ids_of cfg) ->
  Spec.vetted acc -> incl (Py.keys acc) (exchanges cfg) ->
  let renamed :=
    fold_left
      (fun acc e =>
         let friendly := Py.get_or (id_to_friendly_of cfg) (fst e) (fst e) in
         Py.set acc friendly (snd e))
      prices acc in
  Spec.vetted renamed /\ incl (Py.keys renamed) (exchanges cfg).
Proof.
  cbv zeta. revert acc.
  induction prices as [|[id p] prices IH]; intros acc Hv Hi Ha Hia;
    [split; assumption|].
  cbn [fold_left fst snd].
  destruct Hv as [Hnd Hall]. cbn [Py.keys map fst] in Hnd, Hi.
  apply IH.
  - split; [exact (proj2 (proj1 (NoDup_cons_iff _ _) Hnd))
           | exact (Forall_inv_tail Hall)].
  - intros x Hx. apply Hi. right. exact Hx.
  - destruct Ha as [Hand Haall]. split.
    + apply set_keys_nodup. exact Hand.
    + apply (set_values _ (fun x => (x =? 0) = false /\ (x <=? 0) = false));
        [exact Haall | exact (Forall_inv Hall)].
  - apply set_keys_incl; [exact Hia|].
    apply friendly_in_exchanges. apply Hi. left. reflexivity.
Qed.

Lemma vetted_nil : Spec.vetted [].
Proof. split; constructor. Qed.

Lemma real_prices_returns cfg coin_id (w : world) :
  Spec.returns (real_prices cfg coin_id) w
    (fun real w' =>
       Spec.vetted real /\ incl (Py.keys real) (exchanges cfg) /\
       Spec.spent w w' 5 (Z.to_nat (max_retries cfg))).
Proof.
  unfold real_prices.
  apply (returns_bind _ _ _ _ _ _ _
           (paging_returns cfg _ (target_ids_of cfg) 5 1 [] w vetted_nil
              (incl_nil_l _))).
  intros prices w1 (Hv & Hi & Hs). apply returns_ret.
  destruct (rename_keeps cfg prices [] Hv Hi vetted_nil (incl_nil_l _))
    as [Hv' Hi'].
  split; [exact Hv'|]. split; [exact Hi' | exact Hs].
Qed.

(** The synthetic quotes cost no request; on distinct exchanges there is
    one for each. *)
Lemma simulate_each_returns (m : nat) exchanges base_price simulated
    (w : world) :
  Spec.returns (simulate_each exchanges base_price simulated) w
    (fun quotes w' =>
       Spec.spent w w' 0 m /\
       (NoDup (Py.keys simulated ++ exchanges) ->
        Py.keys quotes = (Py.keys simulated ++ exchanges)%list)).
Proof.
  revert simulated w.
  induction exchanges as [|e rest IH]; intros simulated w.
  - apply returns_ret. split; [apply spent_refl|].
    intros _. rewrite app_nil_r. reflexivity.
  - cbn [simulate_each]. unfold random_uniform.
    match goal with
    | |- Spec.returns (mbind ?c ?k) _ _ =>
        apply (returns_bind _ _ c k w
                 (fun _ w1 => Spec.spent w w1 0 m))
    end.
    + eexists _, _. split; [reflexivity|]. cbn.
      exists 0%nat, []. cbn. rewrite Nat.add_0_r, app_nil_r.
      repeat split; lia.
    + intros u w1 Hs.
      apply (returns_weaken _ _ _ _ _ (IH _ w1)).
      intros quotes w' (Hs' & Hk). split.
      * exact (spent_trans _ _ _ 0 0 _ Hs Hs').
      * intros Hnd. rewrite set_keys in Hk. unfold Py.mem in Hk.
        assert (Hfresh : Py.get simulated e = None).
        { apply get_none_not_in. apply NoDup_remove_2 in Hnd.
          intros Hin. apply Hnd. apply in_or_app. left. exact Hin. }
        rewrite Hfresh, <- app_assoc in Hk. apply Hk. exact Hnd.
Qed.

Lemma simulate_exchange_prices_returns cfg coin_id base_price (w : world) :
  Spec.returns (_simulate_exchange_prices cfg coin_id base_price) w
    (fun quotes w' =>
       Spec.spent w w' 1 (Z.to_nat (max_retries cfg)) /\
       (NoDup (exchanges cfg) -> Py.keys quotes = exchanges cfg)).
Proof.
  unfold _simulate_exchange_prices.
  match goal with
  | |- Spec.returns (mbind ?c ?k) _ _ =>
      apply (returns_bind _ _ c k w
               (fun _ w1 => Spec.spent w w1 1 (Z.to_nat (max_retries cfg))))
  end.
  - destruct base_price as [p|].
    + apply returns_ret. apply (spent_more _ _ 0); [lia | apply spent_refl].
    + apply (returns_bind _ _ _ _ _ _ _
               (get_price_simple_returns cfg [coin_id] w)).
      intros data w1 Hs.
      destruct (negb (falsy data) && has_coin data coin_id);
        apply returns_ret; exact Hs.
  - intros base w1 Hs.
    apply (returns_weaken _ _ _ _ _
             (simulate_each_returns (Z.to_nat (max_retries cfg))
                (exchanges cfg) _ [] w1)).
    intros quotes w' (Hs' & Hk). split.
    + exact (spent_trans _ _ _ 1 0 _ Hs Hs').
    + exact Hk.
Qed.

(** All of [get_all_exchange_prices]: it returns; it costs seven calls of
    [_safe_get] at most (five pages and the simple price twice); and it
    brings back either two or more vetted real quotes or one synthetic
    quote for each configured exchange. *)
Lemma get_all_exchange_prices_returns cfg coin_id (w : world) :
  Spec.returns (get_all_exchange_prices cfg coin_id) w
    (fun quotes w' =>
       Spec.spent w w' 7 (Z.to_nat (max_retries cfg)) /\
       ((2 <= List.length quotes)%nat /\ Spec.vetted quotes /\
        incl (Py.keys quotes) (exchanges cfg) /\
        fst (real_prices cfg coin_id w) = Py.Ok quotes
        \/
        (exists real, fst (real_prices cfg coin_id w) = Py.Ok real /\
                      (List.length real < 2)%nat) /\
        (NoDup (exchanges cfg) -> Py.keys quotes = exchanges cfg))).
Proof.
  unfold get_all_exchange_prices.
  destruct (real_prices_returns cfg coin_id w)
    as (real & w1 & Hreal & Hv & Hi & Hs).
  apply (returns_bind _ _ _ _ w (fun a w' => a = real /\ w' = w1)).
  { exists real, w1. split; [exact Hreal | split; reflexivity]. }
  intros real' w1' [-> ->]. rewrite Hreal. cbn [fst].
  destruct (List.length real <? 2)%nat eqn:El.
  - apply Nat.ltb_lt in El.
    apply (returns_bind _ _ _ _ _ _ _
             (get_price_simple_returns cfg [coin_id] w1)).
    intros data w2 Hs2.
    apply (returns_weaken _ _ _ _ _
             (simulate_exchange_prices_returns cfg coin_id _ w2)).
    intros quotes w' (Hs3 & Hk). split.
    + exact (spent_trans _ _ _ 5 2 _ Hs (spent_trans _ _ _ 1 1 _ Hs2 Hs3)).
    + right. split; [exists real; split; [reflexivity | exact El] | exact Hk].
  - apply Nat.ltb_ge in El. apply returns_ret. split.
    + apply (spent_more _ _ 5); [lia | exact Hs].
    + left. split; [exact El|]. split; [exact Hv|].
      split; [exact Hi | reflexivity].
Qed.

(** X16.  The real quotes [get_all_exchange_prices] works with are
    vetted: at most one per exchange, each filed under the name of a
    configured exchange, none of them zero or below zero, so that every
    quote that is a number is positive. *)
Theorem real_quotes_are_vetted cfg coin_id (w : world) :
  exists quotes w',
    real_prices cfg coin_id w = (Py.Ok quotes, w') /\
    NoDup (Py.keys quotes) /\
    Forall (fun e =>
              In (fst e) (exchanges cfg) /\
              (snd e =? 0) = false /\ (snd e <=? 0) = false /\
              (Spec.ordered (snd e) -> (0 <? snd e) = true))
           quotes.
Proof.
  destruct (real_prices_returns cfg coin_id w)
    as (real & w1 & Hreal & [Hnd Hall] & Hi & _).
  exists real, w1. split; [exact Hreal|]. split; [exact Hnd|].
  apply Forall_forall. intros e He.
  pose proof (proj1 (Forall_forall _ _) Hall e He) as [Hz Hn].
  split; [apply Hi; apply in_map; exact He|].
  split; [exact Hz|]. split; [exact Hn|].
  intros Hord. destruct (0 <? snd e) eqn:E; [reflexivity|].
  assert (H0 : Spec.ordered 0) by reflexivity.
  pose proof (not_ltb_leb 0 (snd e) H0 Hord E). congruence.
Qed.

End Quotes.

Section FetchAndDetect.
Import FloatOrder Config PriceFetcher.

Lemma min_from_in (A : Type) (key : A -> float) (l : list A) (best : A) :
  In (Py.min_from key best l) (best :: l).
Proof.
  revert best. induction l as [|x l IH]; intros best; cbn [Py.min_from];
    [left; reflexivity|].
  destruct (IH (if key x <? key best then x else best)) as [H|H].
  - destruct (key x <? key best); [right; left | left]; exact H.
  - right. right. exact H.
Qed.

Lemma max_from_in (A : Type) (key : A -> float) (l : list A) (best : A) :
  In (Py.max_from key best l) (best :: l).
Proof.
  revert best. induction l as [|x l IH]; intros best; cbn [Py.max_from];
    [left; reflexivity|].
  destruct (IH (if key best <? key x then x else best)) as [H|H].
  - destruct (key best <? key x); [right; left | left]; exact H.
  - right. right. exact H.
Qed.

(** Vetted quotes are safe for the detector: its division is by a quote
    of the map, and none is zero. *)
Lemma find_opportunity_on_vetted cfg coin_id (d : Py.dict float) :
  Spec.vetted d ->
  exists r, ArbitrageDetector.find_opportunity cfg coin_id d = Py.Ok r.
Proof.
  intros [Hnd Hall]. unfold ArbitrageDetector.find_opportunity.
  destruct d as [|e rest]; [eexists; reflexivity|].
  destruct (List.length (e :: rest) <? 2)%nat; [eexists; reflexivity|].
  cbn [Py.min_key Py.max_key Py.bind].
  pose proof (min_from_in _ snd rest e) as Imin.
  pose proof (max_from_in _ snd rest e) as Imax.
  rewrite (getitem_entry _ _ Hnd Imin). cbn [Py.bind].
  rewrite (getitem_entry _ _ Hnd Imax). cbn [Py.bind].
  destruct (String.eqb _ _); [eexists; reflexivity|].
  unfold Py.truediv.
  rewrite (proj1 (proj1 (Forall_forall _ _) Hall _ Imin)). cbn [Py.bind].
  eexists. reflexivity.
Qed.

(** X17.  The fetcher and the detector compose on real quotes:
    [find_opportunity] never raises on the real quotes of a coin, which
    are what [get_all_exchange_prices] returns when there are two or
    more of them. *)
Theorem real_quotes_never_break_the_detector cfg coin_id (w : world) :
  exists quotes w' r,
    real_prices cfg coin_id w = (Py.Ok quotes, w') /\
    ArbitrageDetector.find_opportunity cfg coin_id quotes = Py.Ok r /\
    ((2 <= List.length quotes)%nat ->
     get_all_exchange_prices cfg coin_id w = (Py.Ok quotes, w')).
Proof.
  destruct (real_prices_returns cfg coin_id w)
    as (real & w1 & Hreal & Hv & _).
  destruct (find_opportunity_on_vetted cfg coin_id real Hv) as (r & Hr).
  exists real, w1, r. split; [exact Hreal|]. split; [exact Hr|].
  intros Hlen. unfold get_all_exchange_prices, mbind. rewrite Hreal.
  apply Nat.ltb_ge in Hlen. rewrite Hlen. reflexivity.
Qed.



(** X19.  What the quotes of one coin cost at most: seven calls of
    [_safe_get] (five pages of tickers, and the simple price once before
    and once inside the fallback), so seven times the configured number of
    attempts in requests and seven times the back-off of one call in
    seconds slept: 21 requests and 735 seconds with three attempts. *)
Theorem get_all_exchange_prices_stays_within_its_budget
    cfg coin_id (w : world) :
  exists quotes w' requests sleeps,
    get_all_exchange_prices cfg coin_id w = (Py.Ok quotes, w') /\
    requests_made w' = (requests_made w + requests)%nat /\
    slept w' = (slept w ++ sleeps)%list /\
    (requests <= 7 * Z.to_nat (max_retries cfg))%nat /\
    (Spec.total (Spec.backoffs sleeps)
     <= 7 * (15 * (2 ^ Z.of_nat (Z.to_nat (max_retries cfg)) - 1)))%Z /\
    (7 * Z.to_nat (max_retries TRADING) = 21)%nat /\
    (7 * (15 * (2 ^ Z.of_nat (Z.to_nat (max_retries TRADING)) - 1)) = 735)%Z.
Proof.
  destruct (get_all_exchange_prices_returns cfg coin_id w)
    as (quotes & w' & Hrun & (n & s & Hr & Hs & Hn & Ht) & _).
  exists quotes, w', n, s. repeat split; assumption.
Qed.

End FetchAndDetect.

(* ===================================================================== *)
(** * Labels and multipliers *)
(* ===================================================================== *)

Section Labels.
Import FloatOrder Config.

(** X20.  With the configured thresholds the label of a score and the
    multiplier [_sentiment_to_risk] gives it tell the same story, but for
    one score: a score labelled BULLISH gets 1.2 or 1.5, a score labelled
    NEUTRAL gets 1.0, and a score labelled BEARISH gets 0.7 or 0.3 unless
    it is -0.2 itself, which is labelled BEARISH and sized as neutral;
    each times 1.1 when the coin is trending. *)
Theorem label_and_multiplier_agree
    (sentiment : SentimentAnalyzer.SentimentResult) :
  Spec.ordered (SentimentAnalyzer.score sentiment) ->
  let score := SentimentAnalyzer.score sentiment in
  let label := SentimentAnalyzer._score_to_label TRADING score in
  let multiplier := TradeSimulator._sentiment_to_risk sentiment in
  let scaled := fun m : float =>
    if SentimentAnalyzer.trending sentiment then m * 1.1 else m in
  (label = "BULLISH" \/ label = "NEUTRAL" \/ label = "BEARISH") /\
  (label = "BULLISH" -> multiplier = scaled 1.2 \/ multiplier = scaled 1.5) /\
  (label = "NEUTRAL" -> multiplier = scaled 1.0) /\
  (label = "BEARISH" ->
   multiplier = scaled 0.7 \/ multiplier = scaled 0.3 \/
   ((score =? -0.2) = true /\ multiplier = scaled 1.0)).
Proof.
  intros Hord. cbv zeta.
  unfold SentimentAnalyzer._score_to_label, TradeSimulator._sentiment_to_risk.
  cbn [sentiment_bullish_threshold sentiment_bearish_threshold TRADING].
  set (s := SentimentAnalyzer.score sentiment) in *.
  destruct (0.2 <=? s) eqn:E2.
  - split; [auto|]. split; [|split; intros H; discriminate H].
    intros _. destruct (0.5 <=? s); auto.
  - assert (E5 : (0.5 <=? s) = false).
    { destruct (0.5 <=? s) eqn:E; [|reflexivity].
      assert (H : (0.2 <=? 0.5) = true) by (vm_compute; reflexivity).
      rewrite (leb_trans 0.2 0.5 s H E) in E2. discriminate E2. }
    rewrite E5.
    destruct (s <=? -0.2) eqn:Eb.
    + split; [auto|]. split; [intros H; discriminate H|].
      split; [intros H; discriminate H|]. intros _.
      destruct (-0.2 <=? s) eqn:En.
      * right. right. split; [exact (leb_antisym _ _ Eb En) | reflexivity].
      * destruct (-0.5 <=? s); auto.
    + split; [auto|]. split; [intros H; discriminate H|].
      split; [|intros H; discriminate H]. intros _.
      assert (En : (-0.2 <=? s) = true).
      { assert (H0 : Spec.ordered (-0.2)) by reflexivity.
        destruct (-0.2 <? s) eqn:El; [apply ltb_leb; exact El|].
        rewrite (not_ltb_leb _ _ H0 Hord El) in Eb. discriminate Eb. }
      rewrite En. reflexivity.
Qed.

Lemma label_and_multiplier_agree_witness :
  Spec.ordered (SentimentAnalyzer.score Scenario.bearish) /\
  SentimentAnalyzer._score_to_label TRADING
    (SentimentAnalyzer.score Scenario.bearish) = "BEARISH" /\
  TradeSimulator._sentiment_to_risk Scenario.bearish = 0.7 * 1.1 /\
  (SentimentAnalyzer._score_to_label TRADING
     (SentimentAnalyzer.score Scenario.bearish) = "BEARISH" ->
   TradeSimulator._sentiment_to_risk Scenario.bearish = 0.7 * 1.1 \/
   TradeSimulator._sentiment_to_risk Scenario.bearish = 0.3 * 1.1 \/
   ((SentimentAnalyzer.score Scenario.bearish =? -0.2) = true /\
    TradeSimulator._sentiment_to_risk Scenario.bearish = 1.0 * 1.1)).
Proof.
  assert (Hord : Spec.ordered (SentimentAnalyzer.score Scenario.bearish))
    by reflexivity.
  split; [exact Hord|]. split; [reflexivity|]. split; [reflexivity|].
  exact (proj2 (proj2 (proj2
           (label_and_multiplier_agree Scenario.bearish Hord)))).
Defined.

End Labels.

Section FirstQuote.
Import Config PriceFetcher.

Lemma scan_ticker_keeps_quote (target_ids : list string)
    (prices : Py.dict float) (tk : ticker) (id : string) (p : float) :
  Py.get prices id = Some p ->
  Py.get (scan_ticker target_ids prices tk) id = Some p.
Proof.
  intros H. unfold scan_ticker.
  destruct (negb (existsb _ target_ids)); [exact H|].
  destruct (negb _); [exact H|].
  destruct (converted_last_usd tk) as [price_usd|]; [|exact H].
  destruct (negb (Py.truthy price_usd) || (price_usd <=? 0)); [exact H|].
  unfold Py.mem.
  destruct (Py.get prices (market_identifier tk)) eqn:E; [exact H|].
  rewrite get_set. destruct (String.eqb_spec id (market_identifier tk));
    [congruence | exact H].
Qed.

Lemma scan_tickers_keep_quote (target_ids : list string)
    (tickers : list ticker) (prices : Py.dict float) (id : string) (p : float) :
  Py.get prices id = Some p ->
  Py.get (fold_left (scan_ticker target_ids) tickers prices) id = Some p.
Proof.
  revert prices. induction tickers as [|tk tickers IH]; intros prices H;
    [exact H|].
  cbn [fold_left]. apply IH. apply scan_ticker_keeps_quote. exact H.
Qed.

Lemma paging_keeps_quote cfg url target_ids turns page prices (w : world)
    id p :
  Py.get prices id = Some p ->
  Spec.returns (paging cfg url target_ids turns page prices) w
    (fun prices' _ => Py.get prices' id = Some p).
Proof.
  revert page prices w.
  induction turns as [|turns IH]; intros page prices w H.
  - apply returns_ret. exact H.
  - cbn [paging].
    apply (returns_bind _ _ _ _ _ _ _ (safe_get_returns cfg url None w)).
    intros data w1 _.
    assert (Hstop : Spec.returns (ret prices) w1
                      (fun prices' _ => Py.get prices' id = Some p))
      by (apply returns_ret; exact H).
    destruct data as [d|]; [|exact Hstop].
    destruct (falsy d); [exact Hstop|].
    destruct (tickers_of d) as [|tk tks]; [exact Hstop|].
    set (found := fold_left (scan_ticker target_ids) (tk :: tks) prices).
    assert (Hf : Py.get found id = Some p)
      by (apply scan_tickers_keep_quote; exact H).
    assert (Hfound : Spec.returns (ret found) w1
                       (fun prices' _ => Py.get prices' id = Some p))
      by (apply returns_ret; exact Hf).
    destruct (forallb (Py.mem found) target_ids); [exact Hfound|].
    destruct (negb (has_more_of d)
              && (Z.of_nat (List.length (tk :: tks)) <? 100)%Z);
      [exact Hfound|].
    destruct (5 <? page + 1)%Z; [exact Hfound|].
    exact (IH (page + 1)%Z found w1 Hf).
Qed.

(** X21.  Only the first valid quote of an exchange is kept: a quote that
    is in the map stays in it, with its price, through every later ticker
    and every later page. *)
Theorem first_quote_of_an_exchange_is_kept
    cfg url target_ids turns page prices (w : world) id p :
  Py.get prices id = Some p ->
  exists prices' w',
    paging cfg url target_ids turns page prices w = (Py.Ok prices', w') /\
    Py.get prices' id = Some p.
Proof.
  intros H. exact (paging_keeps_quote cfg url target_ids turns page prices w
                     id p H).
Qed.

Lemma first_quote_of_an_exchange_is_kept_witness :
  Py.get [("binance", 67000)] "binance" = Some 67000 /\
  exists prices' w',
    paging TRADING "https://api.coingecko.com/api/v3/coins/bitcoin/tickers"
      (target_ids_of TRADING) 5 1 [("binance", 67000)] Scenario.online
    = (Py.Ok prices', w') /\
    Py.get prices' "binance" = Some 67000.
Proof.
  assert (H : Py.get [("binance", 67000)] "binance" = Some 67000)
    by reflexivity.
  split; [exact H|].
  exact (first_quote_of_an_exchange_is_kept TRADING _ (target_ids_of TRADING)
           5 1 [("binance", 67000)] Scenario.online "binance" 67000 H).
Defined.

End FirstQuote.

Section Startup.
Import Config TradeSimulator.




End Startup.
